(** * The GitHub reporter of prow (package [report])

    A shallow embedding of [report.go]: the status mapper
    [prowjobStateToGitHubStatus], the comment reconciler
    [parseIssueComments], the renderers [createEntry] and [createComment],
    and the synchronizer [createOrUpdateComments] / [ReportComment] /
    [ReportStatusContext], followed by the properties the specification
    states about them.

    Conventions of the embedding:
    - a Go [string] is a Rocq [string] (a sequence of bytes);
    - a Go [int] is a [Z] (identifiers are only compared with 0);
    - a Go [map[string]T] is a [gmap string T];
    - a nil-able pointer is an [option];
    - a Go [error] is the text of its message;
    - a run-time panic (nil dereference, index out of range) is the
      outcome [Panic] (or [None] for the pure renderers);
    - the remote client is a record of state-passing operations, and every
      call made through it is appended to a log of [Call]s. *)

From Stdlib Require Import ZArith List Bool Ascii String DecimalString Lia.
From stdpp Require Import base option gmap strings.
Import ListNotations.

Local Open Scope string_scope.
Local Open Scope list_scope.

(* ================================================================== *)
(** ** The fragment of Go's [strings] and [strconv] packages used here *)
(* ================================================================== *)

(** A string from the decimal codes of its bytes. *)
Definition bytes (l : list nat) : string :=
  string_of_list_ascii (map ascii_of_nat l).

(** The line feed, Go's ["\n"]. *)
Definition LF : string := bytes [10].

(** [strings.HasPrefix(s, prefix)]. *)
Definition HasPrefix (s prefix : string) : bool := String.prefix prefix s.

(** [strings.Contains(s, substr)]: some suffix of [s] starts with [substr]. *)
Fixpoint Contains (s substr : string) : bool :=
  HasPrefix s substr ||
  match s with
  | EmptyString => false
  | String _ s' => Contains s' substr
  end.

(** [strings.Join(elems, sep)]. *)
Definition Join (elems : list string) (sep : string) : string :=
  String.concat sep elems.

(** [strings.Split(s, sep)] for a non-empty [sep] (the only use here: the
    separators are the line feed and [" | "]): the pieces between the
    successive, non-overlapping occurrences of [sep], scanning from the left.
    [skip] counts the bytes of an occurrence still to be passed over and
    [cur] is the piece being read. *)
Fixpoint splitFrom (sep : string) (skip : nat) (cur s : string) : list string :=
  match s with
  | EmptyString => [cur]
  | String c s' =>
      match skip with
      | S k => splitFrom sep k cur s'
      | O =>
          if HasPrefix s sep
          then cur :: splitFrom sep (String.length sep - 1) EmptyString s'
          else splitFrom sep 0 (cur +:+ String c EmptyString) s'
      end
  end.

Definition Split (s sep : string) : list string :=
  splitFrom sep 0 EmptyString s.

(** The encodings (UTF-8) of the code points for which [unicode.IsSpace]
    holds: the six ASCII ones, U+0085, U+00A0, U+1680, U+2000 to U+200A,
    U+2028, U+2029, U+202F, U+205F and U+3000. *)
Definition spaceRunes : list string :=
  map (fun c => bytes [c]) [9; 10; 11; 12; 13; 32]
  ++ [bytes [194; 133]; bytes [194; 160]; bytes [225; 154; 128]]
  ++ map (fun c => bytes [226; 128; c])
       [128; 129; 130; 131; 132; 133; 134; 135; 136; 137; 138; 168; 169; 175]
  ++ [bytes [226; 129; 159]; bytes [227; 128; 128]].

(** Length of the white-space rune [s] starts with, if it starts with one. *)
Definition leadingSpace (runes : list string) (s : string) : option nat :=
  String.length <$> find (HasPrefix s) runes.

(** Drops the white-space runes [s] starts with; [skip] counts the
    remaining bytes of the rune being dropped. *)
Fixpoint trimLeftFrom (runes : list string) (skip : nat) (s : string) : string :=
  match s with
  | EmptyString => EmptyString
  | String _ s' =>
      match skip with
      | S k => trimLeftFrom runes k s'
      | O =>
          match leadingSpace runes s with
          | Some n => trimLeftFrom runes (n - 1) s'
          | None => s
          end
      end
  end.

Definition TrimLeftSpace (s : string) : string := trimLeftFrom spaceRunes 0 s.

(** Trailing runes are dropped by reading the string backwards. *)
Definition TrimRightSpace (s : string) : string :=
  String.rev (trimLeftFrom (map String.rev spaceRunes) 0 (String.rev s)).

(** [strings.TrimSpace(s)]: [s] without leading and trailing white space. *)
Definition TrimSpace (s : string) : string := TrimRightSpace (TrimLeftSpace s).

(** [strconv.ParseBool(str)]; [None] is the error result. *)
Definition ParseBool (str : string) : option bool :=
  if existsb (String.eqb str) ["1"; "t"; "T"; "TRUE"; "true"; "True"] then Some true
  else if existsb (String.eqb str) ["0"; "f"; "F"; "FALSE"; "false"; "False"] then Some false
  else None.

(** [strconv.FormatBool(b)]. *)
Definition FormatBool (b : bool) : string := if b then "true" else "false".

(* ================================================================== *)
(** ** Data: [prowapi], [github] and [config] types the reporter reads *)
(* ================================================================== *)

(** [prowapi.ProwJobState] and [prowapi.ProwJobType] are string types, so a
    job may carry a value outside the declared constants. *)
Abbreviation ProwJobState := string (only parsing).
Abbreviation ProwJobType := string (only parsing).

(** Modelled from the spec: the six outcome states, declared in package
    [prowapi] outside these sources. The reconciler compares a state with
    [github.StatusFailure] and the tests build states from the status
    literals, so Failure is the string of the failure status. *)
Definition TriggeredState : ProwJobState := "triggered".
Definition PendingState : ProwJobState := "pending".
Definition SuccessState : ProwJobState := "success".
Definition FailureState : ProwJobState := "failure".
Definition AbortedState : ProwJobState := "aborted".
Definition ErrorState : ProwJobState := "error".

(** Modelled from the spec: the job kinds, declared in package [prowapi]
    outside these sources. *)
Definition PresubmitJob : ProwJobType := "presubmit".
Definition PostsubmitJob : ProwJobType := "postsubmit".
Definition PeriodicJob : ProwJobType := "periodic".
Definition BatchJob : ProwJobType := "batch".

(** Modelled from the spec: the four literals of the status vocabulary,
    declared in package [github] outside these sources. *)
Definition StatusPending : string := "pending".
Definition StatusSuccess : string := "success".
Definition StatusError : string := "error".
Definition StatusFailure : string := "failure".

(** Modelled from the spec: the key of the label that says whether a
    presubmit job is optional, declared in package [kube] outside these
    sources; only its being one fixed key matters. *)
Definition IsOptionalLabel : string := "prow.k8s.io/is-optional".

Definition commentTag : string := "<!-- test report -->".
Definition prCommitNote : string := "postsubmit job(s) were triggered at commit: ".

(** [plugins.AboutThisBot], as the expected comments of [TestCreateComment]
    spell it out. *)
Definition AboutThisBot : string :=
  "Instructions for interacting with me using PR comments are available [here](https://git.k8s.io/community/contributors/guide/pull-requests.md).  If you have questions or suggestions related to my behavior, please file an issue against the [kubernetes/test-infra](https://github.com/kubernetes/test-infra/issues/new?title=Prow%20issue:) repository. I understand the commands that are listed [here](https://go.k8s.io/bot-commands).".

Module Pull.
Record t := mk { Number : Z; Author : string; SHA : string }.
End Pull.

Module Refs.
Record t := mk {
  Org : string;
  Repo : string;
  BaseSHA : string;
  Author : string;
  Pulls : list Pull.t }.
End Refs.

Module GitHubReporterConfig.
Record t := mk { CommentOnPostsubmits : bool }.
End GitHubReporterConfig.

Module ReporterConfig.
Record t := mk { GitHub : option GitHubReporterConfig.t }.
End ReporterConfig.

Module ProwJobSpec.
Record t := mk {
  Type_ : ProwJobType;
  Job : string;
  Context : string;
  Refs : option Refs.t;
  Report : bool;
  RerunCommand : string;
  ReporterConfig : option ReporterConfig.t }.
End ProwJobSpec.

Module ProwJobStatus.
Record t := mk {
  State : ProwJobState;
  Description : string;
  URL : string;
  CompletionTime : option Z }.
End ProwJobStatus.

Module ObjectMeta.
Record t := mk { Name : string; Labels : gmap string string }.
End ObjectMeta.

Module ProwJob.
Record t := mk {
  ObjectMeta : ObjectMeta.t;
  Spec : ProwJobSpec.t;
  Status : ProwJobStatus.t }.
End ProwJob.

Module User.
Record t := mk { Login : string }.
End User.

Module IssueComment.
Record t := mk { ID : Z; Body : string; User : User.t }.
End IssueComment.

Module Status.
Record t := mk {
  State : string;
  Description : string;
  Context : string;
  TargetURL : string }.
End Status.

Module GitHubReporter.
Record t := mk { JobTypesToReport : list ProwJobType }.
End GitHubReporter.

(** Modelled from the spec: the method [Complete] of [prowapi.ProwJob] is
    not part of these sources; the job's completion flag is set when the
    job has a completion time ([TestReport] sets one on finished jobs). *)
Definition Complete (pj : ProwJob.t) : bool :=
  bool_decide (is_Some (ProwJobStatus.CompletionTime (ProwJob.Status pj))).

(** Selectors of a job, as the source chains them. *)
Definition jobType (pj : ProwJob.t) : ProwJobType := ProwJobSpec.Type_ (ProwJob.Spec pj).
Definition jobContext (pj : ProwJob.t) : string := ProwJobSpec.Context (ProwJob.Spec pj).
Definition jobRefs (pj : ProwJob.t) : option Refs.t := ProwJobSpec.Refs (ProwJob.Spec pj).
Definition jobState (pj : ProwJob.t) : ProwJobState := ProwJobStatus.State (ProwJob.Status pj).
Definition jobURL (pj : ProwJob.t) : string := ProwJobStatus.URL (ProwJob.Status pj).
Definition jobLabels (pj : ProwJob.t) : gmap string string := ObjectMeta.Labels (ProwJob.ObjectMeta pj).

(* ================================================================== *)
(** ** Results, errors and panics *)
(* ================================================================== *)

(** A Go pair [(value, error)]. *)
Inductive result (A : Type) : Type :=
| Value (a : A)
| Error (err : string).
Arguments Value {A} a.
Arguments Error {A} err.

(** How a call ends: it returns, returns an error, or panics. *)
Inductive outcome (A : Type) : Type :=
| Ok (a : A)
| Failed (err : string)
| Panic.
Arguments Ok {A} a.
Arguments Failed {A} err.
Arguments Panic {A}.

#[global] Instance outcome_ret : MRet outcome := fun A a => Ok a.
#[global] Instance outcome_bind : MBind outcome := fun A B f m =>
  match m with
  | Ok a => f a
  | Failed err => Failed err
  | Panic => Panic
  end.

(** A nil dereference or an index out of range panics. *)
Definition orPanic {A} (o : option A) : outcome A :=
  match o with
  | Some a => Ok a
  | None => Panic
  end.

(* ================================================================== *)
(** ** The status mapper *)
(* ================================================================== *)

Definition prowjobStateToGitHubStatus (pjState : ProwJobState) : result string :=
  if String.eqb pjState TriggeredState then Value StatusPending
  else if String.eqb pjState PendingState then Value StatusPending
  else if String.eqb pjState SuccessState then Value StatusSuccess
  else if String.eqb pjState ErrorState then Value StatusError
  else if String.eqb pjState FailureState then Value StatusFailure
  else if String.eqb pjState AbortedState then Value StatusFailure
  else Error ("Unknown prowjob state: " +:+ pjState).

Definition ShouldReport (pj : ProwJob.t) (validTypes : list ProwJobType) : bool :=
  let valid :=
    fold_left (fun valid t => if String.eqb (jobType pj) t then true else valid)
      validTypes false in
  if negb valid then false
  else if negb (ProwJobSpec.Report (ProwJob.Spec pj)) then false
  else true.

(* ================================================================== *)
(** ** The renderers [createEntry] and [createComment] *)
(* ================================================================== *)

(** [None] is the panic of [pj.Spec.Refs] being nil, or of [Pulls[0]] on a
    job without pull. *)
Definition createEntry (pj : ProwJob.t) : option string :=
  let required :=
    if String.eqb (jobType pj) PresubmitJob then
      match jobLabels pj !! IsOptionalLabel with
      | Some label =>
          match ParseBool label with
          | Some optional => FormatBool (negb optional)
          | None => "unknown"
          end
      | None => "unknown"
      end
    else "unknown" in
  if String.eqb (jobType pj) PostsubmitJob then
    refs ← jobRefs pj;
    Some (Join [jobContext pj; Refs.BaseSHA refs; "[link](" +:+ jobURL pj +:+ ")"] " | ")
  else
    refs ← jobRefs pj;
    pull ← head (Refs.Pulls refs);
    Some (Join [jobContext pj; Pull.SHA pull; "[link](" +:+ jobURL pj +:+ ")"; required;
                "`" +:+ ProwJobSpec.RerunCommand (ProwJob.Spec pj) +:+ "`"] " | ").

(** A report template, executed on a job: its output or its error. *)
Abbreviation Template := (ProwJob.t -> result string) (only parsing).

Definition execute (reportTemplate : option Template) (pj : ProwJob.t) : outcome string :=
  match reportTemplate with
  | Some t =>
      match t pj with
      | Value b => Ok b
      | Error err => Failed err
      end
  | None => Ok EmptyString
  end.

(** The four lines that open a comment listing failures. *)
Definition failedHeader (pj : ProwJob.t) (plural : string) : outcome (list string) :=
  if String.eqb (jobType pj) PostsubmitJob then
    refs ← orPanic (jobRefs pj);
    Ok ["@" +:+ Refs.Author refs +:+ ": The following test" +:+ plural +:+ " **failed**:";
        EmptyString;
        "Test name | Commit | Details";
        "--- | --- | ---"]
  else
    refs ← orPanic (jobRefs pj);
    pull ← orPanic (head (Refs.Pulls refs));
    Ok ["@" +:+ Pull.Author pull +:+ ": The following test" +:+ plural
          +:+ " **failed**, say `/retest` to rerun all failed tests or `/retest-required` to rerun all mandatory failed tests:";
        EmptyString;
        "Test name | Commit | Details | Required | Rerun command";
        "--- | --- | --- | --- | ---"].

(** The two lines that open a comment when no test failed. *)
Definition passedHeader (pj : ProwJob.t) : outcome (list string) :=
  author ←
    (if String.eqb (jobType pj) PostsubmitJob then
       refs ← orPanic (jobRefs pj); Ok (Refs.Author refs)
     else
       refs ← orPanic (jobRefs pj);
       pull ← orPanic (head (Refs.Pulls refs));
       Ok (Pull.Author pull));
  Ok ["@" +:+ author +:+ ": all tests **passed!**"; EmptyString].

(** The closing block of every comment, ended by the marker. *)
Definition closingLines : list string :=
  [EmptyString; "<details>"; EmptyString; AboutThisBot; "</details>"; commentTag].

Definition createComment (reportTemplate : option Template) (pjs : list ProwJob.t)
    (entries : list string) : outcome string :=
  match pjs with
  | [] => Ok EmptyString
  | pj0 :: _ =>
      let plural := if (1 <? length entries)%nat then "s" else EmptyString in
      b ← execute reportTemplate pj0;
      lines ← failedHeader pj0 plural;
      lines ← (if (length entries =? 0)%nat then passedHeader pj0 else Ok lines);
      let lines := lines ++ entries in
      let lines :=
        match reportTemplate with
        | Some _ => lines ++ [EmptyString; b]
        | None => lines
        end in
      let lines := lines ++ closingLines in
      Ok (Join lines LF)
  end.

(* ================================================================== *)
(** ** The reconciler [parseIssueComments] *)
(* ================================================================== *)

(** What the first loop accumulates. [latestComment] is 0 while no comment
    of the bot was seen. *)
Record scanned := mkScanned {
  previousComments : list Z;
  latestComment : Z;
  entries : list string }.

(** One line of a comment body: [st] is the flag [tracking] and the entries
    read so far. *)
Definition trackLine (st : bool * list string) (line : string) : bool * list string :=
  let '(tracking, entries) := st in
  let line := TrimSpace line in
  if HasPrefix line "---" then (true, entries)
  else if (String.length line =? 0)%nat then (false, entries)
  else if tracking then (tracking, entries ++ [line])
  else (tracking, entries).

(** The inner loop over the lines of one body; [tracking] starts unset. *)
Definition scanBody (entries : list string) (body : string) : list string :=
  snd (fold_left trackLine (Split body LF) (false, entries)).

(** One round of the loop over the comments. *)
Definition scanComment (isBot : string -> bool) (st : scanned) (ic : IssueComment.t) : scanned :=
  if negb (isBot (User.Login (IssueComment.User ic))) then st
  else if negb (Contains (IssueComment.Body ic) commentTag) then st
  else
    {| previousComments :=
         if negb (latestComment st =? 0)%Z
         then previousComments st ++ [latestComment st]
         else previousComments st;
       latestComment := IssueComment.ID ic;
       entries := scanBody (entries st) (IssueComment.Body ic) |}.

Definition scanComments (isBot : string -> bool) (ics : list IssueComment.t) : scanned :=
  fold_left (scanComment isBot) ics
    {| previousComments := []; latestComment := 0; entries := [] |}.

(** [pjsMap]: the jobs of the batch by context. *)
Definition contextMap (pjs : list ProwJob.t) : gmap string ProwJob.t :=
  fold_left (fun pjsMap pj => <[jobContext pj := pj]> pjsMap) pjs ∅.

(** [strings.Split(entry, " | ")[0]]; a split is never empty, so the index
    is in range. *)
Definition firstField (entry : string) : string :=
  nth 0 (Split entry " | ") EmptyString.

(** The flag [keep] of the entry at index [i], after the loop over [j] and
    the lookup in [pjsMap]. *)
Definition keepEntry (pjsMap : gmap string ProwJob.t) (entries : list string) (i : nat) : bool :=
  let f1 := firstField (nth i entries EmptyString) in
  let keep :=
    fold_left
      (fun keep j =>
         if (i =? j)%nat then keep
         else
           let f2 := firstField (nth j entries EmptyString) in
           if (i <? j)%nat && String.eqb f2 f1 then false else keep)
      (seq 0 (length entries)) true in
  match pjsMap !! f1 with
  | Some _ => false
  | None => keep
  end.

(** The second loop: the historical entries that stay, in their order. *)
Definition keptEntries (pjs : list ProwJob.t) (entries : list string) : list string :=
  let pjsMap := contextMap pjs in
  fold_left
    (fun newEntries i =>
       if keepEntry pjsMap entries i
       then newEntries ++ [nth i entries EmptyString]
       else newEntries)
    (seq 0 (length entries)) [].

(** One round of the third loop: a job in state failure adds its entry and
    sets [createNewComment]; [None] when [createEntry] panics. *)
Definition addFailure (st : option (list string * bool)) (pj : ProwJob.t)
    : option (list string * bool) :=
  '(newEntries, createNewComment) ← st;
  if String.eqb (jobState pj) StatusFailure then
    entry ← createEntry pj;
    Some (newEntries ++ [entry], true)
  else Some (newEntries, createNewComment).

(** The comments to delete, the entries of the table and the comment to
    update (0: none); [None] when [createEntry] panics. *)
Definition parseIssueComments (pjs : list ProwJob.t) (isBot : string -> bool)
    (ics : list IssueComment.t) : option (list Z * list string * Z) :=
  let st := scanComments isBot ics in
  let newEntries := keptEntries pjs (entries st) in
  '(newEntries, createNewComment) ← fold_left addFailure pjs (Some (newEntries, false));
  let delete := previousComments st in
  if (createNewComment || (length newEntries =? 0)%nat) && negb (latestComment st =? 0)%Z
  then Some (delete ++ [latestComment st], newEntries, 0%Z)
  else Some (delete, newEntries, latestComment st).

(* ================================================================== *)
(** ** The remote client and the calls made through it *)
(* ================================================================== *)

(** The interface [GitHubClient]: each method takes the state [G] of the
    remote side to a new state and a Go result. *)
Record GitHubClient (G : Type) : Type := mkClient {
  BotUserCheckerWithContext : G -> G * result (string -> bool);
  CreateStatusWithContext : string -> string -> string -> Status.t -> G -> G * result unit;
  ListIssueCommentsWithContext : string -> string -> Z -> G -> G * result (list IssueComment.t);
  CreateCommentWithContext : string -> string -> Z -> string -> G -> G * result unit;
  DeleteCommentWithContext : string -> string -> Z -> G -> G * result unit;
  EditCommentWithContext : string -> string -> Z -> string -> G -> G * result unit;
  CreateCommitCommentWithContext : string -> string -> string -> string -> G -> G * result unit;
  ListCommitCommentsWithContext : string -> string -> string -> G -> G * result (list IssueComment.t) }.
Arguments BotUserCheckerWithContext {G}.
Arguments CreateStatusWithContext {G}.
Arguments ListIssueCommentsWithContext {G}.
Arguments CreateCommentWithContext {G}.
Arguments DeleteCommentWithContext {G}.
Arguments EditCommentWithContext {G}.
Arguments CreateCommitCommentWithContext {G}.
Arguments ListCommitCommentsWithContext {G}.

(** A remote call with its arguments. *)
Inductive Call : Type :=
| BotUserChecker
| CreateStatus (org repo ref : string) (s : Status.t)
| ListIssueComments (org repo : string) (number : Z)
| CreateComment (org repo : string) (number : Z) (comment : string)
| DeleteComment (org repo : string) (ID : Z)
| EditComment (org repo : string) (ID : Z) (comment : string)
| CreateCommitComment (org repo SHA body : string)
| ListCommitComments (org repo SHA : string).

(** A computation of the reporter: from the remote state and the calls made
    so far to an outcome, the new remote state and the extended log. *)
Definition M (G A : Type) : Type := G * list Call -> outcome A * (G * list Call).

#[global] Instance M_ret {G} : MRet (M G) := fun A a s => (Ok a, s).
#[global] Instance M_bind {G} : MBind (M G) := fun A B f m s =>
  match m s with
  | (Ok a, s') => f a s'
  | (Failed err, s') => (Failed err, s')
  | (Panic, s') => (Panic, s')
  end.

(** [return err]. *)
Definition fail {G A} (err : string) : M G A := fun s => (Failed err, s).

(** The outcome of a pure step. *)
Definition lift {G A} (o : outcome A) : M G A := fun s => (o, s).

(** A call of a client method: the call is logged and its Go result handed
    to the caller. *)
Definition remote {G A} (c : Call) (method : G -> G * result A) : M G (result A) :=
  fun s => let '(g', r) := method (fst s) in (Ok r, (g', snd s ++ [c])).

(** [if err != nil { return fmt.Errorf(prefix + "%w", err) }]. *)
Definition orFail {G A} (prefix : string) (r : result A) : M G A :=
  match r with
  | Value a => mret a
  | Error err => fail (prefix +:+ err)
  end.

(** The same on the error a callee returned. *)
Definition wrapError {G A} (prefix : string) (m : M G A) : M G A := fun s =>
  match m s with
  | (Failed err, s') => (Failed (prefix +:+ err), s')
  | r => r
  end.

(** [for _, x := range l { body }], left by the first error or panic. *)
Fixpoint forEach {G A} (l : list A) (body : A -> M G unit) : M G unit :=
  match l with
  | [] => mret tt
  | x :: l' => body x ≫= fun _ => forEach l' body
  end.

(** The calls a computation makes from the state [g], and how it ends. *)
Definition callsOf {G A} (m : M G A) (g : G) : list Call := snd (snd (m (g, []))).
Definition outcomeOf {G A} (m : M G A) (g : G) : outcome A := fst (m (g, [])).
Definition stateOf {G A} (m : M G A) (g : G) : G := fst (snd (m (g, []))).

(* ================================================================== *)
(** ** The synchronizer *)
(* ================================================================== *)

(** The loop of [createOrUpdateComments] over [deletes]. *)
Definition deleteComments {G} (ghc : GitHubClient G) (refs : Refs.t) (deletes : list Z)
    : M G unit :=
  forEach deletes (fun delete =>
    r ← remote (DeleteComment (Refs.Org refs) (Refs.Repo refs) delete)
          (DeleteCommentWithContext ghc (Refs.Org refs) (Refs.Repo refs) delete);
    orFail "error deleting comment: " r).

(** [createOrUpdateComments] once the comments are listed: [listed] is the
    result of the listing, [refs] and [isPostsubmit] are read off the first
    job. *)
Definition syncListed {G} (ghc : GitHubClient G) (reportTemplate : option Template)
    (pjs : list ProwJob.t) (mustComment : bool) (refs : Refs.t) (isPostsubmit : bool)
    (listed : result (list IssueComment.t)) : M G unit :=
  comments ← orFail "error listing comments: " listed;
  checker ← remote BotUserChecker (BotUserCheckerWithContext ghc);
  botNameChecker ← orFail "error getting bot name checker: " checker;
  '(deletes, entries, updateID) ← lift (orPanic (parseIssueComments pjs botNameChecker comments));
  deleteComments ghc refs deletes;;
  if (0 <? length entries)%nat || mustComment then
    comment ← wrapError "generating comment: " (lift (createComment reportTemplate pjs entries));
    if (updateID =? 0)%Z then
      r ← (if isPostsubmit then
             remote (CreateCommitComment (Refs.Org refs) (Refs.Repo refs) (Refs.BaseSHA refs) comment)
               (CreateCommitCommentWithContext ghc (Refs.Org refs) (Refs.Repo refs) (Refs.BaseSHA refs) comment)
           else
             pull ← lift (orPanic (head (Refs.Pulls refs)));
             remote (CreateComment (Refs.Org refs) (Refs.Repo refs) (Pull.Number pull) comment)
               (CreateCommentWithContext ghc (Refs.Org refs) (Refs.Repo refs) (Pull.Number pull) comment));
      orFail "error creating comment: " r
    else
      r ← remote (EditComment (Refs.Org refs) (Refs.Repo refs) updateID comment)
            (EditCommentWithContext ghc (Refs.Org refs) (Refs.Repo refs) updateID comment);
      orFail "error updating comment: " r
  else mret tt.

Definition createOrUpdateComments {G} (ghc : GitHubClient G)
    (reportTemplate : option Template) (pjs : list ProwJob.t) (mustComment : bool) : M G unit :=
  pj0 ← lift (orPanic (head pjs));
  refs ← lift (orPanic (jobRefs pj0));
  let isPostsubmit := String.eqb (jobType pj0) PostsubmitJob in
  if isPostsubmit then
    listed ← remote (ListCommitComments (Refs.Org refs) (Refs.Repo refs) (Refs.BaseSHA refs))
               (ListCommitCommentsWithContext ghc (Refs.Org refs) (Refs.Repo refs) (Refs.BaseSHA refs));
    syncListed ghc reportTemplate pjs mustComment refs isPostsubmit listed
  else
    match Refs.Pulls refs with
    | [] => mret tt
    | pull :: _ =>
        listed ← remote (ListIssueComments (Refs.Org refs) (Refs.Repo refs) (Pull.Number pull))
                   (ListIssueCommentsWithContext ghc (Refs.Org refs) (Refs.Repo refs) (Pull.Number pull));
        syncListed ghc reportTemplate pjs mustComment refs isPostsubmit listed
    end.

Definition issueHasComment {G} (gc : GitHubClient G) (org repo : string) (number : Z)
    (comment : string) : M G bool :=
  checker ← remote BotUserChecker (BotUserCheckerWithContext gc);
  botNameChecker ← orFail EmptyString checker;
  listed ← remote (ListIssueComments org repo number) (ListIssueCommentsWithContext gc org repo number);
  comments ← orFail "error listing comments: " listed;
  mret (existsb
          (fun c => botNameChecker (User.Login (IssueComment.User c))
                    && Contains (IssueComment.Body c) comment)
          comments).

(** The conjunction [cfg != nil && cfg.GitHub != nil &&
    cfg.GitHub.CommentOnPostsubmits]. *)
Definition commentsOnPostsubmits (pj : ProwJob.t) : bool :=
  match ProwJobSpec.ReporterConfig (ProwJob.Spec pj) with
  | Some cfg =>
      match ReporterConfig.GitHub cfg with
      | Some gh => GitHubReporterConfig.CommentOnPostsubmits gh
      | None => false
      end
  | None => false
  end.

(** The first loop of [ReportComment]: [(presubmitPjs, postsubmitPjs)]. *)
Definition splitJobs (config : GitHubReporter.t) (pjs : list ProwJob.t)
    : list ProwJob.t * list ProwJob.t :=
  fold_left
    (fun '(presubmitPjs, postsubmitPjs) pj =>
       if ShouldReport pj (GitHubReporter.JobTypesToReport config) && Complete pj then
         if String.eqb (jobType pj) PostsubmitJob then
           if commentsOnPostsubmits pj
           then (presubmitPjs, postsubmitPjs ++ [pj])
           else (presubmitPjs, postsubmitPjs)
         else (presubmitPjs ++ [pj], postsubmitPjs)
       else (presubmitPjs, postsubmitPjs))
    pjs ([], []).

(** The end of [ReportComment]: the one-time note on the pull of
    postsubmit jobs. *)
Definition dropNote {G} (ghc : GitHubClient G) (postsubmitPjs : list ProwJob.t) : M G unit :=
  match postsubmitPjs with
  | [] => mret tt
  | pj0 :: _ =>
      refs ← lift (orPanic (jobRefs pj0));
      match Refs.Pulls refs with
      | [] => mret tt
      | pull :: _ =>
          hasComment ← issueHasComment ghc (Refs.Org refs) (Refs.Repo refs) (Pull.Number pull) prCommitNote;
          if hasComment : bool then mret tt
          else
            r ← remote (CreateComment (Refs.Org refs) (Refs.Repo refs) (Pull.Number pull)
                          (prCommitNote +:+ " " +:+ Refs.BaseSHA refs +:+ LF))
                  (CreateCommentWithContext ghc (Refs.Org refs) (Refs.Repo refs) (Pull.Number pull)
                     (prCommitNote +:+ " " +:+ Refs.BaseSHA refs +:+ LF));
            orFail "error creating comment: " r
      end
  end.

(** [ghc] is [None] for a nil client. *)
Definition ReportComment {G} (ghc : option (GitHubClient G)) (reportTemplate : option Template)
    (pjs : list ProwJob.t) (config : GitHubReporter.t) (mustCreate : bool) : M G unit :=
  match ghc with
  | None => fail "trying to report pj, but found empty github client"
  | Some ghc =>
      let '(presubmitPjs, postsubmitPjs) := splitJobs config pjs in
      forEach [presubmitPjs; postsubmitPjs] (fun pjs =>
        if (length pjs =? 0)%nat then mret tt
        else createOrUpdateComments ghc reportTemplate pjs mustCreate);;
      dropNote ghc postsubmitPjs
  end.

Section StatusContext.

(** [config.ContextDescriptionWithBaseSha] is declared in package [config]:
    the reporter passes its result on as it is. *)
Variable ContextDescriptionWithBaseSha : string -> string -> string.

Definition reportStatus {G} (ghc : GitHubClient G) (pj : ProwJob.t) : M G unit :=
  if ProwJobSpec.Report (ProwJob.Spec pj) then
    contextState ← orFail EmptyString (prowjobStateToGitHubStatus (jobState pj));
    refs ← lift (orPanic (jobRefs pj));
    let sha :=
      match Refs.Pulls refs with
      | pull :: _ => if negb (String.eqb (jobType pj) PostsubmitJob) then Pull.SHA pull else Refs.BaseSHA refs
      | [] => Refs.BaseSHA refs
      end in
    let s := Status.mk contextState
               (ContextDescriptionWithBaseSha
                  (ProwJobStatus.Description (ProwJob.Status pj)) (Refs.BaseSHA refs))
               (jobContext pj) (jobURL pj) in
    r ← remote (CreateStatus (Refs.Org refs) (Refs.Repo refs) sha s)
          (CreateStatusWithContext ghc (Refs.Org refs) (Refs.Repo refs) sha s);
    orFail EmptyString r
  else mret tt.

Definition ReportStatusContext {G} (ghc : option (GitHubClient G)) (pj : ProwJob.t)
    (config : GitHubReporter.t) : M G unit :=
  match ghc with
  | None =>
      fail ("trying to report pj " +:+ ObjectMeta.Name (ProwJob.ObjectMeta pj)
            +:+ ", but found empty github client")
  | Some ghc =>
      if negb (ShouldReport pj (GitHubReporter.JobTypesToReport config)) then mret tt
      else
        refs ← lift (orPanic (jobRefs pj));
        if (1 <? length (Refs.Pulls refs))%nat then mret tt
        else wrapError "error setting status: " (reportStatus ghc pj)
  end.

Definition Report {G} (ghc : option (GitHubClient G)) (reportTemplate : option Template)
    (pj : ProwJob.t) (config : GitHubReporter.t) : M G unit :=
  ReportStatusContext ghc pj config;;
  ReportComment ghc reportTemplate [pj] config false.

End StatusContext.

(* ================================================================== *)
(** ** The specification's vocabulary *)
(* ================================================================== *)

(** A comment is the bot's own and marked: written by the bot and carrying
    the marker. *)
Definition ownMarked (isBot : string -> bool) (ic : IssueComment.t) : bool :=
  isBot (User.Login (IssueComment.User ic)) && Contains (IssueComment.Body ic) commentTag.

(** The three kinds of line of a comment body, read on the trimmed line. *)
Inductive lineKind : Type :=
| Divider
| Blank
| Row (text : string).

Definition classify (line : string) : lineKind :=
  let text := TrimSpace line in
  if HasPrefix text "---" then Divider
  else if String.eqb text EmptyString then Blank
  else Row text.

(** No byte of the string is the dash. *)
Fixpoint dashFree (s : string) : bool :=
  match s with
  | EmptyString => true
  | String c s' => negb (Ascii.eqb c "-") && dashFree s'
  end.

(** The entries of a list of lines: a divider opens capture mode, a blank
    line closes it, and a row is an entry while capturing. *)
Fixpoint capture (capturing : bool) (lines : list string) : list string :=
  match lines with
  | [] => []
  | line :: rest =>
      match classify line with
      | Divider => capture true rest
      | Blank => capture false rest
      | Row text => if capturing then text :: capture capturing rest else capture capturing rest
      end
  end.

(** The entries of one comment body. *)
Definition bodyEntries (body : string) : list string := capture false (Split body LF).

(** Everything before the first occurrence of [sep] in [s]; all of [s] when
    [sep] does not occur. *)
Fixpoint beforeFirst (sep s : string) : string :=
  if HasPrefix s sep then EmptyString
  else
    match s with
    | EmptyString => EmptyString
    | String c s' => String c (beforeFirst sep s')
    end.

(** The context key of an entry. *)
Definition contextKey (entry : string) : string := beforeFirst " | " entry.

(** Of the entries sharing a key only the one met last stays. *)
Fixpoint lastOfEachKey (entries : list string) : list string :=
  match entries with
  | [] => []
  | entry :: later =>
      if existsb (fun e => String.eqb (contextKey e) (contextKey entry)) later
      then lastOfEachKey later
      else entry :: lastOfEachKey later
  end.

(** The key of the entry is the context of a job of the batch. *)
Definition inBatch (pjs : list ProwJob.t) (entry : string) : bool :=
  existsb (fun pj => String.eqb (jobContext pj) (contextKey entry)) pjs.

(** Rules 2 and 3 of the reconciler. *)
Definition survivors (pjs : list ProwJob.t) (entries : list string) : list string :=
  List.filter (fun entry => negb (inBatch pjs entry)) (lastOfEachKey entries).

(** The outcome of the job is Failure. *)
Definition failed (pj : ProwJob.t) : bool := String.eqb (jobState pj) FailureState.

(** [mustCreateNew]: some job of the batch failed. *)
Definition mustCreateNew (pjs : list ProwJob.t) : bool := existsb failed pjs.

(** The commit an entry of the job names: the base commit of a post-merge
    job, the head commit of the first pull otherwise. A job without it makes
    [createEntry] panic. *)
Definition entryCommit (pj : ProwJob.t) : option string :=
  refs ← jobRefs pj;
  if String.eqb (jobType pj) PostsubmitJob then Some (Refs.BaseSHA refs)
  else Pull.SHA <$> head (Refs.Pulls refs).

(** The author a comment addresses: the author of the refs of a post-merge
    job, of the first pull otherwise. A batch whose first job has none makes
    [createComment] panic. *)
Definition commentAuthor (pj : ProwJob.t) : option string :=
  refs ← jobRefs pj;
  if String.eqb (jobType pj) PostsubmitJob then Some (Refs.Author refs)
  else Pull.Author <$> head (Refs.Pulls refs).

(** The field "required" of a fresh entry, by the label of the job. *)
Definition requiredField (pj : ProwJob.t) : string :=
  match jobLabels pj !! IsOptionalLabel with
  | Some label =>
      match ParseBool label with
      | Some true => "false"
      | Some false => "true"
      | None => "unknown"
      end
  | None => "unknown"
  end.

(** The row of a job whose commit is [commit]: three fields for a post-merge
    job, five otherwise, the field "required" being known for presubmit jobs
    only. *)
Definition renderedEntry (pj : ProwJob.t) (commit : string) : string :=
  if String.eqb (jobType pj) PostsubmitJob then
    Join [jobContext pj; commit; "[link](" +:+ jobURL pj +:+ ")"] " | "
  else
    Join [jobContext pj; commit; "[link](" +:+ jobURL pj +:+ ")";
          if String.eqb (jobType pj) PresubmitJob then requiredField pj else "unknown";
          "`" +:+ ProwJobSpec.RerunCommand (ProwJob.Spec pj) +:+ "`"] " | ".

(** Whether "latest" joins the comments to delete (rule 5). *)
Definition latestSuperseded (pjs : list ProwJob.t) (newEntries : list string) : bool :=
  mustCreateNew pjs || (length newEntries =? 0)%nat.

(** The header of a comment that lists failures: the wording of the first
    line and the number of columns depend on the kind of the job. *)
Definition failedLines (postsubmit : bool) (author plural : string) : list string :=
  if postsubmit then
    ["@" +:+ author +:+ ": The following test" +:+ plural +:+ " **failed**:";
     EmptyString;
     "Test name | Commit | Details";
     "--- | --- | ---"]
  else
    ["@" +:+ author +:+ ": The following test" +:+ plural
       +:+ " **failed**, say `/retest` to rerun all failed tests or `/retest-required` to rerun all mandatory failed tests:";
     EmptyString;
     "Test name | Commit | Details | Required | Rerun command";
     "--- | --- | --- | --- | ---"].

(** The header of a comment when no test failed: no table. *)
Definition passedLines (author : string) : list string :=
  ["@" +:+ author +:+ ": all tests **passed!**"; EmptyString].

(** The lines a template adds to a comment. *)
Definition templateLines (reportTemplate : option Template) (b : string) : list string :=
  match reportTemplate with
  | Some _ => [EmptyString; b]
  | None => []
  end.

(** A listing shows the note: a comment of the bot contains its text. *)
Definition noteShown (isBot : string -> bool) (comments : list IssueComment.t) : bool :=
  existsb
    (fun c => isBot (User.Login (IssueComment.User c))
              && Contains (IssueComment.Body c) prCommitNote)
    comments.

(** The jobs [ReportComment] reconciles: reportable, complete and, when
    post-merge, with commenting on postsubmits enabled. *)
Definition reconciled (config : GitHubReporter.t) (pj : ProwJob.t) : bool :=
  ShouldReport pj (GitHubReporter.JobTypesToReport config) && Complete pj
  && (negb (String.eqb (jobType pj) PostsubmitJob) || commentsOnPostsubmits pj).

(** Where the comments of a batch live, read off its first job: the listing
    call, and the call creating a comment there. *)
Definition listingCall (pj : ProwJob.t) : option Call :=
  refs ← jobRefs pj;
  if String.eqb (jobType pj) PostsubmitJob
  then Some (ListCommitComments (Refs.Org refs) (Refs.Repo refs) (Refs.BaseSHA refs))
  else (fun pull => ListIssueComments (Refs.Org refs) (Refs.Repo refs) (Pull.Number pull))
         <$> head (Refs.Pulls refs).

Definition creationCall (pj : ProwJob.t) (comment : string) : option Call :=
  refs ← jobRefs pj;
  if String.eqb (jobType pj) PostsubmitJob
  then Some (CreateCommitComment (Refs.Org refs) (Refs.Repo refs) (Refs.BaseSHA refs) comment)
  else (fun pull => CreateComment (Refs.Org refs) (Refs.Repo refs) (Pull.Number pull) comment)
         <$> head (Refs.Pulls refs).

(** The listing of the comments of a batch, as a client method. *)
Definition listing {G} (ghc : GitHubClient G) (pj : ProwJob.t)
    : option (G -> G * result (list IssueComment.t)) :=
  refs ← jobRefs pj;
  if String.eqb (jobType pj) PostsubmitJob
  then Some (ListCommitCommentsWithContext ghc (Refs.Org refs) (Refs.Repo refs) (Refs.BaseSHA refs))
  else (fun pull => ListIssueCommentsWithContext ghc (Refs.Org refs) (Refs.Repo refs) (Pull.Number pull))
         <$> head (Refs.Pulls refs).

(* ================================================================== *)
(** ** The fixtures of the package's tests *)
(* ================================================================== *)

(** *** The jobs and comments of [TestParseIssueComment] *)

Definition testJob (context state : string) (isOptional : bool) : ProwJob.t :=
  ProwJob.mk
    (ObjectMeta.mk EmptyString {[ IsOptionalLabel := FormatBool isOptional ]})
    (ProwJobSpec.mk PresubmitJob EmptyString context
       (Some (Refs.mk EmptyString EmptyString EmptyString EmptyString
                [Pull.mk 0 EmptyString EmptyString]))
       false EmptyString None)
    (ProwJobStatus.mk state EmptyString EmptyString None).

Definition testIsBot (candidate : string) : bool := String.eqb candidate "k8s-ci-robot".

Definition testComment (ID : Z) (body : string) : IssueComment.t :=
  IssueComment.mk ID body (User.mk "k8s-ci-robot").

Definition CR : string := bytes [13].

Definition createReportEntry (context : string) (isRequired : bool) : string :=
  context +:+ " |  | [link]() | " +:+ FormatBool isRequired +:+ " | ".


(** *** The client of the tests: [fakeGhClient]

    Its comments are kept per issue and per commit. The fake leaves the
    author of a created comment empty; [fakeGhClientAs author] is the same
    store with created comments attributed to [author], as the host
    attributes them to the account of the client. *)

Definition fakeBotName : string := "k8s-bot".

Definition maxLen : nat := 140.

Record fakeGh := mkFake {
  status : list Status.t;
  commitComments : gmap string (list IssueComment.t);
  issueComments : gmap string (list IssueComment.t) }.

(** [%d] of a non-negative number. *)
Definition itoa (n : Z) : string := DecimalString.NilZero.string_of_int (Z.to_int n).

Definition issueKey (org repo : string) (number : Z) : string :=
  org +:+ "/" +:+ repo +:+ "/" +:+ itoa number.

Definition commitKey (org repo SHA : string) : string :=
  org +:+ "/" +:+ repo +:+ "/" +:+ SHA.

Definition fakeGhClientAs (author : string) : GitHubClient fakeGh := {|
  BotUserCheckerWithContext gh :=
    (gh, Value (fun candidate => String.eqb candidate fakeBotName));
  CreateStatusWithContext org repo ref s gh :=
    let d := Status.Description s in
    if (maxLen <? String.length d)%nat then
      (gh, Error (d +:+ " is len " +:+ itoa (Z.of_nat (String.length d))
                  +:+ ", more than max of " +:+ itoa (Z.of_nat maxLen) +:+ " chars"))
    else (mkFake (status gh ++ [s]) (commitComments gh) (issueComments gh), Value tt);
  ListIssueCommentsWithContext org repo number gh :=
    (gh, Value (default [] (issueComments gh !! issueKey org repo number)));
  CreateCommentWithContext org repo number comment gh :=
    let key := issueKey org repo number in
    let old := default [] (issueComments gh !! key) in
    (mkFake (status gh) (commitComments gh)
       (<[key := old ++ [IssueComment.mk (Z.of_nat (length old)) comment (User.mk author)]]>
          (issueComments gh)),
     Value tt);
  DeleteCommentWithContext org repo ID gh := (gh, Value tt);
  EditCommentWithContext org repo ID comment gh := (gh, Value tt);
  CreateCommitCommentWithContext org repo SHA comment gh :=
    let key := commitKey org repo SHA in
    let old := default [] (commitComments gh !! key) in
    (mkFake (status gh)
       (<[key := old ++ [IssueComment.mk (Z.of_nat (length old)) comment (User.mk author)]]>
          (commitComments gh))
       (issueComments gh),
     Value tt);
  ListCommitCommentsWithContext org repo SHA gh :=
    (gh, Value (default [] (commitComments gh !! commitKey org repo SHA)))
|}.

Definition fakeGhClient : GitHubClient fakeGh := fakeGhClientAs EmptyString.

Definition emptyFake : fakeGh := mkFake [] ∅ ∅.

(** The note is on the issue held by the fake, written by the bot. *)
Definition fakeNoted (org repo : string) (number : Z) (gh : fakeGh) : Prop :=
  noteShown (fun candidate => String.eqb candidate fakeBotName)
    (default [] (issueComments gh !! issueKey org repo number)) = true.

(** *** The jobs of [TestReport] *)

Definition ghCommenter : option ReporterConfig.t :=
  Some (ReporterConfig.mk (Some (GitHubReporterConfig.mk true))).

Definition testRefs : Refs.t :=
  Refs.mk "k8s" "test-infra" "SHA" EmptyString [Pull.mk 1 "me" "abcdef"].

(** A finished postsubmit job of the test, in the given state. *)
Definition postsubmitJob (state : ProwJobState) (cfg : option ReporterConfig.t) : ProwJob.t :=
  ProwJob.mk
    (ObjectMeta.mk EmptyString ∅)
    (ProwJobSpec.mk PostsubmitJob "postsubmit-job" "parent" (Some testRefs) true EmptyString cfg)
    (ProwJobStatus.mk state EmptyString "http://mytest.com" (Some 0%Z)).

Definition postsubmitsOnly : GitHubReporter.t := GitHubReporter.mk [PostsubmitJob].

Definition noDescription (d baseSHA : string) : string := d.

(** The note [ReportComment] leaves on the pull of [testRefs]. *)
Definition testNote : string := prCommitNote +:+ " SHA" +:+ LF.

(** *** Further inputs *)

(** The failed presubmit job of the tests, without any label. *)
Definition unlabelledJob : ProwJob.t :=
  ProwJob.mk
    (ObjectMeta.mk EmptyString ∅)
    (ProwJobSpec.mk PresubmitJob EmptyString "bla test"
       (Some (Refs.mk EmptyString EmptyString EmptyString EmptyString
                [Pull.mk 0 EmptyString EmptyString]))
       false EmptyString None)
    (ProwJobStatus.mk FailureState EmptyString EmptyString None).

(** A comment of somebody else. *)
Definition humanComment : IssueComment.t :=
  IssueComment.mk 7 "--- looks good to me" (User.mk "alice").

(** The jobs and templates of [TestCreateComment]. *)
Definition commentJob (job : string) : ProwJob.t :=
  ProwJob.mk
    (ObjectMeta.mk EmptyString ∅)
    (ProwJobSpec.mk EmptyString job EmptyString
       (Some (Refs.mk EmptyString EmptyString EmptyString EmptyString
                [Pull.mk 0 "chaodaig" EmptyString]))
       false EmptyString None)
    (ProwJobStatus.mk EmptyString EmptyString EmptyString None).

Definition emptyTemplate : option Template := Some (fun _ => Value EmptyString).

Definition jobNameTemplate : option Template :=
  Some (fun pj => Value (ProwJobSpec.Job (ProwJob.Spec pj))).

(** A finished, reported presubmit job on a batch of two pulls. *)
Definition twoPullsRefs : Refs.t :=
  Refs.mk "k8s" "test-infra" "SHA" EmptyString
    [Pull.mk 1 "me" "abcdef"; Pull.mk 2 "you" "123456"].

Definition twoPullsJob : ProwJob.t :=
  ProwJob.mk
    (ObjectMeta.mk "batch-of-two" ∅)
    (ProwJobSpec.mk PresubmitJob "unit" "unit test" (Some twoPullsRefs) true "/test unit" None)
    (ProwJobStatus.mk FailureState EmptyString "http://mytest.com" (Some 0%Z)).

Definition presubmitsOnly : GitHubReporter.t := GitHubReporter.mk [PresubmitJob].

(** A failed presubmit job whose refs name no pull. *)
Definition pullLessJob : ProwJob.t :=
  ProwJob.mk
    (ObjectMeta.mk EmptyString ∅)
    (ProwJobSpec.mk PresubmitJob EmptyString "bla test"
       (Some (Refs.mk EmptyString EmptyString EmptyString EmptyString []))
       false EmptyString None)
    (ProwJobStatus.mk FailureState EmptyString EmptyString None).

(** The store with one report of the bot on the commit of [testRefs]: rows
    for the job "parent" and for another job. *)
Definition reportedFake : fakeGh :=
  mkFake [] {[ "k8s/test-infra/SHA" :=
                 [IssueComment.mk 41
                    ("--- | --- | ---" +:+ LF +:+ "parent | SHA | [link](old)" +:+ LF
                     +:+ "other | SHA | [link](older)" +:+ LF +:+ LF +:+ commentTag)
                    (User.mk fakeBotName)] ]} ∅.

(* ================================================================== *)
(** ** Further vocabulary *)
(* ================================================================== *)

(** The call changes nothing on the remote side. *)
Definition isRead (c : Call) : bool :=
  match c with
  | BotUserChecker | ListIssueComments _ _ _ | ListCommitComments _ _ _ => true
  | _ => false
  end.

(** The call works on comments. *)
Definition isCommentCall (c : Call) : bool :=
  match c with
  | BotUserChecker | CreateStatus _ _ _ _ => false
  | _ => true
  end.

(** No line of the text is a divider. *)
Definition dividerFree (text : string) : Prop :=
  Forall (fun line => classify line <> Divider) (Split text LF).

(** The entry is a row as the parser reads it back: one line that is
    trimmed, not blank and no divider. *)
Definition isRow (entry : string) : Prop :=
  classify entry = Row entry /\ Contains entry LF = false.

(** A call that deletes or edits a comment names an own and marked comment
    of the listing. *)
Definition touchesOwn (isBot : string -> bool) (comments : list IssueComment.t) (c : Call)
    : Prop :=
  match c with
  | DeleteComment _ _ ID | EditComment _ _ ID _ =>
      exists ic, In ic comments /\ ownMarked isBot ic = true /\ IssueComment.ID ic = ID
  | _ => True
  end.

(** The client of the tests, but one that refuses to delete a comment. *)
Definition refusingClient : GitHubClient fakeGh := {|
  BotUserCheckerWithContext := BotUserCheckerWithContext fakeGhClient;
  CreateStatusWithContext := CreateStatusWithContext fakeGhClient;
  ListIssueCommentsWithContext := ListIssueCommentsWithContext fakeGhClient;
  CreateCommentWithContext := CreateCommentWithContext fakeGhClient;
  DeleteCommentWithContext org repo ID gh := (gh, Error "not found");
  EditCommentWithContext := EditCommentWithContext fakeGhClient;
  CreateCommitCommentWithContext := CreateCommitCommentWithContext fakeGhClient;
  ListCommitCommentsWithContext := ListCommitCommentsWithContext fakeGhClient
|}.

(** A failed, finished presubmit job on the pull of [testRefs]. *)
Definition failedPresubmit : ProwJob.t :=
  ProwJob.mk
    (ObjectMeta.mk EmptyString ∅)
    (ProwJobSpec.mk PresubmitJob "unit" "unit test" (Some testRefs) true "/test unit" None)
    (ProwJobStatus.mk FailureState EmptyString "http://mytest.com" (Some 0%Z)).

(** The same job, passed. *)
Definition passedPresubmit : ProwJob.t :=
  ProwJob.mk
    (ObjectMeta.mk EmptyString ∅)
    (ProwJobSpec.mk PresubmitJob "unit" "unit test" (Some testRefs) true "/test unit" None)
    (ProwJobStatus.mk SuccessState EmptyString "http://mytest.com" (Some 0%Z)).

(** The store with one report of the bot on the pull of [testRefs]. *)
Definition reportedPull : fakeGh :=
  mkFake [] ∅
    {[ "k8s/test-infra/1" :=
         [IssueComment.mk 41
            ("--- | --- | ---" +:+ LF +:+ "other | SHA | [link](older)" +:+ LF +:+ LF
             +:+ commentTag)
            (User.mk fakeBotName)] ]}.

(** The text with every line feed turned into carriage return and line
    feed, as a body edited on the web has them. *)
Fixpoint crlf (s : string) : string :=
  match s with
  | EmptyString => EmptyString
  | String c s' =>
      if HasPrefix (String c EmptyString) LF
      then CR +:+ LF +:+ crlf s'
      else String c (crlf s')
  end.

(** No byte of the string is the carriage return. *)
Fixpoint crFree (s : string) : bool :=
  match s with
  | EmptyString => true
  | String c s' => negb (HasPrefix (String c EmptyString) CR) && crFree s'
  end.

(* ================================================================== *)
(** ** Versions of GKE (kubetest, util.go) *)
(* ================================================================== *)

(** [gkeVersion]: the four numbers of "<major>.<minor>.<patch>-gke.<gkePatch>".
    The fields are Go [int]s; they are only compared. *)
Module gkeVersion.
Record t := mk { major : Z; minor : Z; patch : Z; gkePatch : Z }.
End gkeVersion.

(** [g.greater(o)]. *)
Definition greater (g o : gkeVersion.t) : bool :=
  if negb (gkeVersion.major g =? gkeVersion.major o)%Z
  then (gkeVersion.major g >? gkeVersion.major o)%Z
  else if negb (gkeVersion.minor g =? gkeVersion.minor o)%Z
  then (gkeVersion.minor g >? gkeVersion.minor o)%Z
  else if negb (gkeVersion.patch g =? gkeVersion.patch o)%Z
  then (gkeVersion.patch g >? gkeVersion.patch o)%Z
  else (gkeVersion.gkePatch g >? gkeVersion.gkePatch o)%Z.

Example split_row : Split "bla test | something | or other" " | " = ["bla test"; "something"; "or other"].
Proof. reflexivity. Qed.

Example trim_cr : TrimSpace ("  foo test | x " +:+ bytes [13]) = "foo test | x".
Proof. reflexivity. Qed.

Example trim_nbsp : TrimSpace (bytes [194; 160; 97; 32; 226; 128; 168]) = "a".
Proof. reflexivity. Qed.

Example test_create_new :
  parseIssueComments [testJob "bla test" StatusFailure false] testIsBot []
  = Some ([], [createReportEntry "bla test" true +:+ "``"], 0%Z).
Proof. vm_compute. reflexivity. Qed.

Example test_create_new_optional :
  parseIssueComments [testJob "bla test" StatusFailure true] testIsBot []
  = Some ([], [createReportEntry "bla test" false +:+ "``"], 0%Z).
Proof. vm_compute. reflexivity. Qed.

Example test_not_delete_up_to_date :
  parseIssueComments [testJob "bla test" StatusSuccess false] testIsBot
    [testComment 0 ("--- | --- | ---" +:+ LF +:+ "foo test | something | or other" +:+ LF +:+ LF)]
  = Some ([], [], 0%Z).
Proof. vm_compute. reflexivity. Qed.

Example test_delete_all_pass :
  parseIssueComments [testJob "bla test" StatusSuccess false] testIsBot
    [testComment 123 ("--- | --- | ---" +:+ LF +:+ "bla test | something | or other" +:+ LF +:+ LF +:+ commentTag)]
  = Some ([123%Z], [], 0%Z).
Proof. vm_compute. reflexivity. Qed.

Example test_delete_passing_with_cr :
  parseIssueComments [testJob "bla test" StatusSuccess false] testIsBot
    [testComment 123 ("--- | --- | ---" +:+ CR +:+ LF +:+ "bla test | something | or other"
                      +:+ CR +:+ LF +:+ CR +:+ LF +:+ commentTag)]
  = Some ([123%Z], [], 0%Z).
Proof. vm_compute. reflexivity. Qed.

Example test_update_failed :
  parseIssueComments [testJob "bla test" StatusFailure false] testIsBot
    [testComment 123 ("--- | --- | ---" +:+ LF +:+ "bla test | something | or other" +:+ LF +:+ LF +:+ commentTag)]
  = Some ([123%Z], [createReportEntry "bla test" true +:+ "``"], 0%Z).
Proof. vm_compute. reflexivity. Qed.

Example test_preserve_old_results :
  parseIssueComments [testJob "bla test" StatusFailure false] testIsBot
    [testComment 123 ("--- | --- | ---" +:+ LF +:+ "bla test | something | or other" +:+ LF
                      +:+ "foo test | wow | aye" +:+ LF +:+ LF +:+ commentTag)]
  = Some ([123%Z], ["foo test | wow | aye"; createReportEntry "bla test" true +:+ "``"], 0%Z).
Proof. vm_compute. reflexivity. Qed.

Example test_merge_duplicates :
  parseIssueComments [testJob "bla test" StatusFailure false] testIsBot
    [testComment 123 ("--- | --- | ---" +:+ LF +:+ "bla test | something | or other" +:+ LF
                      +:+ "foo test | wow such" +:+ LF +:+ LF +:+ commentTag);
     testComment 124 ("--- | --- | ---" +:+ LF +:+ "foo test | beep | boop" +:+ LF +:+ LF +:+ commentTag)]
  = Some ([123%Z; 124%Z], ["foo test | beep | boop"; createReportEntry "bla test" true +:+ "``"], 0%Z).
Proof. vm_compute. reflexivity. Qed.

Example test_update_old_comment :
  parseIssueComments [testJob "bla test" StatusSuccess false] testIsBot
    [testComment 123 ("--- | --- | ---" +:+ LF +:+ "bla test | something | or other" +:+ LF
                      +:+ "foo test | wow | aye" +:+ LF +:+ LF +:+ commentTag)]
  = Some ([], ["foo test | wow | aye"], 123%Z).
Proof. vm_compute. reflexivity. Qed.

Example test_comment_single_failure :
  createComment emptyTemplate [commentJob EmptyString] ["aaa | bbb | ccc | ddd | eee"]
  = Ok (Join ["@chaodaig: The following test **failed**, say `/retest` to rerun all failed tests or `/retest-required` to rerun all mandatory failed tests:";
              EmptyString;
              "Test name | Commit | Details | Required | Rerun command";
              "--- | --- | --- | --- | ---";
              "aaa | bbb | ccc | ddd | eee";
              EmptyString; EmptyString; EmptyString;
              "<details>"; EmptyString; AboutThisBot; "</details>"; "<!-- test report -->"] LF).
Proof. vm_compute. reflexivity. Qed.

Example test_comment_multiple_failures :
  createComment emptyTemplate [commentJob EmptyString]
    ["aaa | bbb | ccc | ddd | eee"; "fff | ggg | hhh | iii | jjj"]
  = Ok (Join ["@chaodaig: The following tests **failed**, say `/retest` to rerun all failed tests or `/retest-required` to rerun all mandatory failed tests:";
              EmptyString;
              "Test name | Commit | Details | Required | Rerun command";
              "--- | --- | --- | --- | ---";
              "aaa | bbb | ccc | ddd | eee";
              "fff | ggg | hhh | iii | jjj";
              EmptyString; EmptyString; EmptyString;
              "<details>"; EmptyString; AboutThisBot; "</details>"; "<!-- test report -->"] LF).
Proof. vm_compute. reflexivity. Qed.

Example test_comment_first_job_only :
  createComment jobNameTemplate [commentJob "job-a"; commentJob "job-b"]
    ["aaa | bbb | ccc | ddd | eee"]
  = Ok (Join ["@chaodaig: The following test **failed**, say `/retest` to rerun all failed tests or `/retest-required` to rerun all mandatory failed tests:";
              EmptyString;
              "Test name | Commit | Details | Required | Rerun command";
              "--- | --- | --- | --- | ---";
              "aaa | bbb | ccc | ddd | eee";
              EmptyString; "job-a"; EmptyString;
              "<details>"; EmptyString; AboutThisBot; "</details>"; "<!-- test report -->"] LF).
Proof. vm_compute. reflexivity. Qed.

Example test_comment_all_passed :
  createComment None [commentJob "job-a"; commentJob "job-b"] []
  = Ok (Join ["@chaodaig: all tests **passed!**";
              EmptyString; EmptyString;
              "<details>"; EmptyString; AboutThisBot; "</details>"; "<!-- test report -->"] LF).
Proof. vm_compute. reflexivity. Qed.

(** The cases of [TestReport]: the calls made, and the comments the fake
    holds afterwards. *)
Example test_report_postsubmit_failure :
  let run := Report noDescription (Some fakeGhClient) None
               (postsubmitJob FailureState ghCommenter) postsubmitsOnly (emptyFake, []) in
  fst run = Ok tt
  /\ length (default [] (commitComments (fst (snd run)) !! "k8s/test-infra/SHA")) = 1%nat
  /\ map IssueComment.Body (default [] (issueComments (fst (snd run)) !! "k8s/test-infra/1"))
     = [testNote].
Proof. vm_compute. repeat split. Qed.

Example test_report_no_comment_on_postsubmits :
  let run := Report noDescription (Some fakeGhClient) None
               (postsubmitJob FailureState None) postsubmitsOnly (emptyFake, []) in
  fst run = Ok tt
  /\ commitComments (fst (snd run)) = ∅
  /\ issueComments (fst (snd run)) = ∅.
Proof. vm_compute. repeat split. Qed.

Example test_report_postsubmit_success :
  let run := Report noDescription (Some fakeGhClient) None
               (postsubmitJob SuccessState ghCommenter) postsubmitsOnly (emptyFake, []) in
  fst run = Ok tt
  /\ commitComments (fst (snd run)) = ∅
  /\ map IssueComment.Body (default [] (issueComments (fst (snd run)) !! "k8s/test-infra/1"))
     = [testNote].
Proof. vm_compute. repeat split. Qed.

(** A job that passes again: its row leaves the report, which is edited. *)
Example test_sync_updates_latest :
  exists comment,
    createComment None [postsubmitJob SuccessState ghCommenter] ["other | SHA | [link](older)"]
    = Ok comment
    /\ callsOf (createOrUpdateComments fakeGhClient None
                  [postsubmitJob SuccessState ghCommenter] false) reportedFake
       = [ListCommitComments "k8s" "test-infra" "SHA"; BotUserChecker;
          EditComment "k8s" "test-infra" 41 comment].
Proof. eexists. split; vm_compute; reflexivity. Qed.

(** The last row passes: the report is deleted and nothing is created. *)
Example test_sync_deletes_latest :
  callsOf (createOrUpdateComments fakeGhClient None
             [postsubmitJob SuccessState ghCommenter] false)
    (mkFake [] {[ "k8s/test-infra/SHA" :=
                    [IssueComment.mk 41
                       ("--- | --- | ---" +:+ LF +:+ "parent | SHA | [link](old)" +:+ LF +:+ LF
                        +:+ commentTag)
                       (User.mk fakeBotName)] ]} ∅)
  = [ListCommitComments "k8s" "test-infra" "SHA"; BotUserChecker;
     DeleteComment "k8s" "test-infra" 41].
Proof. vm_compute. reflexivity. Qed.

(* ================================================================== *)
(** * Properties *)
(* ================================================================== *)

(** ** Strings *)

(** The two equations of [String.append]. *)
Lemma append_nil (t : string) : EmptyString +:+ t = t.
Proof. reflexivity. Qed.

Lemma append_cons (c : ascii) (s t : string) : String c s +:+ t = String c (s +:+ t).
Proof. reflexivity. Qed.

Lemma append_empty_r (s : string) : s +:+ EmptyString = s.
Proof. induction s as [|c s IH]; [reflexivity | now rewrite append_cons, IH]. Qed.

Lemma append_assoc (s1 s2 s3 : string) : (s1 +:+ s2) +:+ s3 = s1 +:+ (s2 +:+ s3).
Proof. induction s1 as [|c s1 IH]; [reflexivity | now rewrite !append_cons, IH]. Qed.

Lemma length_zero_empty (s : string) : (String.length s =? 0)%nat = String.eqb s EmptyString.
Proof. destruct s; reflexivity. Qed.

Lemma HasPrefix_empty (s : string) : HasPrefix s EmptyString = true.
Proof. destruct s; reflexivity. Qed.

Lemma HasPrefix_append (s1 s2 : string) : HasPrefix (s1 +:+ s2) s1 = true.
Proof.
  unfold HasPrefix. induction s1 as [|c s1 IH].
  - apply HasPrefix_empty.
  - rewrite append_cons. simpl. destruct (ascii_dec c c) as [_|n]; [exact IH | now destruct n].
Qed.

(** A string with the prefix [p] is [p] followed by a rest. *)
Lemma HasPrefix_inv (p s : string) : HasPrefix s p = true -> exists rest, s = p +:+ rest.
Proof.
  unfold HasPrefix. revert s. induction p as [|c p IH]; intros s H.
  - now exists s.
  - destruct s as [|d s]; simpl in H; [discriminate |].
    destruct (ascii_dec c d) as [->|]; [| discriminate].
    destruct (IH s H) as [rest ->]. exists rest. now rewrite append_cons.
Qed.

(** The first piece of a split is what stands before the first separator. *)
Lemma splitFrom_first (sep cur s : string) :
  nth 0 (splitFrom sep 0 cur s) EmptyString = cur +:+ beforeFirst sep s.
Proof.
  revert cur. induction s as [|c s IH]; intros cur.
  - assert (E : beforeFirst sep EmptyString = EmptyString) by now destruct sep.
    rewrite E, append_empty_r. reflexivity.
  - cbn [splitFrom beforeFirst]. destruct (HasPrefix (String c s) sep).
    + now rewrite append_empty_r.
    + rewrite IH, append_assoc. reflexivity.
Qed.

Lemma firstField_contextKey (entry : string) : firstField entry = contextKey entry.
Proof. unfold firstField, Split. now rewrite splitFrom_first. Qed.

(** A split is never empty: indexing its first piece cannot panic. *)
Lemma Split_not_nil (s sep : string) : Split s sep <> [].
Proof.
  unfold Split. generalize EmptyString at 1. generalize 0%nat.
  induction s as [|c s IH]; intros skip cur; cbn [splitFrom]; [discriminate |].
  destruct skip; [destruct (HasPrefix (String c s) sep) |]; try discriminate; apply IH.
Qed.

(** [beforeFirst] names the first occurrence: the separator follows it when
    it occurs at all, and it does not start earlier. *)
Lemma beforeFirst_no_separator (sep s : string) :
  Contains s sep = false -> beforeFirst sep s = s.
Proof.
  induction s as [|c s IH]; cbn [Contains beforeFirst]; intros H;
    apply orb_false_iff in H as [H1 H2]; rewrite H1; [reflexivity |].
  now rewrite IH.
Qed.

Lemma beforeFirst_separator (sep s : string) :
  Contains s sep = true -> exists rest, s = beforeFirst sep s +:+ sep +:+ rest.
Proof.
  induction s as [|c s IH]; cbn [Contains beforeFirst]; intros H.
  - rewrite orb_false_r in H. rewrite H. now apply HasPrefix_inv in H.
  - destruct (HasPrefix (String c s) sep) eqn:E.
    + now apply HasPrefix_inv in E.
    + simpl in H. destruct (IH H) as [rest Hrest]. exists rest. now rewrite append_cons, <- Hrest.
Qed.

Lemma beforeFirst_earliest (sep a b : string) :
  (forall a1 a2, a = a1 +:+ a2 -> a2 <> EmptyString -> HasPrefix (a2 +:+ sep +:+ b) sep = false) ->
  beforeFirst sep (a +:+ sep +:+ b) = a.
Proof.
  induction a as [|c a IH]; intros H.
  - rewrite append_nil. destruct sep as [|d sep]; [now destruct b |].
    rewrite append_cons. cbn [beforeFirst]. rewrite <- append_cons.
    now rewrite HasPrefix_append.
  - pose proof (H EmptyString (String c a) eq_refl) as H0.
    rewrite append_cons in *. cbn [beforeFirst]. rewrite H0 by discriminate.
    f_equal. apply IH. intros a1 a2 -> Hne. apply (H (String c a1) a2 eq_refl Hne).
Qed.

(** ** The status mapper *)

(** C5. The mapper takes Triggered and Pending to pending, Success to
    success, Error to error, Failure and Aborted to failure; every other
    state gets the error "Unknown prowjob state: <state>" and no status. *)
Theorem status_mapping_exhaustive :
  prowjobStateToGitHubStatus TriggeredState = Value "pending"
  /\ prowjobStateToGitHubStatus PendingState = Value "pending"
  /\ prowjobStateToGitHubStatus SuccessState = Value "success"
  /\ prowjobStateToGitHubStatus ErrorState = Value "error"
  /\ prowjobStateToGitHubStatus FailureState = Value "failure"
  /\ prowjobStateToGitHubStatus AbortedState = Value "failure"
  /\ forall pjState : ProwJobState,
       ~ In pjState [TriggeredState; PendingState; SuccessState;
                     ErrorState; FailureState; AbortedState] ->
       prowjobStateToGitHubStatus pjState = Error ("Unknown prowjob state: " +:+ pjState).
Proof.
  repeat split; intros pjState Hout. unfold prowjobStateToGitHubStatus.
  repeat match goal with
         | |- context [String.eqb pjState ?c] =>
             destruct (String.eqb_spec pjState c) as [->|_];
             [exfalso; apply Hout; simpl; tauto |]
         end.
  reflexivity.
Qed.

(** The mapper on a state outside the six. *)
Lemma status_mapping_exhaustive_witness :
  ~ In "skipped" [TriggeredState; PendingState; SuccessState;
                  ErrorState; FailureState; AbortedState]
  /\ prowjobStateToGitHubStatus "skipped" = Error "Unknown prowjob state: skipped".
Proof.
  assert (Hout : ~ In "skipped" [TriggeredState; PendingState; SuccessState;
                                 ErrorState; FailureState; AbortedState]).
  { simpl. intros H. repeat destruct H as [H|H]; try discriminate H. exact H. }
  split; [exact Hout |].
  exact (proj2 (proj2 (proj2 (proj2 (proj2 (proj2 status_mapping_exhaustive)))))
           "skipped" Hout).
Defined.

(** ** The reconciler: which historical entries stay *)

Lemma existsb_pointwise {A} (f g : A -> bool) (l : list A) :
  (forall x, f x = g x) -> existsb f l = existsb g l.
Proof. intros H. induction l as [|x l IH]; simpl; [reflexivity | now rewrite H, IH]. Qed.

(** The batch map holds a context exactly when a job of the batch has it. *)
Lemma contextMap_lookup (pjs : list ProwJob.t) (k : string) :
  bool_decide (is_Some (contextMap pjs !! k))
  = existsb (fun pj => String.eqb (jobContext pj) k) pjs.
Proof.
  unfold contextMap.
  assert (H : forall m : gmap string ProwJob.t,
             bool_decide (is_Some (fold_left (fun pjsMap pj => <[jobContext pj := pj]> pjsMap) pjs m !! k))
             = bool_decide (is_Some (m !! k))
               || existsb (fun pj => String.eqb (jobContext pj) k) pjs).
  { induction pjs as [|pj pjs IH]; intros m; simpl.
    - now rewrite orb_false_r.
    - rewrite IH. destruct (String.eqb_spec (jobContext pj) k) as [->|Hne].
      + rewrite lookup_insert_eq. rewrite (bool_decide_eq_true_2 (is_Some (Some pj))) by eauto.
        simpl. now rewrite orb_true_r.
      + now rewrite lookup_insert_ne by exact Hne. }
  rewrite H, lookup_empty.
  rewrite (bool_decide_eq_false_2 (is_Some None)) by (intros [? ?]; discriminate).
  reflexivity.
Qed.

(** The loop over [j] clears [keep] exactly when a later index has the key
    of index [i]. *)
Lemma keep_loop (test : nat -> bool) (i : nat) (js : list nat) (keep : bool) :
  fold_left
    (fun keep j => if (i =? j)%nat then keep else if (i <? j)%nat && test j then false else keep)
    js keep
  = keep && negb (existsb (fun j => (i <? j)%nat && test j) js).
Proof.
  revert keep. induction js as [|j js IH]; intros keep; simpl.
  - now rewrite andb_true_r.
  - rewrite IH. destruct (Nat.eqb_spec i j) as [->|Hne].
    + now rewrite Nat.ltb_irrefl.
    + destruct ((i <? j)%nat && test j); simpl; [now rewrite andb_false_r | reflexivity].
Qed.

(** Over the indices of [pre ++ entry :: post], the indices after [entry]
    are those of [post]. *)
Lemma later_index (test : string -> bool) (pre post : list string) (entry : string) :
  existsb
    (fun j => (length pre <? j)%nat && test (nth j (pre ++ entry :: post) EmptyString))
    (seq 0 (length (pre ++ entry :: post)))
  = existsb test post.
Proof.
  rewrite length_app. simpl length.
  replace (length pre + S (length post))%nat with (S (length pre) + length post)%nat by lia.
  rewrite seq_app, existsb_app.
  assert (H1 : existsb (fun j => (length pre <? j)%nat && test (nth j (pre ++ entry :: post) EmptyString))
                 (seq 0 (S (length pre))) = false).
  { apply not_true_is_false. intros H. apply existsb_exists in H as (j & Hj & Ht).
    apply in_seq in Hj. apply andb_true_iff in Ht as [Hlt _]. apply Nat.ltb_lt in Hlt. lia. }
  rewrite H1. simpl orb.
  assert (H2 : forall k, nth (S (length pre) + k) (pre ++ entry :: post) EmptyString
                         = nth k post EmptyString).
  { intros k. rewrite app_nth2 by lia.
    replace (S (length pre) + k - length pre)%nat with (S k) by lia. reflexivity. }
  assert (H3 : forall (l : list string) (off : nat),
             (forall k, nth (off + k) (pre ++ entry :: post) EmptyString = nth k l EmptyString) ->
             (length pre < off)%nat ->
             existsb (fun j => (length pre <? j)%nat && test (nth j (pre ++ entry :: post) EmptyString))
               (seq off (length l)) = existsb test l).
  { induction l as [|x l IH]; intros off Hnth Hoff; simpl; [reflexivity |].
    f_equal.
    - pose proof (Hnth 0%nat) as H0. rewrite Nat.add_0_r in H0. rewrite H0. simpl.
      apply Nat.ltb_lt in Hoff. now rewrite Hoff.
    - apply IH; [| lia]. intros k. pose proof (Hnth (S k)) as Hk. cbn [nth] in Hk.
      rewrite <- Hk. f_equal. lia. }
  apply (H3 post (0 + S (length pre))%nat); [| lia].
  intros k. simpl plus. apply H2.
Qed.

(** The flag [keep] of the entry that stands after [pre]. *)
Lemma keepEntry_at (pjs : list ProwJob.t) (pre post : list string) (entry : string) :
  keepEntry (contextMap pjs) (pre ++ entry :: post) (length pre)
  = negb (existsb (fun e => String.eqb (contextKey e) (contextKey entry)) post)
    && negb (inBatch pjs entry).
Proof.
  unfold keepEntry. rewrite nth_middle.
  rewrite (keep_loop (fun j => String.eqb (firstField (nth j (pre ++ entry :: post) EmptyString))
                                 (firstField entry))).
  rewrite (later_index (fun e => String.eqb (firstField e) (firstField entry))).
  pose proof (contextMap_lookup pjs (firstField entry)) as Hmap.
  rewrite firstField_contextKey in *. fold (inBatch pjs entry) in Hmap.
  rewrite (existsb_pointwise _ (fun e => String.eqb (contextKey e) (contextKey entry)))
    by (intros e; now rewrite firstField_contextKey).
  destruct (contextMap pjs !! contextKey entry) as [pj|].
  - rewrite bool_decide_eq_true_2 in Hmap by eauto. rewrite <- Hmap. now rewrite andb_false_r.
  - rewrite bool_decide_eq_false_2 in Hmap by (intros [? ?]; discriminate).
    rewrite <- Hmap. simpl. now rewrite andb_true_r.
Qed.

(** The second loop, started after [pre] with [newEntries] already kept. *)
Lemma kept_from (pjs : list ProwJob.t) (post pre newEntries : list string) :
  fold_left
    (fun newEntries i =>
       if keepEntry (contextMap pjs) (pre ++ post) i
       then newEntries ++ [nth i (pre ++ post) EmptyString]
       else newEntries)
    (seq (length pre) (length post)) newEntries
  = newEntries ++ survivors pjs post.
Proof.
  revert pre newEntries. induction post as [|entry post IH]; intros pre newEntries.
  - simpl. now rewrite app_nil_r.
  - cbn [length seq fold_left]. rewrite keepEntry_at, nth_middle.
    replace (pre ++ entry :: post) with ((pre ++ [entry]) ++ post) by now rewrite <- app_assoc.
    replace (S (length pre)) with (length (pre ++ [entry])) by (rewrite length_app; simpl; lia).
    rewrite IH. unfold survivors. cbn [lastOfEachKey].
    destruct (existsb (fun e => String.eqb (contextKey e) (contextKey entry)) post); simpl.
    + reflexivity.
    + destruct (inBatch pjs entry); simpl; [reflexivity | now rewrite <- app_assoc].
Qed.

Lemma keptEntries_survivors (pjs : list ProwJob.t) (entries : list string) :
  keptEntries pjs entries = survivors pjs entries.
Proof. unfold keptEntries. exact (kept_from pjs entries [] []). Qed.

(** The third loop: the entries of the failed jobs come after, and
    [createNewComment] is set when there is one. *)
Lemma addFailure_None (pjs : list ProwJob.t) : fold_left addFailure pjs None = None.
Proof. induction pjs as [|pj pjs IH]; [reflexivity | exact IH]. Qed.

(** The entries of the failed jobs of a batch; [None] when one of them
    names no commit. *)
Lemma addFailure_fold (pjs : list ProwJob.t) (newEntries : list string) (create : bool) :
  fold_left addFailure pjs (Some (newEntries, create))
  = fresh ← mapM createEntry (List.filter failed pjs);
    Some (newEntries ++ fresh, create || mustCreateNew pjs).
Proof.
  revert newEntries create. induction pjs as [|pj pjs IH]; intros newEntries create.
  - simpl. now rewrite app_nil_r, orb_false_r.
  - cbn [fold_left List.filter]. unfold addFailure at 2. cbn [mbind option_bind].
    unfold mustCreateNew. cbn [existsb]. unfold failed at 1 3.
    change FailureState with StatusFailure.
    destruct (String.eqb (jobState pj) StatusFailure); cbn [mapM].
    + destruct (createEntry pj) as [entry|]; cbn [mbind option_bind].
      * rewrite IH. destruct (mapM createEntry (List.filter failed pjs)); cbn; [| reflexivity].
        now rewrite <- app_assoc, orb_true_r.
      * apply addFailure_None.
    + rewrite IH. reflexivity.
Qed.

(** The reconciler, loop by loop: the surviving history, then the entries
    of the failed jobs, then the choice of the comments to delete. *)
Lemma parseIssueComments_eq (pjs : list ProwJob.t) (isBot : string -> bool)
    (ics : list IssueComment.t) :
  parseIssueComments pjs isBot ics
  = fresh ← mapM createEntry (List.filter failed pjs);
    let st := scanComments isBot ics in
    let newEntries := survivors pjs (entries st) ++ fresh in
    if (mustCreateNew pjs || (length newEntries =? 0)%nat) && negb (latestComment st =? 0)%Z
    then Some (previousComments st ++ [latestComment st], newEntries, 0%Z)
    else Some (previousComments st, newEntries, latestComment st).
Proof.
  unfold parseIssueComments. rewrite keptEntries_survivors, addFailure_fold.
  destruct (mapM createEntry (List.filter failed pjs)); reflexivity.
Qed.

(** An entry is the last of its key when no later entry has its key. *)
Lemma lastOfEachKey_In (entries : list string) (entry : string) :
  In entry (lastOfEachKey entries)
  <-> exists earlier later,
        entries = earlier ++ entry :: later
        /\ Forall (fun e => contextKey e <> contextKey entry) later.
Proof.
  assert (Hlater : forall later,
             existsb (fun e => String.eqb (contextKey e) (contextKey entry)) later = false
             <-> Forall (fun e => contextKey e <> contextKey entry) later).
  { intros later. rewrite List.Forall_forall. split.
    - intros H e He Heq. apply not_true_iff_false in H. apply H.
      apply existsb_exists. exists e. split; [exact He | now apply String.eqb_eq].
    - intros H. apply not_true_iff_false. intros Hex.
      apply existsb_exists in Hex as (e & He & Heq). apply String.eqb_eq in Heq.
      exact (H e He Heq). }
  split.
  - induction entries as [|x entries IH]; cbn [lastOfEachKey]; [intros [] |].
    destruct (existsb (fun e => String.eqb (contextKey e) (contextKey x)) entries) eqn:E.
    + intros H. destruct (IH H) as (earlier & later & -> & Hl).
      now exists (x :: earlier), later.
    + intros [<-|H].
      * exists [], entries. split; [reflexivity | now apply Hlater].
      * destruct (IH H) as (earlier & later & -> & Hl). now exists (x :: earlier), later.
  - intros (earlier & later & -> & Hl).
    induction earlier as [|x earlier IH]; cbn [app lastOfEachKey].
    + apply Hlater in Hl. rewrite Hl. now left.
    + destruct (existsb _ (earlier ++ entry :: later)); [exact IH | right; exact IH].
Qed.

(** C1. Whatever the parsed history and the batch: of the historical
    entries that share a context key only the one met last stays; of those,
    every entry whose key is the context of a job of the batch is dropped,
    whatever the state of that job (so also when the job adds no row); the
    entries that stay open the returned table, before the fresh rows. *)
Theorem history_last_wins_then_batch_supersedes
    (pjs : list ProwJob.t) (history : list string) :
  keptEntries pjs history
  = List.filter (fun entry => negb (inBatch pjs entry)) (lastOfEachKey history)
  /\ (forall entry,
        In entry (keptEntries pjs history)
        <-> (exists earlier later,
               history = earlier ++ entry :: later
               /\ Forall (fun e => firstField e <> firstField entry) later)
            /\ forall pj, In pj pjs -> jobContext pj <> firstField entry)
  /\ (forall isBot ics deletes newEntries updateID,
        parseIssueComments pjs isBot ics = Some (deletes, newEntries, updateID) ->
        exists fresh,
          mapM createEntry (List.filter failed pjs) = Some fresh
          /\ newEntries = keptEntries pjs (entries (scanComments isBot ics)) ++ fresh).
Proof.
  split; [apply keptEntries_survivors | split].
  - intros entry. rewrite keptEntries_survivors. unfold survivors.
    rewrite filter_In, lastOfEachKey_In, negb_true_iff.
    assert (Hkeys : forall later,
               Forall (fun e => contextKey e <> contextKey entry) later
               <-> Forall (fun e => firstField e <> firstField entry) later).
    { intros later. apply Forall_iff. intros e. now rewrite !firstField_contextKey. }
    assert (Hbatch : inBatch pjs entry = false
                     <-> forall pj, In pj pjs -> jobContext pj <> firstField entry).
    { rewrite firstField_contextKey. unfold inBatch. split.
      - intros H pj Hpj Heq. apply not_true_iff_false in H. apply H.
        apply existsb_exists. exists pj. split; [exact Hpj | now apply String.eqb_eq].
      - intros H. apply not_true_iff_false. intros Hex.
        apply existsb_exists in Hex as (pj & Hpj & Heq). apply String.eqb_eq in Heq.
        exact (H pj Hpj Heq). }
    rewrite Hbatch. split.
    + intros [(earlier & later & He & Hl) Hb]. split; [| exact Hb].
      exists earlier, later. split; [exact He | now apply Hkeys].
    + intros [(earlier & later & He & Hl) Hb]. split; [| exact Hb].
      exists earlier, later. split; [exact He | now apply Hkeys].
  - intros isBot ics deletes newEntries updateID H.
    rewrite parseIssueComments_eq in H. rewrite keptEntries_survivors.
    destruct (mapM createEntry (List.filter failed pjs)) as [fresh|]; [| discriminate].
    exists fresh. split; [reflexivity |]. cbn in H.
    destruct (_ && _) in H; now inversion H.
Qed.

(** The returned table of the case "should merge duplicates" of the tests. *)
Lemma history_last_wins_then_batch_supersedes_witness :
  exists fresh,
    mapM createEntry (List.filter failed [testJob "bla test" StatusFailure false]) = Some fresh
    /\ ["foo test | beep | boop"; "bla test |  | [link]() | true | ``"]
       = keptEntries [testJob "bla test" StatusFailure false]
           (entries
              (scanComments testIsBot
                 [testComment 123
                    ("--- | --- | ---" +:+ LF +:+ "bla test | something | or other" +:+ LF
                     +:+ "foo test | wow such" +:+ LF +:+ LF +:+ commentTag);
                  testComment 124
                    ("--- | --- | ---" +:+ LF +:+ "foo test | beep | boop" +:+ LF +:+ LF
                     +:+ commentTag)]))
         ++ fresh.
Proof.
  apply (proj2 (proj2 (history_last_wins_then_batch_supersedes
                         [testJob "bla test" StatusFailure false] [])) testIsBot _ [123%Z; 124%Z] _ 0%Z).
  vm_compute. reflexivity.
Defined.

(** ** The history parser *)

(** *** Lines and capture mode *)

(** The loop over the lines of a body is the capture of the specification,
    whatever was read before. *)
Lemma trackLine_capture (lines : list string) (tracking : bool) (es : list string) :
  snd (fold_left trackLine lines (tracking, es)) = es ++ capture tracking lines.
Proof.
  revert tracking es. induction lines as [|line lines IH]; intros tracking es.
  - simpl. now rewrite app_nil_r.
  - cbn [fold_left capture]. unfold trackLine at 2, classify.
    rewrite length_zero_empty.
    destruct (HasPrefix (TrimSpace line) "---"); [apply IH |].
    destruct (String.eqb (TrimSpace line) EmptyString); [apply IH |].
    destruct tracking; rewrite IH; [now rewrite <- app_assoc | reflexivity].
Qed.

Lemma scanBody_bodyEntries (es : list string) (body : string) :
  scanBody es body = es ++ bodyEntries body.
Proof. apply trackLine_capture. Qed.

(** *** White space never eats a divider *)

Lemma rev_app_append (s1 s2 : string) : String.rev_app s1 s2 = String.rev s1 +:+ s2.
Proof.
  unfold String.rev. revert s2. induction s1 as [|c s1 IH]; intros s2; [reflexivity |].
  cbn [String.rev_app]. rewrite (IH (String c s2)), (IH (String c EmptyString)).
  now rewrite append_assoc.
Qed.

Lemma rev_append (s1 s2 : string) : String.rev (s1 +:+ s2) = String.rev s2 +:+ String.rev s1.
Proof.
  induction s1 as [|c s1 IH].
  - now rewrite append_nil, append_empty_r.
  - rewrite append_cons. unfold String.rev at 1 3. cbn [String.rev_app].
    rewrite !rev_app_append, IH. now rewrite append_assoc.
Qed.

Lemma spaceRunes_dashFree :
  forallb (fun r => dashFree r && negb (String.eqb r EmptyString)) spaceRunes = true
  /\ forallb (fun r => dashFree r && negb (String.eqb r EmptyString))
       (map String.rev spaceRunes) = true.
Proof. split; vm_compute; reflexivity. Qed.

(** A dash-free prefix of [t] followed by a dash lies within [t]. *)
Lemma dashFree_prefix (r t d : string) :
  dashFree r = true -> HasPrefix (t +:+ String "-" d) r = true ->
  (String.length r <= String.length t)%nat.
Proof.
  unfold HasPrefix. revert t. induction r as [|c r IH]; intros t Hr Hp; [simpl; lia |].
  simpl in Hr. apply andb_true_iff in Hr as [Hc Hr].
  destruct t as [|c' t].
  - rewrite append_nil in Hp. simpl in Hp.
    destruct (ascii_dec c "-") as [->|]; [discriminate Hc | discriminate Hp].
  - rewrite append_cons in Hp. simpl in Hp.
    destruct (ascii_dec c c'); [| discriminate]. simpl. apply le_n_S. now apply IH.
Qed.

(** Dropping dash-free runes in front of [t] leaves a divider after [t] in
    place. *)
Lemma trimLeftFrom_keeps_dashes (runes : list string) (d : string) :
  forallb (fun r => dashFree r && negb (String.eqb r EmptyString)) runes = true ->
  forall (t : string) (skip : nat),
    (skip <= String.length t)%nat ->
    exists u, trimLeftFrom runes skip (t +:+ String "-" d) = u +:+ String "-" d.
Proof.
  intros Hrunes.
  assert (Hfound : forall s r, find (HasPrefix s) runes = Some r ->
                     dashFree r = true /\ r <> EmptyString /\ HasPrefix s r = true).
  { intros s r H. apply find_some in H as [Hin Hp].
    rewrite forallb_forall in Hrunes. specialize (Hrunes r Hin).
    apply andb_true_iff in Hrunes as [H1 H2]. repeat split; [exact H1 | | exact Hp].
    intros ->. discriminate H2. }
  induction t as [|c t IH]; intros skip Hskip.
  - simpl in Hskip. assert (skip = 0%nat) as -> by lia.
    rewrite append_nil. exists EmptyString. rewrite append_nil.
    cbn [trimLeftFrom]. unfold leadingSpace.
    destruct (find (HasPrefix (String "-" d)) runes) as [r|] eqn:E; [| reflexivity].
    destruct (Hfound _ _ E) as (Hd & Hne & Hp). exfalso.
    pose proof (dashFree_prefix r EmptyString d Hd) as Hlen.
    rewrite append_nil in Hlen. specialize (Hlen Hp).
    destruct r; [now apply Hne | simpl in Hlen; lia].
  - rewrite append_cons. cbn [trimLeftFrom]. destruct skip as [|k].
    + unfold leadingSpace.
      destruct (find (HasPrefix (String c (t +:+ String "-" d))) runes) as [r|] eqn:E; cbn.
      * destruct (Hfound _ _ E) as (Hd & Hne & Hp).
        rewrite <- append_cons in Hp. apply dashFree_prefix in Hp; [| exact Hd].
        apply IH. simpl in Hp. lia.
      * exists (String c t). now rewrite append_cons.
    + apply IH. simpl in Hskip. lia.
Qed.

(** A line that begins with the divider prefix still does once trimmed. *)
Lemma TrimSpace_divider (line : string) :
  HasPrefix line "---" = true -> HasPrefix (TrimSpace line) "---" = true.
Proof.
  intros H. apply HasPrefix_inv in H as [rest ->].
  destruct spaceRunes_dashFree as [Hleft Hright].
  unfold TrimSpace, TrimLeftSpace, TrimRightSpace.
  change ("---" +:+ rest) with (String "-" ("--" +:+ rest)).
  assert (E : trimLeftFrom spaceRunes 0 (String "-" ("--" +:+ rest)) = String "-" ("--" +:+ rest)).
  { cbn [trimLeftFrom]. unfold leadingSpace.
    destruct (find (HasPrefix (String "-" ("--" +:+ rest))) spaceRunes) as [r|] eqn:E; [| reflexivity].
    exfalso. apply find_some in E as [Hin Hp].
    rewrite forallb_forall in Hleft. specialize (Hleft r Hin).
    apply andb_true_iff in Hleft as [H1 H2].
    pose proof (dashFree_prefix r EmptyString ("--" +:+ rest) H1) as Hlen.
    rewrite append_nil in Hlen. specialize (Hlen Hp).
    destruct r; [discriminate H2 | simpl in Hlen; lia]. }
  rewrite E. clear E.
  change (String "-" ("--" +:+ rest)) with ("--" +:+ String "-" rest).
  replace ("--" +:+ String "-" rest) with (("--" +:+ String "-" EmptyString) +:+ rest)
    by reflexivity.
  rewrite rev_append.
  change (String.rev ("--" +:+ String "-" EmptyString)) with (String "-" "--").
  destruct (trimLeftFrom_keeps_dashes (map String.rev spaceRunes) "--" Hright
              (String.rev rest) 0 (Nat.le_0_l _)) as [u Hu].
  rewrite Hu, rev_append. apply HasPrefix_append.
Qed.

(** *** The loop over the comments *)

Lemma scanComment_skip (isBot : string -> bool) (st : scanned) (ic : IssueComment.t) :
  ownMarked isBot ic = false -> scanComment isBot st ic = st.
Proof.
  unfold ownMarked, scanComment. intros H.
  destruct (isBot _); [| reflexivity]. simpl in H. now rewrite H.
Qed.

Lemma scanComment_own (isBot : string -> bool) (st : scanned) (ic : IssueComment.t) :
  ownMarked isBot ic = true ->
  scanComment isBot st ic
  = {| previousComments :=
         if (latestComment st =? 0)%Z then previousComments st
         else previousComments st ++ [latestComment st];
       latestComment := IssueComment.ID ic;
       entries := entries st ++ bodyEntries (IssueComment.Body ic) |}.
Proof.
  unfold ownMarked, scanComment. intros H. apply andb_true_iff in H as [-> ->].
  cbn [negb]. rewrite scanBody_bodyEntries. now destruct (latestComment st =? 0)%Z.
Qed.

Lemma last_cons {A} (l : list A) (a d : A) : List.last (a :: l) d = List.last l a.
Proof.
  revert a d. induction l as [|z l IH]; intros a d; [reflexivity |].
  change (List.last (a :: z :: l) d) with (List.last (z :: l) d). now rewrite !IH.
Qed.

(** The loop from any state: the identifiers other than 0, the "none" of
    [latestComment], pass from latest to previous. *)
Lemma scan_from (isBot : string -> bool) (ics : list IssueComment.t) (st : scanned) :
  fold_left (scanComment isBot) ics st
  = {| previousComments :=
         previousComments st
         ++ List.filter (fun id => negb (id =? 0)%Z)
              (removelast (latestComment st
                           :: map IssueComment.ID (List.filter (ownMarked isBot) ics)));
       latestComment :=
         List.last (map IssueComment.ID (List.filter (ownMarked isBot) ics)) (latestComment st);
       entries :=
         entries st
         ++ flat_map (fun ic => bodyEntries (IssueComment.Body ic))
              (List.filter (ownMarked isBot) ics) |}.
Proof.
  revert st. induction ics as [|ic ics IH]; intros st.
  - destruct st. cbn. now rewrite !app_nil_r.
  - cbn [fold_left List.filter]. destruct (ownMarked isBot ic) eqn:E.
    + rewrite IH, (scanComment_own _ _ _ E).
      cbn [map flat_map previousComments latestComment entries].
      rewrite last_cons. f_equal.
      * set (ids := map IssueComment.ID (List.filter (ownMarked isBot) ics)).
        change (removelast (latestComment st :: IssueComment.ID ic :: ids))
          with (latestComment st :: removelast (IssueComment.ID ic :: ids)).
        cbn [List.filter]. destruct (latestComment st =? 0)%Z; cbn [negb];
          [reflexivity | now rewrite <- app_assoc].
      * now rewrite app_assoc.
    + rewrite (scanComment_skip _ _ _ E). apply IH.
Qed.

Lemma scanComments_eq (isBot : string -> bool) (ics : list IssueComment.t) :
  let own := List.filter (ownMarked isBot) ics in
  let ids := map IssueComment.ID own in
  scanComments isBot ics
  = {| previousComments := List.filter (fun id => negb (id =? 0)%Z) (removelast ids);
       latestComment := List.last ids 0%Z;
       entries := flat_map (fun ic => bodyEntries (IssueComment.Body ic)) own |}.
Proof.
  unfold scanComments. rewrite scan_from. cbn [previousComments latestComment entries app].
  f_equal. destruct (map IssueComment.ID (List.filter (ownMarked isBot) ics)); reflexivity.
Qed.

Lemma filter_idempotent {A} (f : A -> bool) (l : list A) :
  List.filter f (List.filter f l) = List.filter f l.
Proof.
  induction l as [|x l IH]; [reflexivity |]. simpl. destruct (f x) eqn:E; [| exact IH].
  simpl. now rewrite E, IH.
Qed.

(** C4. Whatever the ordered list of comments: only the comments written by
    the bot and carrying the marker are read, the others change nothing; in
    such a comment a line that begins with "---" opens capture mode, a blank
    line closes it, and any other line is, while capturing, appended trimmed
    as an entry (the kind of a line is read once it is trimmed); the key of
    an entry is what stands before its first " | "; and at each own and
    marked comment the recorded latest identifier, if there is one, joins
    the previous ones while the identifier of the comment becomes the
    latest. *)
Theorem history_parser (isBot : string -> bool) (ics : list IssueComment.t) :
  let own := List.filter (ownMarked isBot) ics in
  let ids := map IssueComment.ID own in
  (* only own and marked comments are processed *)
  (forall st ic, ownMarked isBot ic = false -> scanComment isBot st ic = st)
  /\ scanComments isBot ics = scanComments isBot own
  (* the entries are those of the bodies, in order *)
  /\ entries (scanComments isBot ics)
     = flat_map (fun ic => capture false (Split (IssueComment.Body ic) LF)) own
  (* the kinds of line *)
  /\ (forall line, HasPrefix line "---" = true -> classify line = Divider)
  /\ classify EmptyString = Blank
  /\ (forall line text, classify line = Row text ->
        text = TrimSpace line /\ text <> EmptyString /\ HasPrefix line "---" = false)
  (* the key of an entry *)
  /\ (forall entry, firstField entry = beforeFirst " | " entry)
  (* latest and previous, step by step and at the end *)
  /\ (forall st ic, ownMarked isBot ic = true ->
        latestComment (scanComment isBot st ic) = IssueComment.ID ic
        /\ previousComments (scanComment isBot st ic)
           = if (latestComment st =? 0)%Z then previousComments st
             else previousComments st ++ [latestComment st])
  /\ latestComment (scanComments isBot ics) = List.last ids 0%Z
  /\ previousComments (scanComments isBot ics)
     = List.filter (fun id => negb (id =? 0)%Z) (removelast ids).
Proof.
  cbv zeta. repeat apply conj.
  - apply scanComment_skip.
  - rewrite !scanComments_eq. now rewrite filter_idempotent.
  - now rewrite scanComments_eq.
  - intros line H. unfold classify. now rewrite (TrimSpace_divider line H).
  - reflexivity.
  - intros line text. unfold classify.
    destruct (HasPrefix (TrimSpace line) "---") eqn:E1; [discriminate |].
    destruct (String.eqb_spec (TrimSpace line) EmptyString) as [|E2]; [discriminate |].
    intros [= <-]. repeat split; [exact E2 |].
    destruct (HasPrefix line "---") eqn:E3; [| reflexivity].
    now rewrite (TrimSpace_divider line E3) in E1.
  - apply firstField_contextKey.
  - intros st ic H. now rewrite (scanComment_own _ _ _ H).
  - now rewrite scanComments_eq.
  - now rewrite scanComments_eq.
Qed.

(** A comment of somebody else leaves the scan as it is. *)
Lemma history_parser_witness :
  ownMarked testIsBot humanComment = false
  /\ scanComment testIsBot (mkScanned [] 123 ["foo test | wow | aye"]) humanComment
     = mkScanned [] 123 ["foo test | wow | aye"].
Proof.
  split; [reflexivity |].
  apply (proj1 (history_parser testIsBot [])). reflexivity.
Defined.

(** ** The reconciler: fresh entries and the comments to delete *)

Lemma createEntry_eq (pj : ProwJob.t) :
  createEntry pj = renderedEntry pj <$> entryCommit pj.
Proof.
  unfold createEntry, renderedEntry, entryCommit, requiredField.
  destruct (jobRefs pj) as [refs|]; cbn; [| now destruct (String.eqb (jobType pj) PostsubmitJob)].
  destruct (String.eqb (jobType pj) PostsubmitJob); cbn; [reflexivity |].
  destruct (head (Refs.Pulls refs)) as [pull|]; cbn; [| reflexivity].
  destruct (String.eqb (jobType pj) PresubmitJob); [| reflexivity].
  destruct (jobLabels pj !! IsOptionalLabel) as [label|]; [| reflexivity].
  destruct (ParseBool label) as [[|]|]; reflexivity.
Qed.

Lemma mustCreateNew_iff (pjs : list ProwJob.t) :
  mustCreateNew pjs = true <-> exists pj, In pj pjs /\ jobState pj = "failure".
Proof.
  unfold mustCreateNew. rewrite existsb_exists. unfold failed.
  split; intros (pj & Hin & H); exists pj; (split; [exact Hin |]); now apply String.eqb_eq.
Qed.

Lemma mustCreateNew_filter (pjs : list ProwJob.t) :
  mustCreateNew pjs = negb (length (List.filter failed pjs) =? 0)%nat.
Proof.
  unfold mustCreateNew. induction pjs as [|pj pjs IH]; [reflexivity |].
  simpl. destruct (failed pj); [reflexivity | exact IH].
Qed.

(** The identifiers other than 0 of a list, with or without its last. *)
Lemma nonzero_with_last (ids : list Z) :
  List.filter (fun id => negb (id =? 0)%Z) ids
  = List.filter (fun id => negb (id =? 0)%Z) (removelast ids)
    ++ (if negb (List.last ids 0 =? 0)%Z then [List.last ids 0%Z] else []).
Proof.
  induction ids as [|a ids IH]; [reflexivity |].
  destruct ids as [|b ids].
  - cbn. destruct (a =? 0)%Z; reflexivity.
  - change (removelast (a :: b :: ids)) with (a :: removelast (b :: ids)).
    change (List.last (a :: b :: ids) 0%Z) with (List.last (b :: ids) 0%Z).
    assert (Hc : forall (x : Z) (l : list Z),
               List.filter (fun id => negb (id =? 0)%Z) (x :: l)
               = if negb (x =? 0)%Z then x :: List.filter (fun id => negb (id =? 0)%Z) l
                 else List.filter (fun id => negb (id =? 0)%Z) l) by reflexivity.
    rewrite (Hc a (b :: ids)), (Hc a (removelast (b :: ids))), IH.
    now destruct (negb (a =? 0)%Z).
Qed.

(** What the reconciler returns, in the terms of the specification. *)
Lemma reconciler_result (pjs : list ProwJob.t) (isBot : string -> bool)
    (ics : list IssueComment.t) (deletes : list Z) (newEntries : list string) (updateID : Z) :
  parseIssueComments pjs isBot ics = Some (deletes, newEntries, updateID) ->
  let st := scanComments isBot ics in
  exists fresh,
    mapM createEntry (List.filter failed pjs) = Some fresh
    /\ newEntries = survivors pjs (entries st) ++ fresh
    /\ deletes
       = previousComments st
         ++ (if latestSuperseded pjs newEntries && negb (latestComment st =? 0)%Z
             then [latestComment st] else [])
    /\ updateID = (if latestSuperseded pjs newEntries then 0%Z else latestComment st).
Proof.
  rewrite parseIssueComments_eq. cbv zeta. unfold latestSuperseded.
  destruct (mapM createEntry (List.filter failed pjs)) as [fresh|]; cbn [mbind option_bind];
    [| discriminate].
  intros H. exists fresh. split; [reflexivity |].
  destruct (mustCreateNew pjs || _) eqn:E1 in H;
    destruct (latestComment (scanComments isBot ics) =? 0)%Z eqn:E0 in H;
    cbn [andb negb] in H; injection H as <- <- <-; rewrite E1, ?E0; cbn [andb negb];
    rewrite ?List.app_nil_r; repeat split; try reflexivity.
  now apply Z.eqb_eq in E0.
Qed.

(** C2. Whenever the reconciler returns: the comments to delete are the
    previous own and marked comments, in every case, and after them the
    latest one exactly when a job of the batch failed (a fresh entry was
    appended, [mustCreateNew]) or no entry is left; the comment to update
    is then none (0), and the latest one otherwise. In terms of the
    comments: all own and marked comments are deleted in the first case, all
    but the last in the second. The reconciler returns unless a failed job
    names no commit for its entry. *)
Theorem deletion_set (pjs : list ProwJob.t) (isBot : string -> bool)
    (ics : list IssueComment.t) :
  let st := scanComments isBot ics in
  let ids := map IssueComment.ID (List.filter (ownMarked isBot) ics) in
  match parseIssueComments pjs isBot ics with
  | Some (deletes, newEntries, updateID) =>
      let addLatest := mustCreateNew pjs || (length newEntries =? 0)%nat in
      (* the fresh entries and [mustCreateNew] *)
      (exists fresh,
          newEntries = keptEntries pjs (entries st) ++ fresh
          /\ length fresh = length (List.filter failed pjs)
          /\ (mustCreateNew pjs = true <-> fresh <> []))
      /\ (mustCreateNew pjs = true <-> exists pj, In pj pjs /\ jobState pj = "failure")
      (* the comments to delete *)
      /\ deletes
         = previousComments st
           ++ (if addLatest && negb (latestComment st =? 0)%Z then [latestComment st] else [])
      /\ deletes
         = List.filter (fun id => negb (id =? 0)%Z) (if addLatest then ids else removelast ids)
      (* the comment to update *)
      /\ updateID = (if addLatest then 0%Z else latestComment st)
  | None => exists pj, In pj pjs /\ failed pj = true /\ entryCommit pj = None
  end.
Proof.
  cbv zeta.
  destruct (parseIssueComments pjs isBot ics) as [[[deletes newEntries] updateID]|] eqn:E.
  - destruct (reconciler_result _ _ _ _ _ _ E) as (fresh & Hfresh & Hentries & Hdeletes & Hupdate).
    unfold latestSuperseded in *. rewrite keptEntries_survivors.
    split; [| split; [| split; [| split]]].
    + exists fresh. split; [exact Hentries |].
      pose proof (length_mapM _ _ _ Hfresh) as Hlen. split; [now symmetry |].
      rewrite mustCreateNew_filter, Hlen. destruct fresh; cbn; split; congruence.
    + apply mustCreateNew_iff.
    + exact Hdeletes.
    + rewrite Hdeletes, (scanComments_eq isBot ics). cbn [previousComments latestComment].
      destruct (mustCreateNew pjs || (length newEntries =? 0)%nat); cbn [andb].
      * symmetry. apply nonzero_with_last.
      * now rewrite List.app_nil_r.
    + exact Hupdate.
  - rewrite parseIssueComments_eq in E.
    destruct (mapM createEntry (List.filter failed pjs)) as [fresh|] eqn:Hfresh;
      cbn [mbind option_bind] in E; [cbv zeta in E; now destruct (_ && _) in E |].
    apply mapM_None_1 in Hfresh. apply List.Exists_exists in Hfresh as (pj & Hin & Hpj).
    apply filter_In in Hin as [Hin Hf]. exists pj. repeat split; [exact Hin | exact Hf |].
    rewrite createEntry_eq in Hpj. now destruct (entryCommit pj).
Qed.

(** ** The fresh entry of a failed presubmit job *)

(** C8, as the specification states it, fails: without the label
    [IsOptionalLabel] the field "required" (the fourth) of the single fresh
    entry is "unknown", not "true". *)
Lemma required_is_unknown_without_label :
  jobType unlabelledJob = PresubmitJob
  /\ jobState unlabelledJob = FailureState
  /\ jobLabels unlabelledJob !! IsOptionalLabel = None
  /\ parseIssueComments [unlabelledJob] testIsBot []
     = Some ([], ["bla test |  | [link]() | unknown | ``"], 0%Z)
  /\ nth 3 (Split "bla test |  | [link]() | unknown | ``" " | ") EmptyString = "unknown"
  /\ "unknown" <> "true".
Proof. repeat split; try (vm_compute; reflexivity). discriminate. Qed.

(** The entry of a failed job that names no commit cannot be rendered: the
    reconciler panics on [Pulls[0]]. *)
Lemma failed_job_without_pull_panics :
  parseIssueComments [pullLessJob] testIsBot [] = None.
Proof. reflexivity. Qed.

(** C8, amended. A batch of one failed presubmit job that names a pull, on
    a history without own and marked comment: the reconciler returns no
    deletion, no comment to update and exactly one entry, freshly rendered,
    whose field "required" is "true" when the label of the job reads false,
    "false" when it reads true, and "unknown" when the job has no such label
    or the label is no boolean. The result is a function of the batch and of
    the own and marked comments alone, so a second call on the unchanged
    remote state returns the same entry. *)
Theorem single_failure_fresh_entry (pj : ProwJob.t) (isBot : string -> bool)
    (ics : list IssueComment.t) (pull : Pull.t) (refs : Refs.t) :
  jobType pj = PresubmitJob ->
  jobState pj = FailureState ->
  jobRefs pj = Some refs ->
  head (Refs.Pulls refs) = Some pull ->
  List.filter (ownMarked isBot) ics = [] ->
  let required :=
    match jobLabels pj !! IsOptionalLabel with
    | Some label =>
        match ParseBool label with
        | Some true => "false"
        | Some false => "true"
        | None => "unknown"
        end
    | None => "unknown"
    end in
  parseIssueComments [pj] isBot ics
  = Some ([],
          [Join [jobContext pj;
                 Pull.SHA pull;
                 "[link](" +:+ jobURL pj +:+ ")";
                 required;
                 "`" +:+ ProwJobSpec.RerunCommand (ProwJob.Spec pj) +:+ "`"] " | "],
          0%Z).
Proof.
  intros Htype Hstate Hrefs Hpull Hown. cbv zeta.
  rewrite parseIssueComments_eq, scanComments_eq, Hown.
  assert (Hfailed : failed pj = true) by (unfold failed; rewrite Hstate; apply String.eqb_refl).
  cbn [List.filter]. rewrite Hfailed.
  cbn [mapM]. rewrite createEntry_eq.
  unfold entryCommit, renderedEntry. rewrite Hrefs, Htype. cbn. rewrite Hpull. cbn.
  unfold mustCreateNew. cbn [existsb]. rewrite Hfailed. reflexivity.
Qed.

(** The failed job of the tests, labelled as not optional, next to a comment
    of somebody else. *)
Lemma single_failure_fresh_entry_witness :
  parseIssueComments [testJob "bla test" StatusFailure false] testIsBot [humanComment]
  = Some ([], ["bla test |  | [link]() | true | ``"], 0%Z).
Proof.
  exact (single_failure_fresh_entry (testJob "bla test" StatusFailure false) testIsBot
           [humanComment] (Pull.mk 0 EmptyString EmptyString)
           (Refs.mk EmptyString EmptyString EmptyString EmptyString
              [Pull.mk 0 EmptyString EmptyString])
           eq_refl eq_refl eq_refl eq_refl eq_refl).
Defined.

(** ** The comment renderer *)

Lemma failedHeader_eq (pj : ProwJob.t) (plural : string) :
  failedHeader pj plural
  = author ← orPanic (commentAuthor pj);
    Ok (failedLines (String.eqb (jobType pj) PostsubmitJob) author plural).
Proof.
  unfold failedHeader, commentAuthor, failedLines.
  destruct (jobRefs pj) as [refs|]; cbn;
    destruct (String.eqb (jobType pj) PostsubmitJob); cbn; try reflexivity.
  destruct (head (Refs.Pulls refs)); reflexivity.
Qed.

Lemma passedHeader_eq (pj : ProwJob.t) :
  passedHeader pj = author ← orPanic (commentAuthor pj); Ok (passedLines author).
Proof.
  unfold passedHeader, commentAuthor, passedLines.
  destruct (jobRefs pj) as [refs|]; cbn;
    destruct (String.eqb (jobType pj) PostsubmitJob); cbn; try reflexivity.
  destruct (head (Refs.Pulls refs)); reflexivity.
Qed.

(** The comment of a batch, by the number of entries. *)
Lemma createComment_eq (reportTemplate : option Template) (pj0 : ProwJob.t)
    (rest : list ProwJob.t) (entries : list string) :
  createComment reportTemplate (pj0 :: rest) entries
  = b ← execute reportTemplate pj0;
    author ← orPanic (commentAuthor pj0);
    let header :=
      match entries with
      | [] => passedLines author
      | _ :: more =>
          failedLines (String.eqb (jobType pj0) PostsubmitJob) author
            (match more with [] => EmptyString | _ :: _ => "s" end)
      end in
    Ok (Join (header ++ entries ++ templateLines reportTemplate b ++ closingLines) LF).
Proof.
  unfold createComment. destruct (execute reportTemplate pj0) as [b| |]; cbn; try reflexivity.
  rewrite failedHeader_eq, passedHeader_eq.
  destruct (commentAuthor pj0) as [author|]; cbn; [| reflexivity].
  destruct entries as [|entry [|entry' more]]; cbn [length Nat.ltb Nat.leb Nat.eqb];
    destruct reportTemplate; cbn [templateLines]; cbn;
    rewrite <- ?app_assoc; reflexivity.
Qed.

(** Without template output or without author there is no comment. *)
Lemma createComment_no_comment (reportTemplate : option Template) (pj0 : ProwJob.t)
    (rest : list ProwJob.t) (entries : list string) :
  (forall err, execute reportTemplate pj0 = Failed err ->
     createComment reportTemplate (pj0 :: rest) entries = Failed err)
  /\ (forall b, execute reportTemplate pj0 = Ok b -> commentAuthor pj0 = None ->
       createComment reportTemplate (pj0 :: rest) entries = Panic).
Proof.
  split; [intros err H | intros b H Hauthor]; rewrite createComment_eq, H; [reflexivity |].
  now rewrite Hauthor.
Qed.

(** C6. For a batch that is not empty, whose first job names the author to
    address and whose template, if any, executes: with no entry the comment
    is the line "@<author>: all tests **passed!**", an empty line, the
    output of the template and the closing block, with no table header,
    for pre-merge and post-merge jobs alike; with entries the two kinds
    differ in the four lines of the header only (the wording of the first
    one, and five columns against three). *)
Theorem comment_without_entries (reportTemplate : option Template) (pj0 : ProwJob.t)
    (rest : list ProwJob.t) (author b : string) :
  commentAuthor pj0 = Some author ->
  execute reportTemplate pj0 = Ok b ->
  createComment reportTemplate (pj0 :: rest) []
  = Ok (Join (["@" +:+ author +:+ ": all tests **passed!**"; EmptyString]
              ++ templateLines reportTemplate b ++ closingLines) LF)
  /\ forall entry more,
       let plural := match more with [] => EmptyString | _ :: _ => "s" end in
       let header :=
         if String.eqb (jobType pj0) PostsubmitJob then
           ["@" +:+ author +:+ ": The following test" +:+ plural +:+ " **failed**:";
            EmptyString;
            "Test name | Commit | Details";
            "--- | --- | ---"]
         else
           ["@" +:+ author +:+ ": The following test" +:+ plural
              +:+ " **failed**, say `/retest` to rerun all failed tests or `/retest-required` to rerun all mandatory failed tests:";
            EmptyString;
            "Test name | Commit | Details | Required | Rerun command";
            "--- | --- | --- | --- | ---"] in
       createComment reportTemplate (pj0 :: rest) (entry :: more)
       = Ok (Join (header ++ (entry :: more)
                   ++ templateLines reportTemplate b ++ closingLines) LF).
Proof.
  intros Hauthor Hb. split; [| intros entry more]; rewrite createComment_eq, Hb, Hauthor; reflexivity.
Qed.

(** The case "multiple-job-all-passed" of the tests. *)
Lemma comment_without_entries_witness :
  createComment None [commentJob "job-a"; commentJob "job-b"] []
  = Ok (Join ["@chaodaig: all tests **passed!**"; EmptyString;
              EmptyString; "<details>"; EmptyString; AboutThisBot; "</details>";
              "<!-- test report -->"] LF).
Proof.
  exact (proj1 (comment_without_entries None (commentJob "job-a") [commentJob "job-b"]
                  "chaodaig" EmptyString eq_refl eq_refl)).
Defined.

(** ** The synchronizer *)

(** A sequence runs its second part from where the first one ends, unless
    that one fails or panics. *)
Lemma run_bind {G A B} (m : M G A) (f : A -> M G B) (s : G * list Call) :
  (m ≫= f) s
  = match m s with
    | (Ok a, s') => f a s'
    | (Failed err, s') => (Failed err, s')
    | (Panic, s') => (Panic, s')
    end.
Proof. reflexivity. Qed.

Lemma run_remote {G A} (c : Call) (method : G -> G * result A) (g : G) (log : list Call) :
  remote c method (g, log) = (Ok (snd (method g)), (fst (method g), log ++ [c])).
Proof. unfold remote. cbn [fst snd]. now destruct (method g). Qed.

Lemma run_lift {G A} (o : outcome A) (s : G * list Call) : lift o s = (o, s).
Proof. reflexivity. Qed.

Lemma run_ret {G A} (a : A) (s : G * list Call) : (mret a : M G A) s = (Ok a, s).
Proof. reflexivity. Qed.

Lemma run_orFail {G A} (prefix : string) (r : result A) (s : G * list Call) :
  (orFail prefix r : M G A) s
  = (match r with Value a => Ok a | Error err => Failed (prefix +:+ err) end, s).
Proof. now destruct r. Qed.

Lemma run_wrapError {G A} (prefix : string) (o : outcome A) (s : G * list Call) :
  wrapError prefix (lift o) s
  = (match o with Failed err => Failed (prefix +:+ err) | _ => o end, s).
Proof. now destruct o. Qed.

(** One step of a run: the first part of a sequence is replaced by what it
    returns. *)
Ltac run_step :=
  rewrite run_bind;
  rewrite ?run_orFail, ?run_remote, ?run_lift, ?run_ret;
  cbv beta iota; cbn [fst snd].

(** The loop over the comments to delete: its outcome and the calls it adds
    do not depend on the calls made before, and when every deletion is
    accepted it makes one call per comment, in order. *)
Lemma deletions_run {G} (ghc : GitHubClient G) (refs : Refs.t) (deletes : list Z) (g : G) :
  exists o g' calls,
    (forall log, deleteComments ghc refs deletes (g, log) = (o, (g', log ++ calls)))
    /\ (o = Ok tt -> calls = map (DeleteComment (Refs.Org refs) (Refs.Repo refs)) deletes).
Proof.
  unfold deleteComments. revert g. induction deletes as [|delete deletes IH]; intros g.
  - exists (Ok tt), g, []. split; [| reflexivity].
    intros log. cbn [forEach]. now rewrite List.app_nil_r.
  - destruct (DeleteCommentWithContext ghc (Refs.Org refs) (Refs.Repo refs) delete g)
      as [g1 [[]|err]] eqn:E.
    + destruct (IH g1) as (o & g' & calls & Hrun & Hok).
      exists o, g', (DeleteComment (Refs.Org refs) (Refs.Repo refs) delete :: calls). split.
      * intros log. cbn [forEach]. rewrite !run_bind, run_remote, run_orFail, E. cbn [fst snd].
        now rewrite Hrun, <- List.app_assoc.
      * intros Ho. now rewrite (Hok Ho).
    + exists (Failed ("error deleting comment: " +:+ err)), g1,
        [DeleteComment (Refs.Org refs) (Refs.Repo refs) delete].
      split; [| discriminate].
      intros log. cbn [forEach]. now rewrite !run_bind, run_remote, run_orFail, E.
Qed.

(** The calls of [syncListed] once the deletions are accepted: the bot
    checker, the deletions, and at most one more call, whatever its
    result. *)
Lemma syncListed_calls {G} (ghc : GitHubClient G) (reportTemplate : option Template)
    (pjs : list ProwJob.t) (mustComment : bool) (refs : Refs.t) (isPostsubmit : bool)
    (comments : list IssueComment.t) (g1 g2 : G) (log : list Call)
    (botNameChecker : string -> bool) (deletes : list Z) (entries : list string) (updateID : Z) :
  BotUserCheckerWithContext ghc g1 = (g2, Value botNameChecker) ->
  parseIssueComments pjs botNameChecker comments = Some (deletes, entries, updateID) ->
  outcomeOf (deleteComments ghc refs deletes) g2 = Ok tt ->
  snd (snd (syncListed ghc reportTemplate pjs mustComment refs isPostsubmit
              (Value comments) (g1, log)))
  = log ++ BotUserChecker
        :: map (DeleteComment (Refs.Org refs) (Refs.Repo refs)) deletes
        ++ (if (0 <? length entries)%nat || mustComment then
              match createComment reportTemplate pjs entries with
              | Ok comment =>
                  if (updateID =? 0)%Z then
                    if isPostsubmit
                    then [CreateCommitComment (Refs.Org refs) (Refs.Repo refs)
                            (Refs.BaseSHA refs) comment]
                    else
                      match head (Refs.Pulls refs) with
                      | Some pull => [CreateComment (Refs.Org refs) (Refs.Repo refs)
                                        (Pull.Number pull) comment]
                      | None => []
                      end
                  else [EditComment (Refs.Org refs) (Refs.Repo refs) updateID comment]
              | _ => []
              end
            else []).
Proof.
  intros Hbot Hparse Hdel. unfold syncListed.
  run_step. run_step. rewrite Hbot. cbn [fst snd]. run_step. run_step.
  rewrite Hparse. cbn [orPanic]. cbv beta iota. run_step.
  destruct (deletions_run ghc refs deletes g2) as (o & g3 & calls & Hrun & Hcalls).
  unfold outcomeOf in Hdel. rewrite Hrun in Hdel. cbn [fst] in Hdel. subst o.
  rewrite Hrun, (Hcalls eq_refl). cbv beta iota.
  destruct ((0 <? length entries)%nat || mustComment).
  - run_step. rewrite run_wrapError.
    destruct (createComment reportTemplate pjs entries) as [comment| |]; cbv beta iota;
      cbn [fst snd]; try (now rewrite <- !List.app_assoc, List.app_nil_r).
    destruct (updateID =? 0)%Z.
    + destruct isPostsubmit.
      * run_step.
        destruct (CreateCommitCommentWithContext ghc _ _ _ _ g3) as [g4 [[]|err]]; cbn [fst snd];
          now rewrite <- !List.app_assoc.
      * run_step. run_step.
        destruct (head (Refs.Pulls refs)) as [pull|]; cbn [orPanic]; cbv beta iota; cbn [fst snd];
          [| now rewrite <- !List.app_assoc, List.app_nil_r].
        rewrite run_remote, run_orFail.
        destruct (CreateCommentWithContext ghc _ _ _ _ g3) as [g4 [[]|err]]; cbn [fst snd];
          now rewrite <- !List.app_assoc.
    + run_step.
      destruct (EditCommentWithContext ghc _ _ _ _ g3) as [g4 [[]|err]]; cbn [fst snd];
        now rewrite <- !List.app_assoc.
  - rewrite run_ret. cbn [fst snd]. now rewrite <- !List.app_assoc, List.app_nil_r.
Qed.

(** C3. Once the comments are listed, the bot checker obtained, the
    reconciler has returned and the deletions are accepted, the run makes
    the listing call, the checker call, one deletion per comment to delete,
    and then, with [comment] the rendering of the merged entries: a creation
    when [mustCreateNew] holds, or when the force flag is set with entries
    left and the latest comment not retained; an update of the latest
    comment when that comment is retained and [mustCreateNew] does not
    hold; no creation and no update when no entry is left and the force
    flag is not set. When the rendering fails no further call is made. *)
Theorem synchronizer_decision {G} (ghc : GitHubClient G) (reportTemplate : option Template)
    (pj0 : ProwJob.t) (rest : list ProwJob.t) (mustComment : bool)
    (refs : Refs.t) (listCall : Call) (lister : G -> G * result (list IssueComment.t))
    (g g1 g2 : G) (comments : list IssueComment.t) (botNameChecker : string -> bool)
    (deletes : list Z) (entries : list string) (updateID : Z) :
  let pjs := pj0 :: rest in
  let run := createOrUpdateComments ghc reportTemplate pjs mustComment in
  jobRefs pj0 = Some refs ->
  listingCall pj0 = Some listCall ->
  listing ghc pj0 = Some lister ->
  lister g = (g1, Value comments) ->
  BotUserCheckerWithContext ghc g1 = (g2, Value botNameChecker) ->
  parseIssueComments pjs botNameChecker comments = Some (deletes, entries, updateID) ->
  outcomeOf (deleteComments ghc refs deletes) g2 = Ok tt ->
  exists tail,
    callsOf run g
    = listCall :: BotUserChecker
        :: map (DeleteComment (Refs.Org refs) (Refs.Repo refs)) deletes ++ tail
    /\ (mustCreateNew pjs = true \/ (mustComment = true /\ entries <> [] /\ updateID = 0%Z) ->
        forall comment,
          createComment reportTemplate pjs entries = Ok comment ->
          exists create, creationCall pj0 comment = Some create /\ tail = [create])
    /\ (updateID <> 0%Z -> mustCreateNew pjs = false ->
        updateID = latestComment (scanComments botNameChecker comments)
        /\ forall comment,
             createComment reportTemplate pjs entries = Ok comment ->
             tail = [EditComment (Refs.Org refs) (Refs.Repo refs) updateID comment])
    /\ (entries = [] -> mustComment = false -> tail = [])
    /\ (forall err, createComment reportTemplate pjs entries = Failed err -> tail = []).
Proof.
  intros pjs run Hrefs HlistCall Hlisting Hlist Hbot Hparse Hdel.
  (* the run is the listing followed by [syncListed] *)
  assert (Hrun : run (g, [])
                 = syncListed ghc reportTemplate pjs mustComment refs
                     (String.eqb (jobType pj0) PostsubmitJob) (Value comments) (g1, [listCall])
                 /\ exists create : string -> Call,
                      (forall comment, creationCall pj0 comment = Some (create comment))
                      /\ forall comment,
                           (if String.eqb (jobType pj0) PostsubmitJob
                            then [CreateCommitComment (Refs.Org refs) (Refs.Repo refs)
                                    (Refs.BaseSHA refs) comment]
                            else
                              match head (Refs.Pulls refs) with
                              | Some pull => [CreateComment (Refs.Org refs) (Refs.Repo refs)
                                                (Pull.Number pull) comment]
                              | None => []
                              end) = [create comment]).
  { unfold run, createOrUpdateComments, pjs, creationCall. cbn [head].
    run_step. cbn [orPanic]. cbv beta iota. run_step. rewrite Hrefs. cbn [orPanic]. cbv beta iota zeta.
    unfold listingCall in HlistCall. unfold listing in Hlisting.
    rewrite Hrefs in HlistCall, Hlisting. cbn in HlistCall, Hlisting. cbn [mbind option_bind].
    destruct (String.eqb (jobType pj0) PostsubmitJob).
    - injection HlistCall as <-. injection Hlisting as <-. run_step. rewrite Hlist.
      split; [reflexivity |]. now eexists.
    - destruct (Refs.Pulls refs) as [|pull pulls]; [discriminate |].
      injection HlistCall as <-. injection Hlisting as <-. run_step. rewrite Hlist.
      split; [reflexivity |]. now eexists. }
  destruct Hrun as (Hrun & create & Hcreate & Hcalls).
  pose proof (syncListed_calls ghc reportTemplate pjs mustComment refs
                (String.eqb (jobType pj0) PostsubmitJob) comments g1 g2
                [listCall] botNameChecker deletes entries updateID Hbot Hparse Hdel) as Hsync.
  rewrite <- Hrun in Hsync. fold (callsOf run g) in Hsync. cbn [app] in Hsync.
  eexists. split; [exact Hsync |].
  (* what the reconciler returned *)
  destruct (reconciler_result _ _ _ _ _ _ Hparse) as (fresh & Hmap & Hentries & _ & Hupdate).
  unfold latestSuperseded in Hupdate.
  assert (Hfresh : mustCreateNew pjs = true -> fresh <> []).
  { rewrite mustCreateNew_filter, (length_mapM _ _ _ Hmap). now destruct fresh. }
  split; [| split; [| split]].
  - intros Hcase comment Hcomment.
    assert (Hboth : (0 <? length entries)%nat || mustComment = true /\ updateID = 0%Z).
    { destruct Hcase as [Hmust|(Hforce & Hne & H0)].
      - rewrite Hmust in Hupdate. cbn in Hupdate. split; [| exact Hupdate].
        apply Hfresh in Hmust. rewrite Hentries, length_app.
        destruct fresh; [now destruct Hmust |].
        apply orb_true_iff. left. apply Nat.ltb_lt. simpl. lia.
      - split; [| exact H0]. rewrite Hforce. apply orb_true_r. }
    destruct Hboth as [-> ->]. rewrite Hcomment. cbn [Z.eqb].
    exists (create comment). split; [apply Hcreate | apply Hcalls].
  - intros Hupd Hmust.
    assert (Hlen : (length entries =? 0)%nat = false
                   /\ updateID = latestComment (scanComments botNameChecker comments)).
    { rewrite Hmust in Hupdate. cbn in Hupdate.
      destruct (length entries =? 0)%nat; [contradiction | now split]. }
    destruct Hlen as [Hlen Hlatest]. split; [exact Hlatest |].
    intros comment Hcomment.
    assert (Hcond : (0 <? length entries)%nat || mustComment = true).
    { apply orb_true_iff. left. apply Nat.ltb_lt. apply Nat.eqb_neq in Hlen. lia. }
    rewrite Hcond, Hcomment. apply Z.eqb_neq in Hupd. now rewrite Hupd.
  - intros -> ->. reflexivity.
  - intros err ->. now destruct ((0 <? length entries)%nat || mustComment).
Qed.

(** A failed postsubmit job on a commit without comment: the comment is
    created on the commit. *)
Lemma synchronizer_decision_witness :
  exists comment,
    createComment None [postsubmitJob FailureState ghCommenter]
      ["parent | SHA | [link](http://mytest.com)"] = Ok comment
    /\ callsOf (createOrUpdateComments fakeGhClient None
                  [postsubmitJob FailureState ghCommenter] false) emptyFake
       = [ListCommitComments "k8s" "test-infra" "SHA"; BotUserChecker;
          CreateCommitComment "k8s" "test-infra" "SHA" comment].
Proof.
  assert (Hparse : parseIssueComments [postsubmitJob FailureState ghCommenter]
                     (fun candidate => String.eqb candidate fakeBotName) []
                   = Some ([], ["parent | SHA | [link](http://mytest.com)"], 0%Z))
    by (vm_compute; reflexivity).
  destruct (synchronizer_decision fakeGhClient None (postsubmitJob FailureState ghCommenter) []
              false testRefs (ListCommitComments "k8s" "test-infra" "SHA")
              (ListCommitCommentsWithContext fakeGhClient "k8s" "test-infra" "SHA")
              emptyFake emptyFake emptyFake [] (fun candidate => String.eqb candidate fakeBotName)
              [] ["parent | SHA | [link](http://mytest.com)"] 0%Z
              eq_refl eq_refl eq_refl eq_refl eq_refl Hparse eq_refl)
    as (tail & Hcalls & Hcreate & _).
  destruct (createComment None [postsubmitJob FailureState ghCommenter]
              ["parent | SHA | [link](http://mytest.com)"]) as [comment| |] eqn:Hcomment;
    try (vm_compute in Hcomment; discriminate Hcomment).
  destruct (Hcreate (or_introl eq_refl) comment eq_refl) as (create & Hcall & ->).
  exists comment. split; [reflexivity |].
  rewrite Hcalls. injection Hcall as <-. reflexivity.
Defined.

(** ** The batch [ReportComment] reconciles *)

Lemma filter_filter_and {A} (f g : A -> bool) (l : list A) :
  List.filter (fun x => f x && g x) (List.filter f l) = List.filter (fun x => f x && g x) l.
Proof.
  induction l as [|x l IH]; [reflexivity |]. simpl.
  destruct (f x) eqn:E; simpl; [rewrite E; simpl; now rewrite IH | exact IH].
Qed.

(** The first loop of [ReportComment] keeps the reconciled jobs, the
    post-merge ones apart from the others, in their order. *)
Lemma splitJobs_eq (config : GitHubReporter.t) (pjs : list ProwJob.t) :
  splitJobs config pjs
  = (List.filter (fun pj => reconciled config pj
                            && negb (String.eqb (jobType pj) PostsubmitJob)) pjs,
     List.filter (fun pj => reconciled config pj
                            && String.eqb (jobType pj) PostsubmitJob) pjs).
Proof.
  unfold splitJobs.
  match goal with |- fold_left ?f _ _ = _ => set (step := f) end.
  assert (H : forall pre post,
             fold_left step pjs (pre, post)
             = (pre ++ List.filter (fun pj => reconciled config pj
                                             && negb (String.eqb (jobType pj) PostsubmitJob)) pjs,
                post ++ List.filter (fun pj => reconciled config pj
                                              && String.eqb (jobType pj) PostsubmitJob) pjs)).
  { induction pjs as [|pj pjs IH]; intros pre post.
    - simpl. now rewrite !List.app_nil_r.
    - cbn [fold_left List.filter].
      assert (Hstep : step (pre, post) pj
                      = (pre ++ (if reconciled config pj
                                    && negb (String.eqb (jobType pj) PostsubmitJob)
                                 then [pj] else []),
                         post ++ (if reconciled config pj
                                     && String.eqb (jobType pj) PostsubmitJob
                                  then [pj] else []))).
      { unfold step, reconciled.
        destruct (ShouldReport pj (GitHubReporter.JobTypesToReport config) && Complete pj),
          (String.eqb (jobType pj) PostsubmitJob), (commentsOnPostsubmits pj);
          cbn; now rewrite ?List.app_nil_r. }
      rewrite Hstep, IH.
      destruct (reconciled config pj && negb (String.eqb (jobType pj) PostsubmitJob)),
        (reconciled config pj && String.eqb (jobType pj) PostsubmitJob);
        now rewrite <- ?List.app_assoc, ?List.app_nil_r. }
  exact (H [] []).
Qed.

(** C10. [ReportComment] reconciles only the jobs that are to be reported
    and complete, a post-merge job only when its reporter configuration
    enables comments on postsubmits; the other jobs of the batch have no
    effect at all, and a batch without reconciled job makes no call. *)
Theorem only_reconciled_jobs_count (config : GitHubReporter.t) (pjs : list ProwJob.t) :
  (* the two batches that are synchronized *)
  splitJobs config pjs
  = (List.filter
       (fun pj => ShouldReport pj (GitHubReporter.JobTypesToReport config) && Complete pj
                  && negb (String.eqb (jobType pj) PostsubmitJob)) pjs,
     List.filter
       (fun pj => ShouldReport pj (GitHubReporter.JobTypesToReport config) && Complete pj
                  && String.eqb (jobType pj) PostsubmitJob && commentsOnPostsubmits pj) pjs)
  (* an incomplete job, or a post-merge job without the setting, is in neither *)
  /\ (forall pj,
        In pj (fst (splitJobs config pjs) ++ snd (splitJobs config pjs)) ->
        In pj pjs /\ Complete pj = true
        /\ (jobType pj = PostsubmitJob -> commentsOnPostsubmits pj = true))
  (* and changes nothing *)
  /\ (forall G (ghc : option (GitHubClient G)) reportTemplate mustCreate,
        ReportComment ghc reportTemplate pjs config mustCreate
        = ReportComment ghc reportTemplate (List.filter (reconciled config) pjs) config mustCreate)
  (* a batch whose jobs are all left out makes no call *)
  /\ (forall G (ghc : GitHubClient G) reportTemplate mustCreate (s : G * list Call),
        (forall pj, In pj pjs ->
           Complete pj = false
           \/ ShouldReport pj (GitHubReporter.JobTypesToReport config) = false
           \/ (jobType pj = PostsubmitJob /\ commentsOnPostsubmits pj = false)) ->
        ReportComment (Some ghc) reportTemplate pjs config mustCreate s = (Ok tt, s)).
Proof.
  split; [| split; [| split]].
  - rewrite splitJobs_eq. f_equal; apply filter_ext; intros pj; unfold reconciled;
      destruct (ShouldReport pj _), (Complete pj), (String.eqb (jobType pj) PostsubmitJob),
        (commentsOnPostsubmits pj); reflexivity.
  - intros pj. rewrite splitJobs_eq. cbn [fst snd]. rewrite in_app_iff, !filter_In.
    unfold reconciled. intros [[Hin H]|[Hin H]]; (split; [exact Hin |]);
      destruct (ShouldReport pj _), (Complete pj), (String.eqb_spec (jobType pj) PostsubmitJob),
        (commentsOnPostsubmits pj); try discriminate H; split; congruence.
  - intros G ghc reportTemplate mustCreate. unfold ReportComment.
    rewrite !splitJobs_eq, !filter_filter_and. reflexivity.
  - intros G ghc reportTemplate mustCreate s Hout. unfold ReportComment.
    rewrite splitJobs_eq.
    assert (Hnone : forall f, List.filter (fun pj => reconciled config pj && f pj) pjs = []).
    { intros f. induction pjs as [|pj pjs IH]; [reflexivity |]. simpl.
      rewrite IH by (intros pj' Hin; apply Hout; now right).
      assert (E : reconciled config pj = false).
      { unfold reconciled. destruct (Hout pj (or_introl eq_refl)) as [->|[->|[Ht ->]]].
        - now rewrite andb_false_r.
        - reflexivity.
        - rewrite Ht, String.eqb_refl. cbn. apply andb_false_r. }
      now rewrite E. }
    rewrite !Hnone. reflexivity.
Qed.

(** A postsubmit job without the setting: no call. *)
Lemma only_reconciled_jobs_count_witness :
  Complete (postsubmitJob FailureState None) = true
  /\ commentsOnPostsubmits (postsubmitJob FailureState None) = false
  /\ ReportComment (Some fakeGhClient) None [postsubmitJob FailureState None]
       postsubmitsOnly false (emptyFake, [])
     = (Ok tt, (emptyFake, [])).
Proof.
  split; [reflexivity | split; [reflexivity |]].
  apply (proj2 (proj2 (proj2 (only_reconciled_jobs_count postsubmitsOnly
                                [postsubmitJob FailureState None])))).
  intros pj [<-|[]]. right. right. split; reflexivity.
Defined.

(** ** The one-time note *)

Lemma Contains_prefix (s1 s2 : string) : Contains (s1 +:+ s2) s1 = true.
Proof.
  assert (H : forall s sub, Contains s sub = HasPrefix s sub || Contains s sub)
    by (intros s sub; destruct s; cbn [Contains]; now destruct (HasPrefix _ sub)).
  rewrite H, HasPrefix_append. reflexivity.
Qed.

Section OneTimeNote.

Context {G : Type} (ghc : GitHubClient G).
Variables (pj0 : ProwJob.t) (rest : list ProwJob.t) (refs : Refs.t) (pull : Pull.t).

(** A batch of postsubmit jobs with an associated pull. *)
Hypothesis batch_refs : jobRefs pj0 = Some refs.
Hypothesis batch_pull : head (Refs.Pulls refs) = Some pull.

(** The run of the note poster, call by call. *)
Lemma dropNote_run (g : G) (log : list Call) :
  dropNote ghc (pj0 :: rest) (g, log)
  = let '(g1, checker) := BotUserCheckerWithContext ghc g in
    match checker with
    | Error err => (Failed err, (g1, log ++ [BotUserChecker]))
    | Value isBot =>
        let '(g2, listed) :=
          ListIssueCommentsWithContext ghc (Refs.Org refs) (Refs.Repo refs) (Pull.Number pull) g1 in
        let log2 := (log ++ [BotUserChecker])
                    ++ [ListIssueComments (Refs.Org refs) (Refs.Repo refs) (Pull.Number pull)] in
        match listed with
        | Error err => (Failed ("error listing comments: " +:+ err), (g2, log2))
        | Value comments =>
            if noteShown isBot comments then (Ok tt, (g2, log2))
            else
              let body := prCommitNote +:+ " " +:+ Refs.BaseSHA refs +:+ LF in
              let '(g3, created) :=
                CreateCommentWithContext ghc (Refs.Org refs) (Refs.Repo refs)
                  (Pull.Number pull) body g2 in
              (match created with
               | Value _ => Ok tt
               | Error err => Failed ("error creating comment: " +:+ err)
               end,
               (g3, log2 ++ [CreateComment (Refs.Org refs) (Refs.Repo refs)
                                (Pull.Number pull) body]))
        end
    end.
Proof.
  unfold dropNote, issueHasComment, mbind, M_bind, remote, orFail, lift, mret, M_ret, fail.
  rewrite batch_refs. cbn [orPanic fst snd]. cbv beta iota.
  destruct (Refs.Pulls refs) as [|pull' pulls] eqn:E; [discriminate batch_pull |].
  injection batch_pull as ->. cbn [fst snd]. cbv beta iota.
  destruct (BotUserCheckerWithContext ghc g) as [g1 [isBot|err]]; cbn [fst snd]; cbv beta iota;
    [| reflexivity].
  destruct (ListIssueCommentsWithContext ghc _ _ _ g1) as [g2 [comments|err]]; cbn [fst snd];
    cbv beta iota; [| reflexivity].
  fold (noteShown isBot comments).
  destruct (noteShown isBot comments); [reflexivity |].
  cbn [fst snd].
  destruct (CreateCommentWithContext ghc _ _ _ _ g2) as [g3 [[]|err]]; reflexivity.
Qed.

(** What the remote side owes: a predicate [noted] on its states such that
    a note that was created is noted, a note that a listing shows is noted,
    a noted note is shown by the listings, and reading changes nothing to
    it. *)
Variable noted : G -> Prop.

Hypothesis created_is_noted : forall g g' body,
  CreateCommentWithContext ghc (Refs.Org refs) (Refs.Repo refs) (Pull.Number pull) body g
  = (g', Value tt) ->
  Contains body prCommitNote = true ->
  noted g'.

Hypothesis shown_is_noted : forall g g1 g2 isBot comments,
  BotUserCheckerWithContext ghc g = (g1, Value isBot) ->
  ListIssueCommentsWithContext ghc (Refs.Org refs) (Refs.Repo refs) (Pull.Number pull) g1
  = (g2, Value comments) ->
  noteShown isBot comments = true ->
  noted g2.

Hypothesis noted_is_shown : forall g g1 g2 isBot comments,
  noted g ->
  BotUserCheckerWithContext ghc g = (g1, Value isBot) ->
  ListIssueCommentsWithContext ghc (Refs.Org refs) (Refs.Repo refs) (Pull.Number pull) g1
  = (g2, Value comments) ->
  noteShown isBot comments = true.

Hypothesis checker_keeps : forall g,
  noted g -> noted (fst (BotUserCheckerWithContext ghc g)).

Hypothesis listing_keeps : forall g,
  noted g ->
  noted (fst (ListIssueCommentsWithContext ghc (Refs.Org refs) (Refs.Repo refs)
                (Pull.Number pull) g)).

(** C9. For a batch of postsubmit jobs with a pull: the note poster asks
    for the bot checker and lists the comments of the pull; when a comment
    of the bot contains the text of the note it makes no further call, and
    otherwise exactly one, the creation of the note naming the base commit.
    On a remote side that keeps its comments, a run that ends well leaves
    the note in place, and from then on no run creates a comment: repeated
    invocations never produce a second note. *)
Theorem note_posted_once :
  let run := dropNote ghc (pj0 :: rest) in
  let listCall := ListIssueComments (Refs.Org refs) (Refs.Repo refs) (Pull.Number pull) in
  let note := CreateComment (Refs.Org refs) (Refs.Repo refs) (Pull.Number pull)
                (prCommitNote +:+ " " +:+ Refs.BaseSHA refs +:+ LF) in
  (* one run *)
  (forall g g1 g2 isBot comments,
      BotUserCheckerWithContext ghc g = (g1, Value isBot) ->
      ListIssueCommentsWithContext ghc (Refs.Org refs) (Refs.Repo refs) (Pull.Number pull) g1
      = (g2, Value comments) ->
      callsOf run g
      = [BotUserChecker; listCall] ++ (if noteShown isBot comments then [] else [note]))
  (* after a run that ended well the note is there *)
  /\ (forall g, outcomeOf run g = Ok tt -> noted (stateOf run g))
  (* with the note there, a run only reads, and the note stays *)
  /\ (forall g, noted g ->
        noted (stateOf run g)
        /\ forall c, In c (callsOf run g) -> c = BotUserChecker \/ c = listCall)
  (* so a second run creates nothing *)
  /\ (forall g, outcomeOf run g = Ok tt ->
        forall c, In c (callsOf run (stateOf run g)) -> c = BotUserChecker \/ c = listCall).
Proof.
  cbv zeta.
  assert (Hafter : forall g, outcomeOf (dropNote ghc (pj0 :: rest)) g = Ok tt ->
                     noted (stateOf (dropNote ghc (pj0 :: rest)) g)).
  { intros g. unfold outcomeOf, stateOf. rewrite dropNote_run.
    destruct (BotUserCheckerWithContext ghc g) as [g1 [isBot|err]] eqn:E1; [| discriminate].
    destruct (ListIssueCommentsWithContext ghc _ _ _ g1) as [g2 [comments|err]] eqn:E2;
      [| discriminate].
    cbv zeta. destruct (noteShown isBot comments) eqn:E3.
    - intros _. exact (shown_is_noted g g1 g2 isBot comments E1 E2 E3).
    - destruct (CreateCommentWithContext ghc _ _ _ _ g2) as [g3 [[]|err]] eqn:E4; [| discriminate].
      intros _. cbn [fst snd]. apply (created_is_noted g2 g3 _ E4).
      apply Contains_prefix. }
  assert (Hnoted : forall g, noted g ->
             noted (stateOf (dropNote ghc (pj0 :: rest)) g)
             /\ forall c, In c (callsOf (dropNote ghc (pj0 :: rest)) g) ->
                  c = BotUserChecker
                  \/ c = ListIssueComments (Refs.Org refs) (Refs.Repo refs) (Pull.Number pull)).
  { intros g Hg. unfold stateOf, callsOf. rewrite dropNote_run.
    pose proof (checker_keeps g Hg) as H1.
    destruct (BotUserCheckerWithContext ghc g) as [g1 [isBot|err]] eqn:E1; cbn [fst] in H1.
    - pose proof (listing_keeps g1 H1) as H2.
      destruct (ListIssueCommentsWithContext ghc _ _ _ g1) as [g2 [comments|err]] eqn:E2;
        cbn [fst] in H2; cbv zeta.
      + rewrite (noted_is_shown g g1 g2 isBot comments Hg E1 E2). cbn [fst snd app].
        split; [exact H2 |]. intros c [<-|[<-|[]]]; auto.
      + cbn [fst snd app]. split; [exact H2 |]. intros c [<-|[<-|[]]]; auto.
    - cbn [fst snd app]. split; [exact H1 |]. intros c [<-|[]]; auto. }
  split; [| split; [exact Hafter | split; [exact Hnoted |]]].
  - intros g g1 g2 isBot comments E1 E2. unfold callsOf. rewrite dropNote_run, E1, E2.
    cbv zeta. destruct (noteShown isBot comments); [reflexivity |].
    now destruct (CreateCommentWithContext ghc _ _ _ _ g2) as [g3 [[]|err]].
  - intros g Hok. exact (proj2 (Hnoted _ (Hafter g Hok))).
Qed.

End OneTimeNote.

(** The store of the tests, with created comments attributed to the bot,
    is such a remote side. *)
Lemma fake_created_is_noted (org repo : string) (number : Z) (g g' : fakeGh) (body : string) :
  CreateCommentWithContext (fakeGhClientAs fakeBotName) org repo number body g = (g', Value tt) ->
  Contains body prCommitNote = true ->
  fakeNoted org repo number g'.
Proof.
  intros [= <-] Hbody. unfold fakeNoted. cbn [issueComments].
  rewrite lookup_insert_eq. cbn [default]. unfold noteShown, id.
  rewrite existsb_app. cbn [existsb IssueComment.User User.Login IssueComment.Body].
  rewrite Hbody, String.eqb_refl. cbn. now rewrite orb_true_r.
Qed.

Lemma fake_shown_is_noted (author org repo : string) (number : Z) (g g1 g2 : fakeGh)
    (isBot : string -> bool) (comments : list IssueComment.t) :
  BotUserCheckerWithContext (fakeGhClientAs author) g = (g1, Value isBot) ->
  ListIssueCommentsWithContext (fakeGhClientAs author) org repo number g1 = (g2, Value comments) ->
  (noteShown isBot comments = true <-> fakeNoted org repo number g) /\ g2 = g.
Proof. intros [= <- <-] [= <- <-]. split; reflexivity. Qed.

(** The first run on a pull without comment posts the note, the second run
    only reads. *)
Lemma note_posted_once_witness :
  let run := dropNote (fakeGhClientAs fakeBotName) [postsubmitJob SuccessState ghCommenter] in
  callsOf run emptyFake
  = [BotUserChecker; ListIssueComments "k8s" "test-infra" 1;
     CreateComment "k8s" "test-infra" 1 testNote]
  /\ forall c, In c (callsOf run (stateOf run emptyFake)) ->
       c = BotUserChecker \/ c = ListIssueComments "k8s" "test-infra" 1.
Proof.
  destruct (note_posted_once (fakeGhClientAs fakeBotName)
              (postsubmitJob SuccessState ghCommenter) [] testRefs (Pull.mk 1 "me" "abcdef")
              eq_refl eq_refl (fakeNoted "k8s" "test-infra" 1))
    as (Hrun & _ & _ & Hagain).
  - apply fake_created_is_noted.
  - intros g g1 g2 isBot comments E1 E2 Hshown.
    destruct (fake_shown_is_noted fakeBotName "k8s" "test-infra" 1 g g1 g2 isBot comments E1 E2)
      as [Hiff ->].
    now apply Hiff.
  - intros g g1 g2 isBot comments Hnoted E1 E2.
    now apply (fake_shown_is_noted fakeBotName "k8s" "test-infra" 1 g g1 g2 isBot comments).
  - intros g Hnoted. exact Hnoted.
  - intros g Hnoted. exact Hnoted.
  - split.
    + exact (Hrun emptyFake emptyFake emptyFake _ [] eq_refl eq_refl).
    + apply Hagain. vm_compute. reflexivity.
Defined.

(** ** The entry points and their preconditions *)

(** A nil client is refused by both entry points before any call. *)
Lemma nil_client_rejected {G} (ContextDescriptionWithBaseSha : string -> string -> string)
    (reportTemplate : option Template) (pjs : list ProwJob.t) (pj : ProwJob.t)
    (config : GitHubReporter.t) (mustCreate : bool) (s : G * list Call) :
  ReportComment None reportTemplate pjs config mustCreate s
  = (Failed "trying to report pj, but found empty github client", s)
  /\ ReportStatusContext ContextDescriptionWithBaseSha None pj config s
     = (Failed ("trying to report pj " +:+ ObjectMeta.Name (ProwJob.ObjectMeta pj)
                +:+ ", but found empty github client"), s).
Proof. split; reflexivity. Qed.

(** An empty batch makes no call. *)
Lemma empty_batch_no_call {G} (ghc : GitHubClient G) (reportTemplate : option Template)
    (config : GitHubReporter.t) (mustCreate : bool) (s : G * list Call) :
  ReportComment (Some ghc) reportTemplate [] config mustCreate s = (Ok tt, s).
Proof. reflexivity. Qed.

(** [ReportStatusContext] skips a job on more than one pull without any
    call. *)
Lemma multi_pull_status_skipped {G} (ContextDescriptionWithBaseSha : string -> string -> string)
    (ghc : GitHubClient G) (pj : ProwJob.t) (refs : Refs.t) (config : GitHubReporter.t)
    (s : G * list Call) :
  jobRefs pj = Some refs ->
  (1 < length (Refs.Pulls refs))%nat ->
  ReportStatusContext ContextDescriptionWithBaseSha (Some ghc) pj config s = (Ok tt, s).
Proof.
  intros Hrefs Hpulls. unfold ReportStatusContext.
  destruct (negb (ShouldReport pj (GitHubReporter.JobTypesToReport config))); [reflexivity |].
  run_step. rewrite Hrefs. cbn [orPanic]. cbv beta iota.
  apply Nat.ltb_lt in Hpulls. now rewrite Hpulls.
Qed.

(** [ReportComment] on a batch of reconciled jobs that are not post-merge is
    [createOrUpdateComments] on that batch, however many pulls its first job
    carries. *)
Lemma ReportComment_presubmit_batch {G} (ghc : GitHubClient G) (reportTemplate : option Template)
    (pj : ProwJob.t) (pjs : list ProwJob.t) (config : GitHubReporter.t) (mustCreate : bool)
    (s : G * list Call) :
  (forall job, In job (pj :: pjs) ->
     reconciled config job = true /\ String.eqb (jobType job) PostsubmitJob = false) ->
  ReportComment (Some ghc) reportTemplate (pj :: pjs) config mustCreate s
  = createOrUpdateComments ghc reportTemplate (pj :: pjs) mustCreate s.
Proof.
  intros Hall. unfold ReportComment. rewrite splitJobs_eq.
  assert (Hpre : List.filter (fun job => reconciled config job
                                         && negb (String.eqb (jobType job) PostsubmitJob))
                   (pj :: pjs) = pj :: pjs).
  { revert Hall. generalize (pj :: pjs). intros l Hall.
    induction l as [|job l IH]; [reflexivity |]. simpl.
    destruct (Hall job (or_introl eq_refl)) as [-> ->]. simpl. f_equal.
    apply IH. intros job' Hin. apply Hall. now right. }
  assert (Hpost : List.filter (fun job => reconciled config job
                                          && String.eqb (jobType job) PostsubmitJob)
                    (pj :: pjs) = []).
  { revert Hall. generalize (pj :: pjs). intros l Hall.
    induction l as [|job l IH]; [reflexivity |]. simpl.
    destruct (Hall job (or_introl eq_refl)) as [-> ->]. simpl.
    apply IH. intros job' Hin. apply Hall. now right. }
  rewrite Hpre, Hpost. cbn [forEach length Nat.eqb dropNote].
  rewrite !run_bind.
  destruct (createOrUpdateComments ghc reportTemplate (pj :: pjs) mustCreate s)
    as [[[]| |] s']; reflexivity.
Qed.

(** C7 fails for [ReportComment] on a batch whose first job carries two
    pulls: the batch is not refused, the comments of the first pull are
    listed and a comment is created there. [ReportStatusContext] makes no
    call on the same job. *)
Theorem multi_pull_batch_is_commented :
  jobRefs twoPullsJob = Some twoPullsRefs
  /\ length (Refs.Pulls twoPullsRefs) = 2%nat
  /\ outcomeOf (ReportComment (Some fakeGhClient) None [twoPullsJob] presubmitsOnly false)
       emptyFake = Ok tt
  /\ (exists comment,
        callsOf (ReportComment (Some fakeGhClient) None [twoPullsJob] presubmitsOnly false)
          emptyFake
        = [ListIssueComments "k8s" "test-infra" 1; BotUserChecker;
           CreateComment "k8s" "test-infra" 1 comment])
  /\ callsOf (ReportStatusContext noDescription (Some fakeGhClient) twoPullsJob presubmitsOnly)
       emptyFake = [].
Proof.
  split; [reflexivity |]. split; [reflexivity |]. split; [vm_compute; reflexivity |].
  split; [eexists; vm_compute; reflexivity | vm_compute; reflexivity].
Qed.

(* ================================================================== *)
(** * Further properties of the code *)
(* ================================================================== *)

(** ** The reconciler *)

Lemma In_removelast {A} (l : list A) (x : A) : In x (removelast l) -> In x l.
Proof.
  induction l as [|a [|b l] IH]; [intros [] | intros [] |].
  change (removelast (a :: b :: l)) with (a :: removelast (b :: l)).
  intros [<-|H]; [now left | right; now apply IH].
Qed.

Lemma In_last {A} (l : list A) (d : A) : l <> [] -> In (List.last l d) l.
Proof.
  induction l as [|a [|b l] IH]; [congruence | now left |].
  intros _. right. apply IH. discriminate.
Qed.

Lemma removelast_last {A} (l : list A) (d : A) :
  l <> [] -> l = removelast l ++ [List.last l d].
Proof. intros H. now apply app_removelast_last. Qed.

(** The comments named by the scan are own and marked comments. *)
Lemma scanned_ids_are_own (isBot : string -> bool) (ics : list IssueComment.t) (id : Z) :
  In id (map IssueComment.ID (List.filter (ownMarked isBot) ics)) ->
  exists ic, In ic ics /\ ownMarked isBot ic = true /\ IssueComment.ID ic = id.
Proof.
  intros H. apply in_map_iff in H as (ic & Hid & Hin).
  apply filter_In in Hin as [Hin Hown]. now exists ic.
Qed.

(** What the reconciler deletes and updates, by the identifiers of the own
    and marked comments. *)
Lemma reconciler_targets (pjs : list ProwJob.t) (isBot : string -> bool)
    (ics : list IssueComment.t) (deletes : list Z) (newEntries : list string) (updateID : Z) :
  parseIssueComments pjs isBot ics = Some (deletes, newEntries, updateID) ->
  let ids := map IssueComment.ID (List.filter (ownMarked isBot) ics) in
  deletes
  = List.filter (fun id => negb (id =? 0)%Z)
      (if latestSuperseded pjs newEntries then ids else removelast ids)
  /\ updateID = (if latestSuperseded pjs newEntries then 0%Z else List.last ids 0%Z).
Proof.
  intros H. destruct (reconciler_result _ _ _ _ _ _ H) as (fresh & _ & _ & Hdeletes & Hupdate).
  rewrite (scanComments_eq isBot ics) in Hdeletes, Hupdate.
  cbn [previousComments latestComment] in Hdeletes, Hupdate. cbv zeta. split; [| exact Hupdate].
  rewrite Hdeletes. destruct (latestSuperseded pjs newEntries); cbn [andb].
  - symmetry. apply nonzero_with_last.
  - now rewrite List.app_nil_r.
Qed.

(** Every comment the reconciler deletes or updates is an own and marked
    comment of the history. *)
Lemma reconciler_targets_own (pjs : list ProwJob.t) (isBot : string -> bool)
    (ics : list IssueComment.t) (deletes : list Z) (newEntries : list string) (updateID : Z) :
  parseIssueComments pjs isBot ics = Some (deletes, newEntries, updateID) ->
  (forall id, In id deletes ->
     exists ic, In ic ics /\ ownMarked isBot ic = true /\ IssueComment.ID ic = id)
  /\ (updateID <> 0%Z ->
      exists ic, In ic ics /\ ownMarked isBot ic = true /\ IssueComment.ID ic = updateID).
Proof.
  intros H.
  destruct (reconciler_targets _ _ _ _ _ _ H) as [Hdeletes Hupdate]. cbv zeta in *.
  set (ids := map IssueComment.ID (List.filter (ownMarked isBot) ics)) in *.
  split.
  - intros id Hin. apply scanned_ids_are_own. fold ids.
    rewrite Hdeletes in Hin. apply filter_In in Hin as [Hin _].
    destruct (latestSuperseded pjs newEntries); [exact Hin | now apply In_removelast].
  - intros Hne. apply scanned_ids_are_own. fold ids.
    destruct (latestSuperseded pjs newEntries); [contradiction |].
    rewrite Hupdate. apply In_last. intros E. rewrite E in Hupdate. contradiction.
Qed.

(** X1. The comments of others have no part in the reconciliation: the
    result is that on the own and marked comments alone, and every comment
    the reconciler deletes or updates is an own and marked comment of the
    history. *)
Theorem foreign_comments_are_ignored (pjs : list ProwJob.t) (isBot : string -> bool)
    (ics : list IssueComment.t) :
  parseIssueComments pjs isBot ics
  = parseIssueComments pjs isBot (List.filter (ownMarked isBot) ics)
  /\ forall deletes newEntries updateID,
       parseIssueComments pjs isBot ics = Some (deletes, newEntries, updateID) ->
       (forall id, In id deletes ->
          exists ic, In ic ics /\ ownMarked isBot ic = true /\ IssueComment.ID ic = id)
       /\ (updateID <> 0%Z ->
           exists ic, In ic ics /\ ownMarked isBot ic = true /\ IssueComment.ID ic = updateID).
Proof.
  split.
  - rewrite !parseIssueComments_eq, !scanComments_eq, filter_idempotent. reflexivity.
  - intros deletes newEntries updateID. apply reconciler_targets_own.
Qed.

(** The comment of somebody else of the fixtures is neither deleted nor
    updated: the deleted comment is the one of the reporter. *)
Lemma foreign_comments_are_ignored_witness :
  exists ic,
    In ic [humanComment;
           testComment 123 ("--- | --- | ---" +:+ LF +:+ "bla test | something | or other"
                            +:+ LF +:+ LF +:+ commentTag)]
    /\ ownMarked testIsBot ic = true /\ IssueComment.ID ic = 123%Z.
Proof.
  apply (proj1 (proj2 (foreign_comments_are_ignored
                         [testJob "bla test" StatusSuccess false] testIsBot
                         [humanComment;
                          testComment 123 ("--- | --- | ---" +:+ LF
                                           +:+ "bla test | something | or other"
                                           +:+ LF +:+ LF +:+ commentTag)])
                  [123%Z] [] 0%Z ltac:(vm_compute; reflexivity)) 123%Z).
  now left.
Defined.

Lemma NoDup_removelast {A} (l : list A) : List.NoDup l -> List.NoDup (removelast l).
Proof.
  intros H. destruct l as [|a l]; [exact H |].
  rewrite (removelast_last (a :: l) a) in H by discriminate.
  now apply List.NoDup_remove_1 in H; rewrite List.app_nil_r in H.
Qed.

Lemma NoDup_filter_list {A} (f : A -> bool) (l : list A) :
  List.NoDup l -> List.NoDup (List.filter f l).
Proof.
  induction 1 as [|x l Hx _ IH]; [constructor |]. simpl. destruct (f x); [| exact IH].
  constructor; [| exact IH]. intros Hin. apply filter_In in Hin as [Hin _]. contradiction.
Qed.

(** X2. With pairwise distinct identifiers of the own comments, no comment is
    deleted twice, and the comment that is to be updated is not among the
    deleted ones. *)
Theorem update_target_is_not_deleted (pjs : list ProwJob.t) (isBot : string -> bool)
    (ics : list IssueComment.t) (deletes : list Z) (newEntries : list string) (updateID : Z) :
  List.NoDup (map IssueComment.ID (List.filter (ownMarked isBot) ics)) ->
  parseIssueComments pjs isBot ics = Some (deletes, newEntries, updateID) ->
  List.NoDup deletes /\ (updateID <> 0%Z -> ~ In updateID deletes).
Proof.
  intros Hids H. destruct (reconciler_targets _ _ _ _ _ _ H) as [Hdeletes Hupdate].
  cbv zeta in *. set (ids := map IssueComment.ID (List.filter (ownMarked isBot) ics)) in *.
  split.
  - rewrite Hdeletes. apply NoDup_filter_list.
    destruct (latestSuperseded pjs newEntries); [exact Hids | now apply NoDup_removelast].
  - intros Hne Hin. destruct (latestSuperseded pjs newEntries); [contradiction |].
    rewrite Hdeletes in Hin. apply filter_In in Hin as [Hin _].
    assert (Hnil : ids <> []) by (intros E; rewrite E in Hupdate; contradiction).
    rewrite (removelast_last ids 0%Z Hnil) in Hids.
    apply List.NoDup_remove_2 in Hids. rewrite List.app_nil_r in Hids.
    apply Hids. now rewrite <- Hupdate.
Qed.

(** Of two reports of the history the older one is deleted and the newer
    one is kept for the update. *)
Lemma update_target_is_not_deleted_witness :
  List.NoDup [123%Z] /\ (124%Z <> 0%Z -> ~ In 124%Z [123%Z]).
Proof.
  apply (update_target_is_not_deleted
           [testJob "bla test" StatusSuccess false] testIsBot
           [testComment 123 ("--- | --- | ---" +:+ LF +:+ "bla test | something | or other"
                             +:+ LF +:+ LF +:+ commentTag);
            testComment 124 ("--- | --- | ---" +:+ LF +:+ "foo test | beep | boop"
                             +:+ LF +:+ LF +:+ commentTag)]
           [123%Z] ["foo test | beep | boop"] 124%Z).
  - vm_compute. repeat constructor; simpl; intuition discriminate.
  - vm_compute. reflexivity.
Defined.

(** *** The entries carried over *)

Lemma lastOfEachKey_sub (entries : list string) (entry : string) :
  In entry (lastOfEachKey entries) -> In entry entries.
Proof.
  induction entries as [|e later IH]; [intros [] |]. cbn [lastOfEachKey].
  destruct (existsb _ later).
  - intros H. right. now apply IH.
  - intros [<-|H]; [now left | right; now apply IH].
Qed.

Lemma lastOfEachKey_keys (entries : list string) :
  List.NoDup (map contextKey (lastOfEachKey entries)).
Proof.
  induction entries as [|e later IH]; [constructor |]. cbn [lastOfEachKey].
  destruct (existsb _ later) eqn:E; [exact IH |].
  cbn [map]. constructor; [| exact IH].
  intros Hin. apply in_map_iff in Hin as (e' & Hkey & Hin').
  apply lastOfEachKey_sub in Hin'.
  assert (Ht : existsb (fun x => String.eqb (contextKey x) (contextKey e)) later = true).
  { apply existsb_exists. exists e'. split; [exact Hin' | now apply String.eqb_eq]. }
  congruence.
Qed.

Lemma NoDup_map_filter {A B} (f : A -> B) (p : A -> bool) (l : list A) :
  List.NoDup (map f l) -> List.NoDup (map f (List.filter p l)).
Proof.
  induction l as [|x l IH]; [intros; constructor |]. cbn [map List.filter]. intros H.
  apply List.NoDup_cons_iff in H as [Hx Hl]. destruct (p x); [| now apply IH].
  cbn [map]. constructor; [| now apply IH].
  intros Hin. apply Hx. apply in_map_iff in Hin as (y & Hy & Hin).
  apply filter_In in Hin as [Hin _]. apply in_map_iff. now exists y.
Qed.

Lemma lastOfEachKey_distinct (entries : list string) :
  List.NoDup (map contextKey entries) -> lastOfEachKey entries = entries.
Proof.
  induction entries as [|e later IH]; [reflexivity |]. cbn [map lastOfEachKey]. intros H.
  apply List.NoDup_cons_iff in H as [He Hlater].
  destruct (existsb _ later) eqn:E.
  - exfalso. apply He. apply existsb_exists in E as (e' & Hin & Hkey).
    apply String.eqb_eq in Hkey. apply in_map_iff. now exists e'.
  - now rewrite IH.
Qed.

Lemma filter_all {A} (p : A -> bool) (l : list A) :
  (forall x, In x l -> p x = true) -> List.filter p l = l.
Proof.
  induction l as [|x l IH]; [reflexivity |]. intros H. cbn [List.filter].
  rewrite (H x) by now left. f_equal. apply IH. intros y Hy. apply H. now right.
Qed.

(** Entries with pairwise distinct keys that no job of the batch has are
    all carried over. *)
Lemma survivors_settled (pjs : list ProwJob.t) (entries : list string) :
  List.NoDup (map contextKey entries) ->
  (forall e, In e entries -> inBatch pjs e = false) ->
  survivors pjs entries = entries.
Proof.
  intros Hkeys Hbatch. unfold survivors. rewrite lastOfEachKey_distinct by exact Hkeys.
  apply filter_all. intros e He. now rewrite Hbatch.
Qed.

Lemma survivors_keys (pjs : list ProwJob.t) (entries : list string) :
  List.NoDup (map contextKey (survivors pjs entries)).
Proof. apply NoDup_map_filter, lastOfEachKey_keys. Qed.

Lemma survivors_not_inBatch (pjs : list ProwJob.t) (entries : list string) (e : string) :
  In e (survivors pjs entries) -> inBatch pjs e = false.
Proof.
  intros H. apply filter_In in H as [_ H]. now apply negb_true_iff in H.
Qed.

Lemma lastOfEachKey_sublist (entries : list string) : sublist (lastOfEachKey entries) entries.
Proof.
  induction entries as [|e later IH]; [constructor |]. cbn [lastOfEachKey].
  destruct (existsb _ later); now constructor.
Qed.

Lemma filter_sublist {A} (p : A -> bool) (l : list A) : sublist (List.filter p l) l.
Proof.
  induction l as [|x l IH]; [constructor |]. cbn [List.filter].
  destruct (p x); now constructor.
Qed.

(** X3. The entries the reconciler carries over from the history are entries of
    the history in their order, with pairwise distinct keys, none of them
    the context of a job of the batch; carrying over once more changes
    nothing. *)
Theorem kept_entries_are_settled (pjs : list ProwJob.t) (history : list string) :
  sublist (keptEntries pjs history) history
  /\ List.NoDup (map firstField (keptEntries pjs history))
  /\ (forall entry pj,
        In entry (keptEntries pjs history) -> In pj pjs ->
        jobContext pj <> firstField entry)
  /\ keptEntries pjs (keptEntries pjs history) = keptEntries pjs history.
Proof.
  rewrite !keptEntries_survivors.
  assert (Hmap : forall l, map firstField l = map contextKey l)
    by (intros l; apply map_ext; intros e; apply firstField_contextKey).
  split; [| split; [| split]].
  - unfold survivors. etrans; [apply filter_sublist | apply lastOfEachKey_sublist].
  - rewrite Hmap. apply survivors_keys.
  - intros entry pj Hentry Hpj Hctx. apply survivors_not_inBatch in Hentry.
    rewrite firstField_contextKey in Hctx.
    assert (Ht : inBatch pjs entry = true).
    { apply existsb_exists. exists pj. split; [exact Hpj | now apply String.eqb_eq]. }
    congruence.
  - apply survivors_settled.
    + apply survivors_keys.
    + intros e. apply survivors_not_inBatch.
Qed.

(** ** Lines of a body *)

Lemma HasPrefix_LF (c : ascii) (s t : string) :
  HasPrefix (String c s) LF = HasPrefix (String c t) LF.
Proof. unfold HasPrefix, LF. cbn. destruct (ascii_dec _ c); [now destruct s, t | reflexivity]. Qed.

Lemma Contains_LF_cons (c : ascii) (s : string) :
  Contains (String c s) LF = HasPrefix (String c EmptyString) LF || Contains s LF.
Proof. cbn [Contains]. now rewrite (HasPrefix_LF c s EmptyString). Qed.

Lemma Contains_LF_app (a b : string) :
  Contains (a +:+ b) LF = Contains a LF || Contains b LF.
Proof.
  induction a as [|c a IH]; [now rewrite append_nil |].
  rewrite append_cons, !Contains_LF_cons, IH. now rewrite orb_assoc.
Qed.

Lemma splitFrom_not_nil (sep : string) (skip : nat) (cur s : string) :
  splitFrom sep skip cur s <> [].
Proof.
  revert skip cur. induction s as [|c s IH]; intros skip cur; cbn [splitFrom]; [discriminate |].
  destruct skip; [destruct (HasPrefix (String c s) sep) |]; try discriminate; apply IH.
Qed.

(** Splitting at line feeds goes through an append: the piece open at the
    end of the first part is continued in the second. *)
Lemma splitFrom_LF_append (a s cur : string) :
  splitFrom LF 0 cur (a +:+ s)
  = removelast (splitFrom LF 0 cur a)
    ++ splitFrom LF 0 (List.last (splitFrom LF 0 cur a) EmptyString) s.
Proof.
  revert cur. induction a as [|c a IH]; intros cur; [now rewrite append_nil |].
  rewrite append_cons. cbn [splitFrom]. rewrite (HasPrefix_LF c (a +:+ s) a).
  destruct (HasPrefix (String c a) LF); [| apply IH].
  change (String.length LF - 1)%nat with 0%nat. rewrite IH.
  pose proof (splitFrom_not_nil LF 0 EmptyString a) as Hne.
  destruct (splitFrom LF 0 EmptyString a) as [|x l]; [contradiction | reflexivity].
Qed.

Lemma splitFrom_LF_line (x rest cur : string) :
  splitFrom LF 0 cur (x +:+ LF +:+ rest)
  = splitFrom LF 0 cur x ++ splitFrom LF 0 EmptyString rest.
Proof.
  rewrite splitFrom_LF_append.
  pose proof (HasPrefix_append LF rest) as Hsep.
  change (LF +:+ rest) with (String (ascii_of_nat 10) rest) in *.
  cbn [splitFrom]. rewrite Hsep.
  change (String.length LF - 1)%nat with 0%nat.
  rewrite (removelast_last (splitFrom LF 0 cur x) EmptyString (splitFrom_not_nil _ _ _ _)) at 3.
  now rewrite <- List.app_assoc.
Qed.

(** Joining lines and splitting the text again gives the lines, each split
    at the line feeds it holds. *)
Lemma Split_Join_LF (lines : list string) :
  lines <> [] -> Split (Join lines LF) LF = flat_map (fun line => Split line LF) lines.
Proof.
  induction lines as [|x [|y lines] IH]; [congruence | |]; intros _.
  - cbn. now rewrite List.app_nil_r.
  - change (Join (x :: y :: lines) LF) with (x +:+ LF +:+ Join (y :: lines) LF).
    unfold Split at 1. rewrite splitFrom_LF_line. cbn [flat_map]. f_equal.
    apply IH. discriminate.
Qed.

Lemma splitFrom_LF_free (s cur : string) :
  Contains s LF = false -> splitFrom LF 0 cur s = [cur +:+ s].
Proof.
  revert cur. induction s as [|c s IH]; intros cur H; [now rewrite append_empty_r |].
  cbn [Contains] in H. apply orb_false_iff in H as [H1 H2].
  cbn [splitFrom]. rewrite H1, IH by exact H2. now rewrite append_assoc.
Qed.

Lemma Split_LF_free (s : string) : Contains s LF = false -> Split s LF = [s].
Proof. intros H. unfold Split. now rewrite splitFrom_LF_free. Qed.

Lemma flat_map_Split_lines (lines : list string) :
  Forall (fun line => Contains line LF = false) lines ->
  flat_map (fun line => Split line LF) lines = lines.
Proof.
  induction 1 as [|x l Hx _ IH]; [reflexivity |]. cbn [flat_map].
  now rewrite Split_LF_free, IH.
Qed.

(** No piece of a split at line feeds holds a line feed. *)
Lemma splitFrom_LF_pieces (s cur : string) :
  Contains cur LF = false ->
  Forall (fun piece => Contains piece LF = false) (splitFrom LF 0 cur s).
Proof.
  revert cur. induction s as [|c s IH]; intros cur Hcur; cbn [splitFrom].
  - now constructor.
  - destruct (HasPrefix (String c s) LF) eqn:E.
    + constructor; [exact Hcur |]. now apply IH.
    + apply IH. rewrite Contains_LF_app, Hcur, Contains_LF_cons.
      rewrite (HasPrefix_LF c EmptyString s), E. reflexivity.
Qed.

Lemma Split_LF_pieces (s : string) :
  Forall (fun piece => Contains piece LF = false) (Split s LF).
Proof. now apply splitFrom_LF_pieces. Qed.

(** ** Trimming *)

Lemma rev_involutive (s : string) : String.rev (String.rev s) = s.
Proof.
  induction s as [|c s IH]; [reflexivity |].
  change (String c s) with (String c EmptyString +:+ s) at 1.
  rewrite !rev_append, IH. reflexivity.
Qed.

(** What is left after dropping white space is the end of the string. *)
Lemma trimLeftFrom_suffix (runes : list string) (skip : nat) (s : string) :
  exists dropped, s = dropped +:+ trimLeftFrom runes skip s.
Proof.
  revert skip. induction s as [|c s IH]; intros skip; [now exists EmptyString |].
  cbn [trimLeftFrom].
  assert (Hdrop : forall k, exists dropped,
             String c s = dropped +:+ trimLeftFrom runes k s).
  { intros k. destruct (IH k) as [d Hd]. exists (String c d). now rewrite append_cons, <- Hd. }
  destruct skip; [| apply Hdrop].
  destruct (leadingSpace runes (String c s)); [apply Hdrop | now exists EmptyString].
Qed.

(** What is left starts with no white space. *)
Lemma trimLeftFrom_done (runes : list string) (skip : nat) (s : string) :
  trimLeftFrom runes skip s = EmptyString
  \/ leadingSpace runes (trimLeftFrom runes skip s) = None.
Proof.
  revert skip. induction s as [|c s IH]; intros skip; [now left |].
  cbn [trimLeftFrom]. destruct skip; [| apply IH].
  destruct (leadingSpace runes (String c s)) eqn:E; [apply IH | now right].
Qed.

Lemma trimLeftFrom_fixed (runes : list string) (s : string) :
  s = EmptyString \/ leadingSpace runes s = None -> trimLeftFrom runes 0 s = s.
Proof.
  intros [->|H]; [reflexivity |]. destruct s as [|c s]; [reflexivity |].
  cbn [trimLeftFrom]. now rewrite H.
Qed.

Lemma TrimRightSpace_prefix (s : string) : exists dropped, s = TrimRightSpace s +:+ dropped.
Proof.
  unfold TrimRightSpace.
  destruct (trimLeftFrom_suffix (map String.rev spaceRunes) 0 (String.rev s)) as [d Hd].
  exists (String.rev d). rewrite <- rev_append, <- Hd. now rewrite rev_involutive.
Qed.

Lemma HasPrefix_app_mono (p q r : string) :
  HasPrefix p r = true -> HasPrefix (p +:+ q) r = true.
Proof.
  intros H. apply HasPrefix_inv in H as [rest ->]. rewrite append_assoc. apply HasPrefix_append.
Qed.

Lemma leadingSpace_prefix (runes : list string) (p q : string) :
  leadingSpace runes (p +:+ q) = None -> leadingSpace runes p = None.
Proof.
  unfold leadingSpace. induction runes as [|r runes IH]; [reflexivity |]. cbn [find].
  destruct (HasPrefix p r) eqn:E.
  - now rewrite (HasPrefix_app_mono p q r E).
  - destruct (HasPrefix (p +:+ q) r); [discriminate | exact IH].
Qed.

(** The trimmed part stands between a dropped head and a dropped tail. *)
Lemma TrimSpace_within (s : string) :
  exists before after, s = before +:+ TrimSpace s +:+ after.
Proof.
  unfold TrimSpace, TrimLeftSpace.
  destruct (trimLeftFrom_suffix spaceRunes 0 s) as [before Hbefore].
  destruct (TrimRightSpace_prefix (trimLeftFrom spaceRunes 0 s)) as [after Hafter].
  exists before, after. now rewrite <- Hafter.
Qed.

(** Trimming a trimmed string changes nothing. *)
Lemma TrimSpace_idempotent (s : string) : TrimSpace (TrimSpace s) = TrimSpace s.
Proof.
  unfold TrimSpace at 1 2. set (t := TrimLeftSpace s).
  assert (Hleft : TrimLeftSpace (TrimRightSpace t) = TrimRightSpace t).
  { apply trimLeftFrom_fixed.
    destruct (TrimRightSpace_prefix t) as [d Hd].
    destruct (trimLeftFrom_done spaceRunes 0 s) as [Ht|Ht]; fold (TrimLeftSpace s) in Ht; fold t in Ht.
    - left. rewrite Ht. reflexivity.
    - right. rewrite Hd in Ht. now apply leadingSpace_prefix in Ht. }
  rewrite Hleft. unfold TrimRightSpace at 1. unfold TrimRightSpace at 1.
  rewrite rev_involutive. rewrite trimLeftFrom_fixed by apply trimLeftFrom_done.
  reflexivity.
Qed.

(** A line that starts with a byte no white space starts with, other than
    the dash, is no divider. *)
Lemma solid_start_no_divider (c : ascii) (s : string) :
  forallb (fun r => negb (HasPrefix (String c EmptyString) (String.substring 0 1 r))) spaceRunes = true ->
  c <> "-"%char ->
  classify (String c s) <> Divider.
Proof.
  intros Hrunes Hdash.
  assert (Hnone : leadingSpace spaceRunes (String c s) = None).
  { unfold leadingSpace. revert Hrunes. generalize spaceRunes as runes.
    induction runes as [|r runes IH]; [reflexivity |]. cbn [forallb find]. intros H.
    apply andb_true_iff in H as [Hr H]. apply negb_true_iff in Hr.
    assert (E : HasPrefix (String c s) r = false).
    { destruct r as [|d r]; [discriminate Hr |]. unfold HasPrefix in *. cbn in *.
      destruct r; cbn in Hr; destruct (ascii_dec d c); try reflexivity; discriminate. }
    rewrite E. now apply IH. }
  unfold classify, TrimSpace, TrimLeftSpace.
  rewrite (trimLeftFrom_fixed spaceRunes (String c s)) by now right.
  destruct (TrimRightSpace_prefix (String c s)) as [d Hd].
  destruct (TrimRightSpace (String c s)) as [|c' p].
  - cbn. discriminate.
  - rewrite append_cons in Hd. injection Hd as <- _.
    assert (E : HasPrefix (String c p) "---" = false).
    { unfold HasPrefix. cbn [String.prefix]. destruct (ascii_dec "-" c) as [<-|]; [contradiction |].
      reflexivity. }
    rewrite E. cbn [String.eqb]. discriminate.
Qed.

(** ** Capture *)

Lemma capture_skip (lines rest : list string) :
  Forall (fun line => classify line <> Divider) lines ->
  capture false (lines ++ rest) = capture false rest.
Proof.
  induction 1 as [|line lines Hline _ IH]; [reflexivity |]. cbn [app capture].
  destruct (classify line); [contradiction | exact IH | exact IH].
Qed.

Lemma capture_rows (rows rest : list string) :
  Forall (fun row => classify row = Row row) rows ->
  capture true (rows ++ rest) = rows ++ capture true rest.
Proof.
  induction 1 as [|row rows Hrow _ IH]; [reflexivity |]. cbn [app capture].
  now rewrite Hrow, IH.
Qed.

(** Every entry read from lines is a row: trimmed, not blank, no divider,
    and within one line. *)
Lemma captured_are_rows (lines : list string) (capturing : bool) :
  Forall (fun line => Contains line LF = false) lines ->
  Forall isRow (capture capturing lines).
Proof.
  intros H. revert capturing. induction H as [|line lines Hline _ IH]; intros capturing;
    [constructor |].
  cbn [capture]. unfold classify at 1.
  destruct (HasPrefix (TrimSpace line) "---") eqn:Hdiv; [apply IH |].
  destruct (String.eqb (TrimSpace line) EmptyString) eqn:Hblank; [apply IH |].
  destruct capturing; [| apply IH]. constructor; [| apply IH]. split.
  - unfold classify. now rewrite TrimSpace_idempotent, Hdiv, Hblank.
  - destruct (TrimSpace_within line) as (before & after & Hline').
    rewrite Hline', !Contains_LF_app in Hline.
    apply orb_false_iff in Hline as [_ Hline]. now apply orb_false_iff in Hline as [Hline _].
Qed.

Lemma bodyEntries_are_rows (body : string) : Forall isRow (bodyEntries body).
Proof. apply captured_are_rows, Split_LF_pieces. Qed.

(** ** The comment that is written is the comment that is read *)

Lemma Join_last (lines : list string) (x sep : string) :
  lines <> [] -> Join (lines ++ [x]) sep = Join lines sep +:+ sep +:+ x.
Proof.
  induction lines as [|a [|b lines] IH]; [congruence | reflexivity |]. intros _.
  change (Join ((a :: b :: lines) ++ [x]) sep)
    with (a +:+ sep +:+ Join ((b :: lines) ++ [x]) sep).
  rewrite IH by discriminate.
  change (Join (a :: b :: lines) sep) with (a +:+ sep +:+ Join (b :: lines) sep).
  now rewrite !append_assoc.
Qed.

Lemma Contains_self (s : string) : Contains s s = true.
Proof.
  pose proof (HasPrefix_append s EmptyString) as H. rewrite append_empty_r in H.
  destruct s; cbn [Contains]; now rewrite H.
Qed.

Lemma Contains_append_r (a b sub : string) :
  Contains b sub = true -> Contains (a +:+ b) sub = true.
Proof.
  intros H. induction a as [|c a IH]; [now rewrite append_nil |].
  rewrite append_cons. cbn [Contains]. rewrite IH. apply orb_true_r.
Qed.

(** Every comment of a batch that is not empty ends with the marker. *)
Lemma createComment_marked (reportTemplate : option Template) (pj0 : ProwJob.t)
    (rest : list ProwJob.t) (entries : list string) (body : string) :
  createComment reportTemplate (pj0 :: rest) entries = Ok body ->
  exists text, body = text +:+ LF +:+ commentTag.
Proof.
  rewrite createComment_eq.
  destruct (execute reportTemplate pj0) as [b| |]; cbn; try discriminate.
  destruct (commentAuthor pj0) as [author|]; cbn; [| discriminate].
  intros H. injection H as <-.
  change closingLines
    with ([EmptyString; "<details>"; EmptyString; AboutThisBot; "</details>"] ++ [commentTag]).
  rewrite !List.app_assoc. eexists. apply Join_last.
  intros E. apply app_eq_nil in E as [_ E]. discriminate E.
Qed.

(** X4. A comment rendered for a batch that is not empty ends with
    the marker on a line of its own, so the reporter recognises it as its
    own report later; the empty batch renders the empty text, which carries
    no marker. *)
Theorem rendered_comment_is_marked (reportTemplate : option Template) (pjs : list ProwJob.t)
    (entries : list string) (body : string) :
  createComment reportTemplate pjs entries = Ok body ->
  match pjs with
  | [] => body = EmptyString
  | _ :: _ =>
      (exists text, body = text +:+ LF +:+ commentTag)
      /\ Contains body commentTag = true
  end.
Proof.
  destruct pjs as [|pj0 rest]; intros H.
  - now injection H as <-.
  - destruct (createComment_marked _ _ _ _ _ H) as [text ->]. split; [now exists text |].
    apply Contains_append_r, Contains_append_r, Contains_self.
Qed.

(** The comment of one job of [TestCreateComment] carries the marker. *)
Lemma rendered_comment_is_marked_witness :
  exists body,
    createComment emptyTemplate [commentJob "job1"] [] = Ok body
    /\ Contains body commentTag = true.
Proof.
  eexists. split; [reflexivity |].
  exact (proj2 (rendered_comment_is_marked emptyTemplate [commentJob "job1"] [] _ eq_refl)).
Defined.

(** *** The lines of a rendered comment *)

Lemma classify_empty : classify EmptyString = Blank.
Proof. reflexivity. Qed.

(** After the entries: a blank line closes the table, and no line of the
    closing block opens one again. *)
Lemma capture_tail (reportTemplate : option Template) (b : string) (capturing : bool) :
  dividerFree b ->
  capture capturing
    (flat_map (fun line => Split line LF) (templateLines reportTemplate b ++ closingLines))
  = [].
Proof.
  intros Hb.
  assert (Hclosing : flat_map (fun line => Split line LF) closingLines = closingLines)
    by (vm_compute; reflexivity).
  assert (Hnone : capture false closingLines = []) by (vm_compute; reflexivity).
  rewrite flat_map_app, Hclosing. destruct reportTemplate as [t|]; cbn [templateLines flat_map].
  - change (Split EmptyString LF) with [EmptyString]. cbn [app capture].
    rewrite classify_empty, List.app_nil_r, capture_skip by exact Hb. exact Hnone.
  - cbn [app]. unfold closingLines at 1. cbn [capture]. rewrite classify_empty. exact Hnone.
Qed.

Lemma solid_at : 
  forallb (fun r => negb (HasPrefix (String "@" EmptyString) (String.substring 0 1 r)))
    spaceRunes = true.
Proof. vm_compute. reflexivity. Qed.

Lemma capture_passed_header (author : string) (rest : list string) :
  Contains author LF = false ->
  capture false (flat_map (fun line => Split line LF) (passedLines author) ++ rest)
  = capture false rest.
Proof.
  intros Hauthor. apply capture_skip. unfold passedLines. cbn [flat_map].
  rewrite Split_LF_free.
  - change (Split EmptyString LF) with [EmptyString]. cbn [app].
    constructor; [| constructor; [now rewrite classify_empty | constructor]].
    rewrite append_cons. apply solid_start_no_divider; [exact solid_at | discriminate].
  - rewrite !Contains_LF_app, Hauthor. reflexivity.
Qed.

Lemma capture_failed_header (postsubmit : bool) (author plural : string) (rest : list string) :
  Contains author LF = false ->
  Contains plural LF = false ->
  capture false (flat_map (fun line => Split line LF) (failedLines postsubmit author plural) ++ rest)
  = capture true rest.
Proof.
  intros Hauthor Hplural.
  assert (Hfirst : forall tail, Contains tail LF = false ->
            Split ("@" +:+ author +:+ ": The following test" +:+ plural +:+ tail) LF
            = ["@" +:+ author +:+ ": The following test" +:+ plural +:+ tail]).
  { intros tail Htail. apply Split_LF_free. rewrite !Contains_LF_app, Hauthor, Hplural, Htail.
    reflexivity. }
  assert (Hsolid : forall s, classify ("@" +:+ s) <> Divider).
  { intros s. rewrite append_cons. apply solid_start_no_divider; [exact solid_at | discriminate]. }
  unfold failedLines. destruct postsubmit; cbn [flat_map];
    rewrite Hfirst by reflexivity; cbn [app capture];
    match goal with |- context [classify ("@" +:+ ?s)] =>
      pose proof (Hsolid s) as Hs; destruct (classify ("@" +:+ s)); [contradiction | |]
    end; reflexivity.
Qed.

(** The entries of a rendered comment, read back. *)
Lemma createComment_read_back (reportTemplate : option Template) (pj0 : ProwJob.t)
    (rest : list ProwJob.t) (rows : list string) (author b : string) :
  commentAuthor pj0 = Some author ->
  Contains author LF = false ->
  execute reportTemplate pj0 = Ok b ->
  dividerFree b ->
  Forall isRow rows ->
  exists body,
    createComment reportTemplate (pj0 :: rest) rows = Ok body
    /\ bodyEntries body = rows.
Proof.
  intros Hauthor Hline Hexec Hb Hrows.
  rewrite createComment_eq, Hexec. cbn. rewrite Hauthor. cbn.
  eexists. split; [reflexivity |].
  unfold bodyEntries. rewrite Split_Join_LF
    by (intros E; do 3 apply app_eq_nil in E as [_ E]; discriminate E).
  rewrite !flat_map_app, <- flat_map_app.
  destruct rows as [|row more].
  - cbn [flat_map app]. rewrite capture_passed_header by exact Hline.
    now apply capture_tail.
  - rewrite capture_failed_header;
      [| exact Hline | destruct more; reflexivity].
    rewrite (flat_map_Split_lines (row :: more)).
    + rewrite capture_rows.
      * rewrite capture_tail by exact Hb. apply List.app_nil_r.
      * eapply List.Forall_impl; [| exact Hrows]. now intros e [He _].
    + eapply List.Forall_impl; [| exact Hrows]. now intros e [_ He].
Qed.

(** X5. A comment rendered from rows is read back as these rows:
    with an author that holds no line feed, a template whose output has no
    divider line, and entries that are rows (one line each, trimmed, not
    blank, no divider), the comment is rendered and the scanner of the
    reconciler finds in it exactly the entries it was rendered from, in
    their order. *)
Theorem rendered_entries_are_read_back (reportTemplate : option Template) (pj0 : ProwJob.t)
    (rest : list ProwJob.t) (rows : list string) (author b : string) :
  commentAuthor pj0 = Some author ->
  Contains author LF = false ->
  execute reportTemplate pj0 = Ok b ->
  dividerFree b ->
  Forall isRow rows ->
  exists body,
    createComment reportTemplate (pj0 :: rest) rows = Ok body
    /\ scanBody [] body = rows.
Proof.
  intros Hauthor Hline Hexec Hb Hrows.
  destruct (createComment_read_back reportTemplate pj0 rest rows author b
              Hauthor Hline Hexec Hb Hrows) as (body & Hbody & Hback).
  exists body. split; [exact Hbody |]. now rewrite scanBody_bodyEntries.
Qed.

(** Two rows of the tests, rendered with the template that prints the name
    of the job, and read back. *)
Lemma rendered_entries_are_read_back_witness :
  exists body,
    createComment jobNameTemplate [commentJob "job1"]
      [createReportEntry "bla test" true +:+ "``"; "foo test | beep | boop"] = Ok body
    /\ scanBody [] body
       = [createReportEntry "bla test" true +:+ "``"; "foo test | beep | boop"].
Proof.
  apply (rendered_entries_are_read_back jobNameTemplate (commentJob "job1") []
           [createReportEntry "bla test" true +:+ "``"; "foo test | beep | boop"]
           "chaodaig" "job1").
  - reflexivity.
  - reflexivity.
  - reflexivity.
  - repeat constructor; vm_compute; discriminate.
  - repeat constructor; vm_compute; reflexivity.
Defined.

(** ** A run after a run *)

Lemma no_failure_no_fresh (pjs : list ProwJob.t) :
  mustCreateNew pjs = false -> List.filter failed pjs = [].
Proof.
  rewrite mustCreateNew_filter. destruct (List.filter failed pjs); [reflexivity | discriminate].
Qed.

Lemma survivors_sub (pjs : list ProwJob.t) (history : list string) (e : string) :
  In e (survivors pjs history) -> In e history.
Proof. intros H. apply filter_In in H as [H _]. now apply lastOfEachKey_sub. Qed.

Lemma scanned_entries_are_rows (isBot : string -> bool) (ics : list IssueComment.t) :
  Forall isRow (entries (scanComments isBot ics)).
Proof.
  rewrite (scanComments_eq isBot ics). cbn [entries].
  induction (List.filter (ownMarked isBot) ics) as [|ic own IH]; [constructor |].
  cbn [flat_map]. apply List.Forall_app. split; [apply bodyEntries_are_rows | exact IH].
Qed.

(** Rows with pairwise distinct keys that no job of the batch has, rendered
    for a batch without failed job, are what the reconciler reads from the
    rendered comment; it keeps the comment for the update. *)
Lemma rendered_report_reparsed (reportTemplate : option Template) (pj0 : ProwJob.t)
    (rest : list ProwJob.t) (isBot : string -> bool) (rows : list string) (author b : string) :
  mustCreateNew (pj0 :: rest) = false ->
  Forall isRow rows ->
  List.NoDup (map contextKey rows) ->
  (forall e, In e rows -> inBatch (pj0 :: rest) e = false) ->
  rows <> [] ->
  commentAuthor pj0 = Some author ->
  Contains author LF = false ->
  execute reportTemplate pj0 = Ok b ->
  dividerFree b ->
  exists body,
    createComment reportTemplate (pj0 :: rest) rows = Ok body
    /\ forall (ics' : list IssueComment.t) (id : Z) (user : User.t),
         id <> 0%Z ->
         List.filter (ownMarked isBot) ics' = [IssueComment.mk id body user] ->
         parseIssueComments (pj0 :: rest) isBot ics' = Some ([], rows, id).
Proof.
  intros Hpassed Hrows Hkeys Hbatch Hsome Hauthor Hline Hexec Hb.
  pose proof (no_failure_no_fresh _ Hpassed) as Hfresh.
  destruct (createComment_read_back reportTemplate pj0 rest rows author b
              Hauthor Hline Hexec Hb Hrows) as (body & Hbody & Hback).
  exists body. split; [exact Hbody |].
  intros ics' id user Hid Hown.
  rewrite parseIssueComments_eq, Hfresh. cbn [mapM mbind option_bind mret option_ret].
  rewrite (scanComments_eq isBot ics'), Hown. cbv zeta.
  cbn [map IssueComment.ID IssueComment.Body removelast List.last List.filter flat_map
       previousComments latestComment entries].
  rewrite Hback, !List.app_nil_r.
  rewrite (survivors_settled _ _ Hkeys Hbatch), Hpassed.
  destruct rows as [|e more]; [contradiction | reflexivity].
Qed.

(** X6. A run that found no failed job is stable: when the comment it
    renders from the entries it returned is then the only own and marked
    comment of the history, the next run over the same batch returns the
    same entries, deletes nothing and names this comment as the one to
    update. The author holds no line feed and the output of the template
    has no divider line. *)
Theorem report_is_stable (reportTemplate : option Template) (pj0 : ProwJob.t)
    (rest : list ProwJob.t) (isBot : string -> bool) (ics : list IssueComment.t)
    (deletes : list Z) (newEntries : list string) (updateID : Z) (author b : string) :
  mustCreateNew (pj0 :: rest) = false ->
  parseIssueComments (pj0 :: rest) isBot ics = Some (deletes, newEntries, updateID) ->
  newEntries <> [] ->
  commentAuthor pj0 = Some author ->
  Contains author LF = false ->
  execute reportTemplate pj0 = Ok b ->
  dividerFree b ->
  exists body,
    createComment reportTemplate (pj0 :: rest) newEntries = Ok body
    /\ forall (ics' : list IssueComment.t) (id : Z) (user : User.t),
         id <> 0%Z ->
         List.filter (ownMarked isBot) ics' = [IssueComment.mk id body user] ->
         parseIssueComments (pj0 :: rest) isBot ics' = Some ([], newEntries, id).
Proof.
  intros Hpassed Hparse Hsome Hauthor Hline Hexec Hb.
  pose proof (no_failure_no_fresh _ Hpassed) as Hfresh.
  destruct (reconciler_result _ _ _ _ _ _ Hparse) as (fresh & Hmap & Hnew & _ & _).
  rewrite Hfresh in Hmap. injection Hmap as <-. rewrite List.app_nil_r in Hnew.
  apply (rendered_report_reparsed reportTemplate pj0 rest isBot newEntries author b);
    try assumption; rewrite Hnew.
  - apply List.Forall_forall. intros e He. apply survivors_sub in He.
    pose proof (scanned_entries_are_rows isBot ics) as Hall.
    rewrite List.Forall_forall in Hall. now apply Hall.
  - apply survivors_keys.
  - intros e. apply survivors_not_inBatch.
Qed.

(** The passed job of the tests next to the row of another test: the row is
    kept, written, and found again by the next run. *)
Lemma report_is_stable_witness :
  exists body,
    createComment emptyTemplate [testJob "bla test" StatusSuccess false]
      ["foo test | beep | boop"] = Ok body
    /\ forall (ics' : list IssueComment.t) (id : Z) (user : User.t),
         id <> 0%Z ->
         List.filter (ownMarked testIsBot) ics' = [IssueComment.mk id body user] ->
         parseIssueComments [testJob "bla test" StatusSuccess false] testIsBot ics'
         = Some ([], ["foo test | beep | boop"], id).
Proof.
  apply (report_is_stable emptyTemplate (testJob "bla test" StatusSuccess false) [] testIsBot
           [testComment 124 ("--- | --- | ---" +:+ LF +:+ "foo test | beep | boop"
                             +:+ LF +:+ LF +:+ commentTag)]
           [] ["foo test | beep | boop"] 124%Z EmptyString EmptyString).
  - reflexivity.
  - vm_compute. reflexivity.
  - discriminate.
  - reflexivity.
  - reflexivity.
  - reflexivity.
  - repeat constructor; vm_compute; discriminate.
Defined.

(** ** The key of a fresh entry *)

Lemma HasPrefix_long (x y p : string) :
  (String.length p <= String.length x)%nat -> HasPrefix (x +:+ y) p = HasPrefix x p.
Proof.
  revert x. induction p as [|c p IH]; intros x H; [now rewrite !HasPrefix_empty |].
  destruct x as [|d x]; [simpl in H; lia |].
  rewrite append_cons. unfold HasPrefix in *. cbn [String.prefix].
  destruct (ascii_dec c d); [| reflexivity].
  apply IH. simpl in H. lia.
Qed.

Lemma length_append (a b : string) :
  String.length (a +:+ b) = (String.length a + String.length b)%nat.
Proof.
  induction a as [|c a IH]; [reflexivity |]. rewrite append_cons. simpl. now rewrite IH.
Qed.

(** A field that neither holds the delimiter nor ends in its first two
    bytes is the key of the row it opens. *)
Lemma contextKey_first_field (field rest : string) :
  Contains (field +:+ " |") " | " = false ->
  contextKey (field +:+ " | " +:+ rest) = field.
Proof.
  intros H. unfold contextKey. apply beforeFirst_earliest.
  intros a1 a2 -> Hne.
  change (a2 +:+ " | " +:+ rest) with (a2 +:+ (" |" +:+ (" " +:+ rest))).
  rewrite <- append_assoc, HasPrefix_long.
  - destruct (HasPrefix (a2 +:+ " |") " | ") eqn:E; [| reflexivity].
    rewrite append_assoc in H.
    assert (Ht : Contains (a1 +:+ a2 +:+ " |") " | " = true).
    { apply Contains_append_r. destruct a2; [contradiction |].
      rewrite append_cons in *. cbn [Contains]. now rewrite E. }
    congruence.
  - rewrite length_append. destruct a2; [contradiction |]. simpl. lia.
Qed.

Lemma renderedEntry_key (pj : ProwJob.t) (commit : string) :
  Contains (jobContext pj +:+ " |") " | " = false ->
  contextKey (renderedEntry pj commit) = jobContext pj.
Proof.
  intros H. unfold renderedEntry.
  destruct (String.eqb (jobType pj) PostsubmitJob);
    match goal with |- contextKey (Join (?c :: ?x :: ?l) ?sep) = _ =>
      change (Join (c :: x :: l) sep) with (c +:+ sep +:+ Join (x :: l) sep)
    end; now apply contextKey_first_field.
Qed.

(** X7. The row rendered for a job is read back under the context of the
    job, provided the context neither holds the delimiter " | " nor ends in
    " |": its first field is the context, and a batch that holds the job
    never carries the row over from the history. *)
Theorem fresh_entry_is_keyed_by_context (pj : ProwJob.t) (entry : string) :
  createEntry pj = Some entry ->
  Contains (jobContext pj +:+ " |") " | " = false ->
  firstField entry = jobContext pj
  /\ forall (pjs : list ProwJob.t) (history : list string),
       In pj pjs -> ~ In entry (keptEntries pjs history).
Proof.
  intros Hentry Hctx.
  assert (Hkey : contextKey entry = jobContext pj).
  { rewrite createEntry_eq in Hentry. destruct (entryCommit pj) as [commit|]; [| discriminate].
    injection Hentry as <-. now apply renderedEntry_key. }
  split; [now rewrite firstField_contextKey |].
  intros pjs history Hpj Hin. rewrite keptEntries_survivors in Hin.
  apply survivors_not_inBatch in Hin.
  assert (Ht : inBatch pjs entry = true).
  { apply existsb_exists. exists pj. split; [exact Hpj | rewrite Hkey; apply String.eqb_refl]. }
  congruence.
Qed.

(** The row of the failed job of the tests. *)
Lemma fresh_entry_is_keyed_by_context_witness :
  firstField "bla test |  | [link]() | true | ``" = "bla test".
Proof.
  exact (proj1 (fresh_entry_is_keyed_by_context (testJob "bla test" StatusFailure false)
                  "bla test |  | [link]() | true | ``" eq_refl eq_refl)).
Defined.

(** ** The status of a job *)

Lemma ShouldReport_valid (job : string) (validTypes : list ProwJobType) (valid : bool) :
  fold_left (fun valid t => if String.eqb job t then true else valid) validTypes valid
  = valid || existsb (String.eqb job) validTypes.
Proof.
  revert valid. induction validTypes as [|t validTypes IH]; intros valid;
    [now rewrite orb_false_r |].
  cbn [fold_left existsb]. rewrite IH. destruct (String.eqb job t); [| reflexivity].
  now rewrite orb_true_r.
Qed.

Lemma ShouldReport_valid_report (pj : ProwJob.t) (validTypes : list ProwJobType) :
  ShouldReport pj validTypes = true
  <-> ProwJobSpec.Report (ProwJob.Spec pj) = true
      /\ existsb (String.eqb (jobType pj)) validTypes = true.
Proof.
  unfold ShouldReport. cbv zeta. rewrite ShouldReport_valid. cbn [orb].
  destruct (existsb (String.eqb (jobType pj)) validTypes),
    (ProwJobSpec.Report (ProwJob.Spec pj)); cbn [negb]; intuition discriminate.
Qed.

(** X8. A job is to be reported exactly when it asks for reports and its
    type is among the valid types, wherever the type stands among them and
    however often. *)
Theorem ShouldReport_iff (pj : ProwJob.t) (validTypes : list ProwJobType) :
  ShouldReport pj validTypes = true
  <-> ProwJobSpec.Report (ProwJob.Spec pj) = true /\ In (jobType pj) validTypes.
Proof.
  rewrite ShouldReport_valid_report, existsb_exists. split; intros [Hreport H]; (split; [exact Hreport |]).
  - destruct H as (t & Hin & Ht). apply String.eqb_eq in Ht. now subst t.
  - exists (jobType pj). split; [exact H | apply String.eqb_refl].
Qed.

Section StatusRuns.

Context {G : Type}.
Variable ContextDescriptionWithBaseSha : string -> string -> string.

(** A run of [reportStatus] on a job that asks for reports, is in a known
    state and names its refs: one call, whose result is the result. *)
Lemma reportStatus_run (ghc : GitHubClient G) (pj : ProwJob.t) (refs : Refs.t)
    (contextState : string) (g : G) (log : list Call) :
  ProwJobSpec.Report (ProwJob.Spec pj) = true ->
  prowjobStateToGitHubStatus (jobState pj) = Value contextState ->
  jobRefs pj = Some refs ->
  let sha :=
    match Refs.Pulls refs with
    | pull :: _ =>
        if String.eqb (jobType pj) PostsubmitJob then Refs.BaseSHA refs else Pull.SHA pull
    | [] => Refs.BaseSHA refs
    end in
  let s := Status.mk contextState
             (ContextDescriptionWithBaseSha
                (ProwJobStatus.Description (ProwJob.Status pj)) (Refs.BaseSHA refs))
             (jobContext pj) (jobURL pj) in
  let r := CreateStatusWithContext ghc (Refs.Org refs) (Refs.Repo refs) sha s g in
  reportStatus ContextDescriptionWithBaseSha ghc pj (g, log)
  = (match snd r with Value _ => Ok tt | Error err => Failed err end,
     (fst r, log ++ [CreateStatus (Refs.Org refs) (Refs.Repo refs) sha s])).
Proof.
  intros Hreport Hstate Hrefs. cbv zeta. unfold reportStatus.
  rewrite Hreport, Hstate. run_step. run_step. rewrite Hrefs. cbn [orPanic]. cbv beta iota.
  assert (Hsha : forall pull,
            (if negb (String.eqb (jobType pj) PostsubmitJob) then Pull.SHA pull
             else Refs.BaseSHA refs)
            = (if String.eqb (jobType pj) PostsubmitJob then Refs.BaseSHA refs
               else Pull.SHA pull))
    by (intros pull; now destruct (String.eqb (jobType pj) PostsubmitJob)).
  destruct (Refs.Pulls refs) as [|pull pulls]; rewrite ?Hsha; run_step;
    match goal with |- context [CreateStatusWithContext ?c ?o ?r ?sha ?s ?g] =>
      destruct (CreateStatusWithContext c o r sha s g) as [g' [[]|err]]
    end; reflexivity.
Qed.

(** X9. The status of a job that asks for reports is set with one call, on
    the head commit of the first pull for a job that is not post-merge and
    names a pull, on the base commit otherwise, in the state mapped from the
    state of the job; an error of the client comes back as it is. *)
Theorem status_is_set_on_the_tested_commit (ghc : GitHubClient G) (pj : ProwJob.t)
    (refs : Refs.t) (contextState : string) (g : G) :
  ProwJobSpec.Report (ProwJob.Spec pj) = true ->
  prowjobStateToGitHubStatus (jobState pj) = Value contextState ->
  jobRefs pj = Some refs ->
  let sha :=
    match Refs.Pulls refs with
    | pull :: _ =>
        if String.eqb (jobType pj) PostsubmitJob then Refs.BaseSHA refs else Pull.SHA pull
    | [] => Refs.BaseSHA refs
    end in
  let s := Status.mk contextState
             (ContextDescriptionWithBaseSha
                (ProwJobStatus.Description (ProwJob.Status pj)) (Refs.BaseSHA refs))
             (jobContext pj) (jobURL pj) in
  let m := reportStatus ContextDescriptionWithBaseSha ghc pj in
  callsOf m g = [CreateStatus (Refs.Org refs) (Refs.Repo refs) sha s]
  /\ outcomeOf m g
     = match snd (CreateStatusWithContext ghc (Refs.Org refs) (Refs.Repo refs) sha s g) with
       | Value _ => Ok tt
       | Error err => Failed err
       end.
Proof.
  intros Hreport Hstate Hrefs. cbv zeta. unfold callsOf, outcomeOf.
  rewrite (reportStatus_run ghc pj refs contextState g [] Hreport Hstate Hrefs).
  split; reflexivity.
Qed.

(** A job whose state is unknown, or that does not ask for reports, makes
    no call. *)
Lemma reportStatus_no_call (ghc : GitHubClient G) (pj : ProwJob.t) (s : G * list Call) :
  (ProwJobSpec.Report (ProwJob.Spec pj) = false ->
   reportStatus ContextDescriptionWithBaseSha ghc pj s = (Ok tt, s))
  /\ (forall err,
        ProwJobSpec.Report (ProwJob.Spec pj) = true ->
        prowjobStateToGitHubStatus (jobState pj) = Error err ->
        reportStatus ContextDescriptionWithBaseSha ghc pj s = (Failed err, s)).
Proof.
  unfold reportStatus. split.
  - now intros ->.
  - intros err -> ->. reflexivity.
Qed.

(** The calls of [reportStatus]: none or one, which sets a status. *)
Lemma reportStatus_calls (ghc : GitHubClient G) (pj : ProwJob.t) (g : G) (log : list Call) :
  exists calls,
    snd (snd (reportStatus ContextDescriptionWithBaseSha ghc pj (g, log))) = log ++ calls
    /\ (length calls <= 1)%nat
    /\ Forall (fun c => isCommentCall c = false) calls.
Proof.
  destruct (ProwJobSpec.Report (ProwJob.Spec pj)) eqn:Hreport.
  - destruct (prowjobStateToGitHubStatus (jobState pj)) as [contextState|err] eqn:Hstate.
    + destruct (jobRefs pj) as [refs|] eqn:Hrefs.
      * eexists. rewrite (reportStatus_run ghc pj refs contextState g log Hreport Hstate Hrefs).
        cbn [snd]. split; [reflexivity |]. split; [simpl; lia |]. repeat constructor.
      * exists []. unfold reportStatus. rewrite Hreport, Hstate. run_step. run_step.
        rewrite Hrefs. cbn. rewrite List.app_nil_r. repeat split; [lia | constructor].
    + exists []. rewrite (proj2 (reportStatus_no_call ghc pj (g, log)) err Hreport Hstate).
      cbn. rewrite List.app_nil_r. repeat split; [lia | constructor].
  - exists []. rewrite (proj1 (reportStatus_no_call ghc pj (g, log)) Hreport).
    cbn. rewrite List.app_nil_r. repeat split; [lia | constructor].
Qed.

(** The calls of [ReportStatusContext]: none or one, which sets a status. *)
Lemma ReportStatusContext_calls (ghc : option (GitHubClient G)) (pj : ProwJob.t)
    (config : GitHubReporter.t) (g : G) :
  let calls := callsOf (ReportStatusContext ContextDescriptionWithBaseSha ghc pj config) g in
  (length calls <= 1)%nat /\ Forall (fun c => isCommentCall c = false) calls.
Proof.
  cbv zeta. unfold callsOf, ReportStatusContext.
  assert (Hnone : (length (@nil Call) <= 1)%nat /\ Forall (fun c => isCommentCall c = false) [])
    by (split; [simpl; lia | constructor]).
  destruct ghc as [client|]; [| exact Hnone].
  destruct (ShouldReport pj (GitHubReporter.JobTypesToReport config)); cbn [negb];
    [| exact Hnone].
  run_step. destruct (jobRefs pj) as [refs|]; cbn [orPanic]; cbv beta iota; [| exact Hnone].
  destruct (1 <? length (Refs.Pulls refs))%nat; [exact Hnone |].
  unfold wrapError.
  destruct (reportStatus_calls client pj g []) as (calls & Hrun & Hlen & Hall).
  cbn [app] in Hrun.
  destruct (reportStatus ContextDescriptionWithBaseSha client pj (g, [])) as [[| |] s'];
    cbv beta iota; cbn [snd] in Hrun |- *; rewrite Hrun; now split.
Qed.

(** X10. Whatever the job and the client, [ReportStatusContext] makes at
    most one call and none on comments; a job in an unknown state that is
    to be reported and names at most one pull makes no call and fails with
    the message "error setting status: Unknown prowjob state: <state>". *)
Theorem status_context_never_comments (ghc : option (GitHubClient G)) (pj : ProwJob.t)
    (config : GitHubReporter.t) (g : G) :
  let m := ReportStatusContext ContextDescriptionWithBaseSha ghc pj config in
  (length (callsOf m g) <= 1)%nat
  /\ Forall (fun c => isCommentCall c = false) (callsOf m g)
  /\ forall client refs err,
       ghc = Some client ->
       ShouldReport pj (GitHubReporter.JobTypesToReport config) = true ->
       jobRefs pj = Some refs ->
       (length (Refs.Pulls refs) <= 1)%nat ->
       prowjobStateToGitHubStatus (jobState pj) = Error err ->
       callsOf m g = []
       /\ outcomeOf m g = Failed ("error setting status: " +:+ err)
       /\ err = "Unknown prowjob state: " +:+ jobState pj.
Proof.
  cbv zeta. destruct (ReportStatusContext_calls ghc pj config g) as [Hlen Hall].
  split; [exact Hlen |]. split; [exact Hall |].
  intros client refs err -> Hshould Hrefs Hpulls Hstate.
  pose proof (proj1 (proj1 (ShouldReport_valid_report pj _) Hshould)) as Hreport.
  unfold callsOf, outcomeOf, ReportStatusContext. rewrite Hshould. cbn [negb].
  rewrite run_bind, run_lift, Hrefs. cbn [orPanic]. cbv beta iota.
  assert (Hfew : (1 <? length (Refs.Pulls refs))%nat = false) by (apply Nat.ltb_ge; lia).
  rewrite Hfew. unfold wrapError.
  rewrite (proj2 (reportStatus_no_call client pj (g, [])) err Hreport Hstate).
  repeat split.
  revert Hstate. unfold prowjobStateToGitHubStatus.
  repeat match goal with |- context [String.eqb ?a ?b] => destruct (String.eqb a b) end;
    try discriminate. now intros [= <-].
Qed.

(** X11. For a job that is not reconciled (not to be reported, not
    complete, or post-merge without comments on postsubmits) [Report] does
    what [ReportStatusContext] does: it lists, creates, edits and deletes
    no comment. *)
Theorem report_of_unreconciled_job_sets_status_only (ghc : option (GitHubClient G))
    (reportTemplate : option Template) (pj : ProwJob.t) (config : GitHubReporter.t)
    (s : G * list Call) :
  reconciled config pj = false ->
  Report ContextDescriptionWithBaseSha ghc reportTemplate pj config s
  = ReportStatusContext ContextDescriptionWithBaseSha ghc pj config s
  /\ Forall (fun c => isCommentCall c = false)
       (callsOf (Report ContextDescriptionWithBaseSha ghc reportTemplate pj config) (fst s)).
Proof.
  intros Hskip.
  assert (Hsame : forall s',
            Report ContextDescriptionWithBaseSha ghc reportTemplate pj config s'
            = ReportStatusContext ContextDescriptionWithBaseSha ghc pj config s').
  { intros s'. unfold Report. rewrite run_bind.
    destruct (ReportStatusContext ContextDescriptionWithBaseSha ghc pj config s')
      as [[[]| |] s''] eqn:E; try reflexivity.
    destruct ghc as [client|]; [| discriminate E].
    unfold ReportComment. rewrite splitJobs_eq. cbn [List.filter]. rewrite Hskip.
    cbn [andb]. reflexivity. }
  split; [apply Hsame |].
  unfold callsOf. rewrite Hsame.
  exact (proj2 (ReportStatusContext_calls ghc pj config (fst s))).
Qed.

End StatusRuns.

(** The finished postsubmit job of the tests: its status goes to the base
    commit, although its refs name a pull. *)
Lemma status_is_set_on_the_tested_commit_witness :
  callsOf (reportStatus noDescription fakeGhClient (postsubmitJob SuccessState None)) emptyFake
  = [CreateStatus "k8s" "test-infra" "SHA"
       (Status.mk StatusSuccess EmptyString "parent" "http://mytest.com")]
  /\ outcomeOf (reportStatus noDescription fakeGhClient (postsubmitJob SuccessState None))
       emptyFake
     = Ok tt.
Proof.
  exact (status_is_set_on_the_tested_commit noDescription fakeGhClient
           (postsubmitJob SuccessState None) testRefs StatusSuccess emptyFake
           eq_refl eq_refl eq_refl).
Defined.

(** The finished postsubmit job of the tests without the permission to
    comment: only its status is set. *)
Lemma report_of_unreconciled_job_sets_status_only_witness :
  Report noDescription (Some fakeGhClient) None (postsubmitJob SuccessState None)
    postsubmitsOnly (emptyFake, [])
  = ReportStatusContext noDescription (Some fakeGhClient) (postsubmitJob SuccessState None)
      postsubmitsOnly (emptyFake, []).
Proof.
  exact (proj1 (report_of_unreconciled_job_sets_status_only noDescription (Some fakeGhClient)
                  None (postsubmitJob SuccessState None) postsubmitsOnly (emptyFake, [])
                  eq_refl)).
Defined.

(** ** The synchronizer off the main path *)

Lemma In_firstn {A} (k : nat) (l : list A) (x : A) : In x (firstn k l) -> In x l.
Proof.
  revert l. induction k as [|k IH]; intros [|a l]; cbn [firstn]; try (now intros []).
  intros [<-|Hin]; [now left | right; now apply IH].
Qed.

(** The loop over the comments to delete stops at the first refusal: its
    calls are the deletions up to there, and it ends well or with the
    wrapped error of the client. *)
Lemma deletions_run_prefix {G} (ghc : GitHubClient G) (refs : Refs.t) (deletes : list Z) (g : G) :
  exists o g' k,
    (forall log,
       deleteComments ghc refs deletes (g, log)
       = (o, (g', log ++ map (DeleteComment (Refs.Org refs) (Refs.Repo refs)) (firstn k deletes))))
    /\ (o = Ok tt /\ k = length deletes
        \/ exists err, o = Failed ("error deleting comment: " +:+ err)
                       /\ (0 < k <= length deletes)%nat).
Proof.
  unfold deleteComments. revert g. induction deletes as [|delete deletes IH]; intros g.
  - exists (Ok tt), g, 0%nat. split; [| now left].
    intros log. cbn [forEach firstn map]. now rewrite List.app_nil_r.
  - destruct (DeleteCommentWithContext ghc (Refs.Org refs) (Refs.Repo refs) delete g)
      as [g1 [[]|err]] eqn:E.
    + destruct (IH g1) as (o & g' & k & Hrun & Hend).
      exists o, g', (S k). split.
      * intros log. cbn [forEach firstn map]. rewrite !run_bind, run_remote, run_orFail, E.
        cbn [fst snd]. now rewrite Hrun, <- List.app_assoc.
      * destruct Hend as [[-> ->]|(err & -> & Hk)]; [now left | right].
        exists err. split; [reflexivity | simpl; lia].
    + exists (Failed ("error deleting comment: " +:+ err)), g1, 1%nat. split.
      * intros log. cbn [forEach firstn map]. now rewrite !run_bind, run_remote, run_orFail, E.
      * right. exists err. split; [reflexivity | simpl; lia].
Qed.

(** [createOrUpdateComments] on a batch whose first job names where its
    comments live: the listing, then [syncListed]. *)
Lemma createOrUpdateComments_listed {G} (ghc : GitHubClient G)
    (reportTemplate : option Template) (pj0 : ProwJob.t) (rest : list ProwJob.t)
    (mustComment : bool) (refs : Refs.t) (listCall : Call)
    (lister : G -> G * result (list IssueComment.t)) (g : G) (log : list Call) :
  jobRefs pj0 = Some refs ->
  listingCall pj0 = Some listCall ->
  listing ghc pj0 = Some lister ->
  createOrUpdateComments ghc reportTemplate (pj0 :: rest) mustComment (g, log)
  = syncListed ghc reportTemplate (pj0 :: rest) mustComment refs
      (String.eqb (jobType pj0) PostsubmitJob) (snd (lister g)) (fst (lister g), log ++ [listCall]).
Proof.
  intros Hrefs HlistCall Hlisting. unfold createOrUpdateComments. cbn [head].
  run_step. cbn [orPanic]. cbv beta iota. run_step. rewrite Hrefs. cbn [orPanic]. cbv beta iota zeta.
  unfold listingCall in HlistCall. unfold listing in Hlisting.
  rewrite Hrefs in HlistCall, Hlisting. cbn in HlistCall, Hlisting.
  destruct (String.eqb (jobType pj0) PostsubmitJob).
  - injection HlistCall as <-. injection Hlisting as <-. now run_step.
  - destruct (Refs.Pulls refs) as [|pull pulls]; [discriminate |].
    injection HlistCall as <-. injection Hlisting as <-. now run_step.
Qed.

(** [syncListed] when a deletion is refused: the error ends the run. *)
Lemma syncListed_deletion_refused {G} (ghc : GitHubClient G) (reportTemplate : option Template)
    (pjs : list ProwJob.t) (mustComment : bool) (refs : Refs.t) (isPostsubmit : bool)
    (comments : list IssueComment.t) (g1 g2 : G) (log : list Call)
    (botNameChecker : string -> bool) (deletes : list Z) (entries : list string) (updateID : Z)
    (err : string) :
  BotUserCheckerWithContext ghc g1 = (g2, Value botNameChecker) ->
  parseIssueComments pjs botNameChecker comments = Some (deletes, entries, updateID) ->
  outcomeOf (deleteComments ghc refs deletes) g2 = Failed err ->
  exists g3 k refusal,
    syncListed ghc reportTemplate pjs mustComment refs isPostsubmit (Value comments) (g1, log)
    = (Failed err,
       (g3, log ++ BotUserChecker
              :: map (DeleteComment (Refs.Org refs) (Refs.Repo refs)) (firstn k deletes)))
    /\ (0 < k <= length deletes)%nat
    /\ err = "error deleting comment: " +:+ refusal.
Proof.
  intros Hbot Hparse Hdel. unfold syncListed.
  run_step. run_step. rewrite Hbot. cbn [fst snd]. run_step. run_step.
  rewrite Hparse. cbn [orPanic]. cbv beta iota. rewrite run_bind.
  destruct (deletions_run_prefix ghc refs deletes g2) as (o & g3 & k & Hrun & Hend).
  unfold outcomeOf in Hdel. rewrite Hrun in Hdel. cbn [fst] in Hdel. subst o.
  destruct Hend as [[Hok _]|(refusal & Herr & Hk)]; [discriminate Hok |].
  injection Herr as ->. exists g3, k, refusal. rewrite Hrun. cbv beta iota.
  now rewrite <- List.app_assoc.
Qed.

(** X12. [issueHasComment] only reads: it asks for the checker of bot
    names and then lists the comments of the issue. An error of the checker
    comes back as it is, before any listing; an error of the listing comes
    back behind "error listing comments: "; otherwise the answer is true
    exactly when a comment written by the bot contains the text. *)
Theorem issueHasComment_only_reads {G} (gc : GitHubClient G) (org repo : string) (number : Z)
    (comment : string) (g : G) :
  let m := issueHasComment gc org repo number comment in
  let checked := BotUserCheckerWithContext gc g in
  Forall (fun c => isRead c = true) (callsOf m g)
  /\ match snd checked with
     | Error err => outcomeOf m g = Failed err /\ callsOf m g = [BotUserChecker]
     | Value botNameChecker =>
         let listed := ListIssueCommentsWithContext gc org repo number (fst checked) in
         callsOf m g = [BotUserChecker; ListIssueComments org repo number]
         /\ match snd listed with
            | Error err => outcomeOf m g = Failed ("error listing comments: " +:+ err)
            | Value comments =>
                exists found,
                  outcomeOf m g = Ok found
                  /\ (found = true
                      <-> exists c, In c comments
                                    /\ botNameChecker (User.Login (IssueComment.User c)) = true
                                    /\ Contains (IssueComment.Body c) comment = true)
            end
     end.
Proof.
  cbv zeta. unfold callsOf, outcomeOf, issueHasComment.
  run_step. run_step.
  destruct (BotUserCheckerWithContext gc g) as [g1 [botNameChecker|err]]; cbn [fst snd].
  - run_step. run_step.
    destruct (ListIssueCommentsWithContext gc org repo number g1) as [g2 [comments|err]];
      cbn [fst snd].
    + rewrite run_ret. cbn [fst snd]. split; [repeat constructor |]. split; [reflexivity |].
      eexists. split; [reflexivity |]. rewrite existsb_exists.
      split; intros (c & Hin & H); exists c; (split; [exact Hin |]).
      * now apply andb_true_iff in H.
      * now apply andb_true_iff.
    + split; [repeat constructor |]. split; reflexivity.
  - rewrite append_nil. split; [repeat constructor |]. split; reflexivity.
Qed.

(** X13. The ways out of [createOrUpdateComments] before anything is
    written: a batch that is not post-merge and names no pull makes no call
    and returns no error, whatever [mustComment]; an error of the listing
    ends the run after this one call, behind "error listing comments: "; an
    error of the checker of bot names ends it after the two reads, behind
    "error getting bot name checker: ". *)
Theorem synchronizer_stops_before_writing {G} (ghc : GitHubClient G)
    (reportTemplate : option Template) (pj0 : ProwJob.t) (rest : list ProwJob.t)
    (mustComment : bool) (refs : Refs.t) (g : G) :
  jobRefs pj0 = Some refs ->
  let run := createOrUpdateComments ghc reportTemplate (pj0 :: rest) mustComment in
  (String.eqb (jobType pj0) PostsubmitJob = false -> Refs.Pulls refs = [] ->
   run (g, []) = (Ok tt, (g, [])))
  /\ (forall listCall lister g1 err,
        listingCall pj0 = Some listCall -> listing ghc pj0 = Some lister ->
        lister g = (g1, Error err) ->
        outcomeOf run g = Failed ("error listing comments: " +:+ err)
        /\ callsOf run g = [listCall])
  /\ (forall listCall lister g1 g2 comments err,
        listingCall pj0 = Some listCall -> listing ghc pj0 = Some lister ->
        lister g = (g1, Value comments) ->
        BotUserCheckerWithContext ghc g1 = (g2, Error err) ->
        outcomeOf run g = Failed ("error getting bot name checker: " +:+ err)
        /\ callsOf run g = [listCall; BotUserChecker]).
Proof.
  intros Hrefs. cbv zeta. split; [| split].
  - intros Hkind Hpulls. unfold createOrUpdateComments. cbn [head].
    run_step. cbn [orPanic]. cbv beta iota. run_step. rewrite Hrefs. cbn [orPanic]. cbv beta iota zeta.
    now rewrite Hkind, Hpulls.
  - intros listCall lister g1 err HlistCall Hlisting Hlist. unfold outcomeOf, callsOf.
    rewrite (createOrUpdateComments_listed ghc reportTemplate pj0 rest mustComment refs
               listCall lister g [] Hrefs HlistCall Hlisting), Hlist.
    cbn [fst snd]. unfold syncListed. run_step. split; reflexivity.
  - intros listCall lister g1 g2 comments err HlistCall Hlisting Hlist Hbot.
    unfold outcomeOf, callsOf.
    rewrite (createOrUpdateComments_listed ghc reportTemplate pj0 rest mustComment refs
               listCall lister g [] Hrefs HlistCall Hlisting), Hlist.
    cbn [fst snd]. unfold syncListed. run_step. run_step. rewrite Hbot. cbn [fst snd].
    run_step. split; reflexivity.
Qed.

(** The failed job without pull of the fixtures: nothing is listed and
    nothing is written, although a comment is asked for. *)
Lemma synchronizer_stops_before_writing_witness :
  createOrUpdateComments fakeGhClient None [pullLessJob] true (emptyFake, [])
  = (Ok tt, (emptyFake, [])).
Proof.
  exact (proj1 (synchronizer_stops_before_writing fakeGhClient None pullLessJob [] true
                  (Refs.mk EmptyString EmptyString EmptyString EmptyString [])
                  emptyFake eq_refl)
           eq_refl eq_refl).
Defined.

(** X14. A refused deletion ends the run: the error comes back behind
    "error deleting comment: ", the calls are the two reads and the
    deletions up to the refused one, and no comment is created or edited
    afterwards. *)
Theorem refused_deletion_ends_the_run {G} (ghc : GitHubClient G)
    (reportTemplate : option Template) (pj0 : ProwJob.t) (rest : list ProwJob.t)
    (mustComment : bool) (refs : Refs.t) (listCall : Call)
    (lister : G -> G * result (list IssueComment.t))
    (g g1 g2 : G) (comments : list IssueComment.t) (botNameChecker : string -> bool)
    (deletes : list Z) (entries : list string) (updateID : Z) (err : string) :
  let pjs := pj0 :: rest in
  let run := createOrUpdateComments ghc reportTemplate pjs mustComment in
  jobRefs pj0 = Some refs ->
  listingCall pj0 = Some listCall ->
  listing ghc pj0 = Some lister ->
  lister g = (g1, Value comments) ->
  BotUserCheckerWithContext ghc g1 = (g2, Value botNameChecker) ->
  parseIssueComments pjs botNameChecker comments = Some (deletes, entries, updateID) ->
  outcomeOf (deleteComments ghc refs deletes) g2 = Failed err ->
  outcomeOf run g = Failed err
  /\ exists k refusal,
       (0 < k <= length deletes)%nat
       /\ err = "error deleting comment: " +:+ refusal
       /\ callsOf run g
          = listCall :: BotUserChecker
              :: map (DeleteComment (Refs.Org refs) (Refs.Repo refs)) (firstn k deletes).
Proof.
  intros pjs run Hrefs HlistCall Hlisting Hlist Hbot Hparse Hdel.
  unfold outcomeOf, callsOf, run, pjs.
  rewrite (createOrUpdateComments_listed ghc reportTemplate pj0 rest mustComment refs
             listCall lister g [] Hrefs HlistCall Hlisting), Hlist.
  cbn [fst snd app].
  destruct (syncListed_deletion_refused ghc reportTemplate (pj0 :: rest) mustComment refs
              (String.eqb (jobType pj0) PostsubmitJob) comments g1 g2 [listCall]
              botNameChecker deletes entries updateID err Hbot Hparse Hdel)
    as (g3 & k & refusal & Hrun & Hk & Herr).
  rewrite Hrun. cbn [fst snd app]. split; [reflexivity |]. now exists k, refusal.
Qed.

(** A failed job on a pull that carries an older report, with a client that
    refuses to delete: the run stops at the deletion. *)
Lemma refused_deletion_ends_the_run_witness :
  outcomeOf (createOrUpdateComments refusingClient None [failedPresubmit] false) reportedPull
  = Failed "error deleting comment: not found"
  /\ exists k refusal,
       (0 < k <= length [41%Z])%nat
       /\ "error deleting comment: not found" = "error deleting comment: " +:+ refusal
       /\ callsOf (createOrUpdateComments refusingClient None [failedPresubmit] false)
            reportedPull
          = ListIssueComments "k8s" "test-infra" 1 :: BotUserChecker
              :: map (DeleteComment "k8s" "test-infra") (firstn k [41%Z]).
Proof.
  apply (refused_deletion_ends_the_run refusingClient None failedPresubmit [] false testRefs
           (ListIssueComments "k8s" "test-infra" 1)
           (ListIssueCommentsWithContext refusingClient "k8s" "test-infra" 1)
           reportedPull reportedPull reportedPull
           [IssueComment.mk 41
              ("--- | --- | ---" +:+ LF +:+ "other | SHA | [link](older)" +:+ LF +:+ LF
               +:+ commentTag)
              (User.mk fakeBotName)]
           (fun candidate => String.eqb candidate fakeBotName)
           [41%Z]
           ["other | SHA | [link](older)";
            "unit test | abcdef | [link](http://mytest.com) | unknown | `/test unit`"]
           0%Z "error deleting comment: not found").
  - reflexivity.
  - reflexivity.
  - reflexivity.
  - vm_compute. reflexivity.
  - reflexivity.
  - vm_compute. reflexivity.
  - vm_compute. reflexivity.
Defined.

(** X15. The synchronizer deletes and edits own comments only: once the
    comments are listed and the checker of bot names is known, every
    comment a call of the run deletes or edits is a comment of the listing
    that the bot wrote and that carries the marker, whether the run ends
    well, with an error or with a panic. *)
Theorem synchronizer_touches_own_comments_only {G} (ghc : GitHubClient G)
    (reportTemplate : option Template) (pj0 : ProwJob.t) (rest : list ProwJob.t)
    (mustComment : bool) (refs : Refs.t) (listCall : Call)
    (lister : G -> G * result (list IssueComment.t))
    (g g1 g2 : G) (comments : list IssueComment.t) (botNameChecker : string -> bool) :
  jobRefs pj0 = Some refs ->
  listingCall pj0 = Some listCall ->
  listing ghc pj0 = Some lister ->
  lister g = (g1, Value comments) ->
  BotUserCheckerWithContext ghc g1 = (g2, Value botNameChecker) ->
  Forall (touchesOwn botNameChecker comments)
    (callsOf (createOrUpdateComments ghc reportTemplate (pj0 :: rest) mustComment) g).
Proof.
  intros Hrefs HlistCall Hlisting Hlist Hbot.
  assert (Hlisted : touchesOwn botNameChecker comments listCall).
  { unfold listingCall in HlistCall. rewrite Hrefs in HlistCall. cbn in HlistCall.
    destruct (String.eqb (jobType pj0) PostsubmitJob); [now injection HlistCall as <- |].
    destruct (head (Refs.Pulls refs)); [now injection HlistCall as <- | discriminate]. }
  unfold callsOf.
  rewrite (createOrUpdateComments_listed ghc reportTemplate pj0 rest mustComment refs
             listCall lister g [] Hrefs HlistCall Hlisting), Hlist.
  cbn [fst snd app].
  destruct (parseIssueComments (pj0 :: rest) botNameChecker comments)
    as [[[deletes entries] updateID]|] eqn:Hparse.
  - destruct (reconciler_targets_own _ _ _ _ _ _ Hparse) as [Hdeletes Hupdate].
    assert (Hdels : forall l, (forall id, In id l -> In id deletes) ->
              Forall (touchesOwn botNameChecker comments)
                (map (DeleteComment (Refs.Org refs) (Refs.Repo refs)) l)).
    { intros l Hl. apply List.Forall_forall. intros c Hc.
      apply in_map_iff in Hc as (id & <- & Hid). apply Hdeletes, Hl, Hid. }
    destruct (outcomeOf (deleteComments ghc refs deletes) g2) as [[]|err|] eqn:Hdel.
    + rewrite (syncListed_calls ghc reportTemplate (pj0 :: rest) mustComment refs
                 (String.eqb (jobType pj0) PostsubmitJob) comments g1 g2 [listCall]
                 botNameChecker deletes entries updateID Hbot Hparse Hdel).
      cbn [app]. constructor; [exact Hlisted |]. constructor; [exact I |].
      apply List.Forall_app. split; [now apply Hdels |].
      destruct ((0 <? length entries)%nat || mustComment); [| constructor].
      destruct (createComment reportTemplate (pj0 :: rest) entries); try constructor.
      destruct (updateID =? 0)%Z eqn:Hid.
      * destruct (String.eqb (jobType pj0) PostsubmitJob); [repeat constructor |].
        destruct (head (Refs.Pulls refs)); repeat constructor.
      * constructor; [| constructor]. apply Hupdate. now apply Z.eqb_neq.
    + destruct (syncListed_deletion_refused ghc reportTemplate (pj0 :: rest) mustComment refs
                  (String.eqb (jobType pj0) PostsubmitJob) comments g1 g2 [listCall]
                  botNameChecker deletes entries updateID err Hbot Hparse Hdel)
        as (g3 & k & refusal & Hrun & _ & _).
      rewrite Hrun. cbn [fst snd app]. constructor; [exact Hlisted |]. constructor; [exact I |].
      apply Hdels. intros id Hid. exact (In_firstn _ _ _ Hid).
    + exfalso. destruct (deletions_run_prefix ghc refs deletes g2) as (o & g3 & k & Hrun & Hend).
      unfold outcomeOf in Hdel. rewrite Hrun in Hdel. cbn [fst] in Hdel. subst o.
      destruct Hend as [[Hok _]|(e & He & _)]; discriminate.
  - unfold syncListed. run_step. run_step. rewrite Hbot. cbn [fst snd]. run_step. run_step.
    rewrite Hparse. cbn [orPanic]. cbv beta iota. cbn [fst snd app].
    constructor; [exact Hlisted |]. constructor; [exact I | constructor].
Qed.

(** The failed job on the pull that carries an older report, among it a
    remark of somebody else. *)
Lemma synchronizer_touches_own_comments_only_witness :
  Forall (touchesOwn (fun candidate => String.eqb candidate fakeBotName)
            [IssueComment.mk 41
               ("--- | --- | ---" +:+ LF +:+ "other | SHA | [link](older)" +:+ LF +:+ LF
                +:+ commentTag)
               (User.mk fakeBotName)])
    (callsOf (createOrUpdateComments fakeGhClient None [failedPresubmit] false) reportedPull).
Proof.
  apply (synchronizer_touches_own_comments_only fakeGhClient None failedPresubmit [] false
           testRefs (ListIssueComments "k8s" "test-infra" 1)
           (ListIssueCommentsWithContext fakeGhClient "k8s" "test-infra" 1)
           reportedPull reportedPull reportedPull).
  - reflexivity.
  - reflexivity.
  - reflexivity.
  - vm_compute. reflexivity.
  - reflexivity.
Defined.

(** X16. A second run over an unchanged batch without failed job rewrites
    the report in place: when the comment rendered from the rows is the
    only own and marked comment of the listing, the run deletes nothing,
    creates nothing and edits this comment to the very same text. The rows
    have pairwise distinct keys that no job of the batch has, the author
    holds no line feed and the output of the template has no divider
    line. *)
Theorem rerun_rewrites_the_same_comment {G} (ghc : GitHubClient G)
    (reportTemplate : option Template) (pj0 : ProwJob.t) (rest : list ProwJob.t)
    (mustComment : bool) (refs : Refs.t) (listCall : Call)
    (lister : G -> G * result (list IssueComment.t))
    (rows : list string) (author b : string) :
  mustCreateNew (pj0 :: rest) = false ->
  Forall isRow rows ->
  List.NoDup (map contextKey rows) ->
  (forall e, In e rows -> inBatch (pj0 :: rest) e = false) ->
  rows <> [] ->
  commentAuthor pj0 = Some author ->
  Contains author LF = false ->
  execute reportTemplate pj0 = Ok b ->
  dividerFree b ->
  jobRefs pj0 = Some refs ->
  listingCall pj0 = Some listCall ->
  listing ghc pj0 = Some lister ->
  exists body,
    createComment reportTemplate (pj0 :: rest) rows = Ok body
    /\ forall (g g1 g2 : G) (comments : list IssueComment.t) (botNameChecker : string -> bool)
              (id : Z) (user : User.t),
         lister g = (g1, Value comments) ->
         BotUserCheckerWithContext ghc g1 = (g2, Value botNameChecker) ->
         id <> 0%Z ->
         List.filter (ownMarked botNameChecker) comments = [IssueComment.mk id body user] ->
         callsOf (createOrUpdateComments ghc reportTemplate (pj0 :: rest) mustComment) g
         = [listCall; BotUserChecker; EditComment (Refs.Org refs) (Refs.Repo refs) id body].
Proof.
  intros Hpassed Hrows Hkeys Hbatch Hsome Hauthor Hline Hexec Hb Hrefs HlistCall Hlisting.
  destruct (createComment_read_back reportTemplate pj0 rest rows author b
              Hauthor Hline Hexec Hb Hrows) as (body & Hbody & _).
  exists body. split; [exact Hbody |].
  intros g g1 g2 comments botNameChecker id user Hlist Hbot Hid Hown.
  destruct (rendered_report_reparsed reportTemplate pj0 rest botNameChecker rows author b
              Hpassed Hrows Hkeys Hbatch Hsome Hauthor Hline Hexec Hb)
    as (body' & Hbody' & Hparse).
  rewrite Hbody in Hbody'. injection Hbody' as <-.
  specialize (Hparse comments id user Hid Hown).
  unfold callsOf.
  rewrite (createOrUpdateComments_listed ghc reportTemplate pj0 rest mustComment refs
             listCall lister g [] Hrefs HlistCall Hlisting), Hlist.
  cbn [fst snd app].
  rewrite (syncListed_calls ghc reportTemplate (pj0 :: rest) mustComment refs
             (String.eqb (jobType pj0) PostsubmitJob) comments g1 g2 [listCall]
             botNameChecker [] rows id Hbot Hparse eq_refl).
  rewrite Hbody. apply Z.eqb_neq in Hid. rewrite Hid.
  destruct rows as [|row more]; [contradiction |]. reflexivity.
Qed.

(** The passed job on the pull of the tests, next to the row of another
    test. *)
Lemma rerun_rewrites_the_same_comment_witness :
  exists body,
    createComment None [passedPresubmit] ["other | SHA | [link](older)"] = Ok body
    /\ forall (g g1 g2 : fakeGh) (comments : list IssueComment.t)
              (botNameChecker : string -> bool) (id : Z) (user : User.t),
         ListIssueCommentsWithContext fakeGhClient "k8s" "test-infra" 1 g = (g1, Value comments) ->
         BotUserCheckerWithContext fakeGhClient g1 = (g2, Value botNameChecker) ->
         id <> 0%Z ->
         List.filter (ownMarked botNameChecker) comments = [IssueComment.mk id body user] ->
         callsOf (createOrUpdateComments fakeGhClient None [passedPresubmit] false) g
         = [ListIssueComments "k8s" "test-infra" 1; BotUserChecker;
            EditComment "k8s" "test-infra" id body].
Proof.
  apply (rerun_rewrites_the_same_comment fakeGhClient None passedPresubmit [] false testRefs
           (ListIssueComments "k8s" "test-infra" 1)
           (ListIssueCommentsWithContext fakeGhClient "k8s" "test-infra" 1)
           ["other | SHA | [link](older)"] "me" EmptyString).
  - reflexivity.
  - repeat constructor; vm_compute; reflexivity.
  - repeat constructor. intros [].
  - intros e [<-|[]]. vm_compute. reflexivity.
  - discriminate.
  - reflexivity.
  - reflexivity.
  - reflexivity.
  - repeat constructor; vm_compute; discriminate.
  - reflexivity.
  - reflexivity.
  - reflexivity.
Defined.

(** ** When the reconciler panics *)

(** X17. The reconciler panics exactly when a failed job of the batch
    cannot be rendered: its refs are nil, or it is not post-merge and its
    refs name no pull. The history has no part in it. *)
Theorem reconciler_panics_iff (pjs : list ProwJob.t) (isBot : string -> bool)
    (ics : list IssueComment.t) :
  parseIssueComments pjs isBot ics = None
  <-> exists pj,
        In pj pjs /\ jobState pj = FailureState
        /\ (jobRefs pj = None
            \/ exists refs, jobRefs pj = Some refs
                            /\ String.eqb (jobType pj) PostsubmitJob = false
                            /\ Refs.Pulls refs = []).
Proof.
  assert (Hentry : forall pj,
            createEntry pj = None
            <-> jobRefs pj = None
                \/ exists refs, jobRefs pj = Some refs
                                /\ String.eqb (jobType pj) PostsubmitJob = false
                                /\ Refs.Pulls refs = []).
  { intros pj. unfold createEntry.
    destruct (jobRefs pj) as [refs|]; cbn.
    - destruct (String.eqb (jobType pj) PostsubmitJob); cbn.
      + split; [discriminate |]. intros [H|(r & _ & H & _)]; discriminate.
      + destruct (Refs.Pulls refs) as [|pull pulls] eqn:E; cbn.
        * split; [| reflexivity]. intros _. right. now exists refs.
        * split; [discriminate |]. intros [H|(r & Hr & _ & H)]; [discriminate |].
          injection Hr as <-. congruence.
    - destruct (String.eqb (jobType pj) PostsubmitJob); cbn; (split; [now left | reflexivity]). }
  rewrite parseIssueComments_eq.
  assert (Hmap : mapM createEntry (List.filter failed pjs) = None
                 <-> exists pj, In pj pjs /\ failed pj = true /\ createEntry pj = None).
  { induction pjs as [|pj pjs IH]; cbn [List.filter].
    - split; [discriminate | now intros (pj & [] & _)].
    - destruct (failed pj) eqn:Hf.
      + cbn [mapM]. destruct (createEntry pj) as [e|] eqn:He; cbn.
        * destruct (mapM createEntry (List.filter failed pjs)) as [l|]; cbn.
          -- split; [discriminate |]. intros (pj' & [<-|Hin] & Hf' & He'); [congruence |].
             exfalso. assert (Hnone : Some l = None) by (apply IH; now exists pj').
             discriminate Hnone.
          -- split; [| reflexivity]. intros _.
             destruct (proj1 IH eq_refl) as (pj' & Hin & H). exists pj'. split; [now right | exact H].
        * split; [| reflexivity]. intros _. exists pj. split; [now left | now split].
      + rewrite IH. split; intros (pj' & Hin & Hf' & He').
        * exists pj'. split; [now right | now split].
        * destruct Hin as [<-|Hin]; [congruence |]. now exists pj'. }
  destruct (mapM createEntry (List.filter failed pjs)) as [fresh|] eqn:E; cbn.
  - split.
    + cbv zeta. destruct (_ && _); discriminate.
    + intros (pj & Hin & Hstate & Hcannot). exfalso.
      assert (Hnone : @Some (list string) fresh = None); [| discriminate].
      apply Hmap. exists pj. split; [exact Hin |]. split.
      * unfold failed. rewrite Hstate. apply String.eqb_refl.
      * now apply Hentry.
  - split; [| reflexivity]. intros _.
    destruct (proj1 Hmap eq_refl) as (pj & Hin & Hf & He). exists pj.
    split; [exact Hin |]. split; [now apply String.eqb_eq in Hf | now apply Hentry].
Qed.

(** ** The order of the versions of GKE *)

(** X18. [greater] is a strict total order on versions: no version is
    greater than itself, of two versions at most one is greater than the
    other, the relation is transitive, and two versions neither of which is
    greater than the other are the same. It is the order a sort needs, and
    the version a descending sort puts first is the one latest version. *)
Theorem greater_is_a_strict_total_order :
  (forall g, greater g g = false)
  /\ (forall g o, greater g o = true -> greater o g = false)
  /\ (forall a b c, greater a b = true -> greater b c = true -> greater a c = true)
  /\ (forall g o, greater g o = false -> greater o g = false -> g = o).
Proof.
  unfold greater. split; [| split; [| split]].
  - intros [a b c d]. cbn. rewrite !Z.eqb_refl. cbn. rewrite Z.gtb_ltb. apply Z.ltb_irrefl.
  - intros [a b c d] [a' b' c' d']; cbn.
    destruct (Z.eqb_spec a a'), (Z.eqb_spec a' a), (Z.eqb_spec b b'), (Z.eqb_spec b' b),
      (Z.eqb_spec c c'), (Z.eqb_spec c' c); cbn; rewrite ?Z.gtb_ltb, ?Z.ltb_lt, ?Z.ltb_ge; lia.
  - intros [a b c d] [a' b' c' d'] [a'' b'' c'' d'']; cbn.
    destruct (Z.eqb_spec a a'), (Z.eqb_spec a' a''), (Z.eqb_spec a a''),
      (Z.eqb_spec b b'), (Z.eqb_spec b' b''), (Z.eqb_spec b b''),
      (Z.eqb_spec c c'), (Z.eqb_spec c' c''), (Z.eqb_spec c c''); cbn;
      rewrite ?Z.gtb_ltb, ?Z.ltb_lt; lia.
  - intros [a b c d] [a' b' c' d']; cbn.
    destruct (Z.eqb_spec a a'), (Z.eqb_spec a' a), (Z.eqb_spec b b'), (Z.eqb_spec b' b),
      (Z.eqb_spec c c'), (Z.eqb_spec c' c); cbn; rewrite ?Z.gtb_ltb, ?Z.ltb_ge;
      intros; f_equal; lia.
Qed.

(** ** Carriage returns *)

Lemma HasPrefix_CR (c : ascii) (s : string) :
  HasPrefix (String c s) CR = HasPrefix (String c EmptyString) CR.
Proof.
  unfold HasPrefix, CR. cbn. destruct (ascii_dec _ c); [now destruct s | reflexivity].
Qed.

(** A rune that holds no carriage return after its first byte is a prefix
    of a string followed by a carriage return only within the string. *)
Lemma HasPrefix_before_CR (r s : string) :
  match r with
  | EmptyString => False
  | String _ r' => crFree r' = true
  end ->
  s <> EmptyString ->
  HasPrefix (s +:+ CR) r = HasPrefix s r.
Proof.
  destruct r as [|a r]; [intros [] |]. destruct s as [|b s]; [congruence |]. intros Hr _.
  rewrite append_cons. unfold HasPrefix. cbn [String.prefix].
  destruct (ascii_dec a b); [| reflexivity]. clear a b e.
  revert s. induction r as [|e r IH]; intros s.
  - fold (HasPrefix (s +:+ CR) EmptyString). fold (HasPrefix s EmptyString).
    now rewrite !HasPrefix_empty.
  - cbn [crFree] in Hr. apply andb_true_iff in Hr as [He Hr]. apply negb_true_iff in He.
    destruct s as [|f s].
    + rewrite append_nil. fold (HasPrefix CR (String e r)).
      unfold HasPrefix, CR in *. cbn in *.
      destruct (ascii_dec e (ascii_of_nat 13)) as [->|]; [| reflexivity].
      destruct (ascii_dec (ascii_of_nat 13) (ascii_of_nat 13)); [discriminate He | contradiction].
    + rewrite append_cons. cbn [String.prefix]. destruct (ascii_dec e f); [| reflexivity].
      now apply IH.
Qed.

Lemma spaceRunes_crFree :
  forallb (fun r => match r with EmptyString => false | String _ r' => crFree r' end)
    spaceRunes = true.
Proof. vm_compute. reflexivity. Qed.

Lemma leadingSpace_before_CR (s : string) :
  s <> EmptyString -> leadingSpace spaceRunes (s +:+ CR) = leadingSpace spaceRunes s.
Proof.
  intros Hs. unfold leadingSpace. f_equal.
  pose proof spaceRunes_crFree as H. revert H. generalize spaceRunes as runes.
  induction runes as [|r runes IH]; [reflexivity |]. cbn [forallb find]. intros H.
  apply andb_true_iff in H as [Hr H].
  rewrite HasPrefix_before_CR; [| destruct r; [discriminate Hr | exact Hr] | exact Hs].
  destruct (HasPrefix s r); [reflexivity | now apply IH].
Qed.

Lemma leadingSpace_length (runes : list string) (s : string) (n : nat) :
  leadingSpace runes s = Some n -> (n <= String.length s)%nat.
Proof.
  unfold leadingSpace. induction runes as [|r runes IH]; [discriminate |]. cbn [find].
  destruct (HasPrefix s r) eqn:E; [| exact IH].
  cbn. intros [= <-]. apply HasPrefix_inv in E as [rest ->]. rewrite length_append. lia.
Qed.

(** Dropping leading white space in front of a final carriage return. *)
Lemma trimLeftFrom_before_CR (s : string) (skip : nat) :
  (skip <= String.length s)%nat ->
  trimLeftFrom spaceRunes skip (s +:+ CR)
  = match trimLeftFrom spaceRunes skip s with
    | EmptyString => EmptyString
    | String c kept => String c kept +:+ CR
    end.
Proof.
  revert skip. induction s as [|c s IH]; intros skip Hskip.
  - simpl in Hskip. assert (skip = 0)%nat as -> by lia. reflexivity.
  - rewrite append_cons. cbn [trimLeftFrom]. destruct skip as [|k].
    + rewrite <- append_cons, leadingSpace_before_CR by discriminate.
      destruct (leadingSpace spaceRunes (String c s)) as [n|] eqn:E.
      * apply IH. apply leadingSpace_length in E. simpl in E. lia.
      * reflexivity.
    + apply IH. simpl in Hskip. lia.
Qed.

Lemma TrimRightSpace_CR (t : string) : TrimRightSpace (t +:+ CR) = TrimRightSpace t.
Proof.
  unfold TrimRightSpace. rewrite rev_append.
  change (String.rev CR) with CR. change (CR +:+ String.rev t) with (String (ascii_of_nat 13) (String.rev t)).
  cbn [trimLeftFrom].
  assert (H : leadingSpace (map String.rev spaceRunes) (String (ascii_of_nat 13) (String.rev t))
              = Some 1%nat)
    by (destruct (String.rev t); vm_compute; reflexivity).
  rewrite H. reflexivity.
Qed.

(** A carriage return at the end of a line is trimmed away. *)
Lemma TrimSpace_CR (line : string) : TrimSpace (line +:+ CR) = TrimSpace line.
Proof.
  unfold TrimSpace, TrimLeftSpace. rewrite trimLeftFrom_before_CR by lia.
  destruct (trimLeftFrom spaceRunes 0 line) as [|c kept]; [reflexivity |].
  apply TrimRightSpace_CR.
Qed.

Lemma classify_CR (line : string) : classify (line +:+ CR) = classify line.
Proof. unfold classify. now rewrite TrimSpace_CR. Qed.

Lemma capture_crlf (body cur : string) (capturing : bool) :
  capture capturing (splitFrom LF 0 cur (crlf body))
  = capture capturing (splitFrom LF 0 cur body).
Proof.
  revert cur capturing. induction body as [|c body IH]; intros cur capturing; [reflexivity |].
  cbn [crlf splitFrom]. rewrite (HasPrefix_LF c body EmptyString).
  destruct (HasPrefix (String c EmptyString) LF) eqn:E.
  - change (CR +:+ LF +:+ crlf body)
      with (String (ascii_of_nat 13) (String (ascii_of_nat 10) (crlf body))).
    cbn [splitFrom].
    change (HasPrefix (String (ascii_of_nat 13) (String (ascii_of_nat 10) (crlf body))) LF)
      with false.
    pose proof (HasPrefix_append LF (crlf body)) as Hsep.
    change (LF +:+ crlf body) with (String (ascii_of_nat 10) (crlf body)) in Hsep.
    rewrite Hsep. change (String.length LF - 1)%nat with 0%nat.
    change (cur +:+ String (ascii_of_nat 13) EmptyString) with (cur +:+ CR).
    cbn [capture]. rewrite classify_CR, !IH. reflexivity.
  - cbn [splitFrom]. rewrite (HasPrefix_LF c (crlf body) EmptyString), E. apply IH.
Qed.

(** X19. Line ends with a carriage return change nothing: the entries read
    from a body in which every line feed is preceded by a carriage return
    are the entries read from the body itself. *)
Theorem carriage_returns_are_ignored (known : list string) (body : string) :
  scanBody known (crlf body) = scanBody known body.
Proof.
  rewrite !scanBody_bodyEntries. unfold bodyEntries, Split. now rewrite capture_crlf.
Qed.
